(** * StudyQuality: the local storage layer and the mock API

    A shallow embedding of [storage.js] (classes [Storage], [UserStorage],
    [SessionStorage], [BackupStorage]), of the parts of [helpers.js] and
    [constants.js] they use, and of the request handlers of [api.js];
    then of [Data.deepEqual], [Data.paginate] and
    [Validation.validatePassword] of [helpers.js], of the client service
    [UsersAPI] of [api.js] and of [AuthManager.checkExistingSession] of
    [auth.js].

    Modelling conventions.
    - A decoded JSON value is a [json]; JavaScript's [undefined] is the
      [None] of [option json].  A number is the rational it denotes; NaN
      and the infinities are not represented.  The sum that advances the
      counter of ids and the difference and the quotient that give the
      minutes elapsed are rounded to the nearest double; the arithmetic
      of pages and counts is on whole numbers and exact.
    - Strings are byte strings.  [toLowerCase] folds the ASCII letters only
      and a string's length is its number of bytes, which agrees with
      JavaScript on ASCII text; the theorems that depend on either are
      stated for ASCII text.
    - An object is the list of its own properties in enumeration order,
      read without the properties it inherits.  JavaScript enumerates
      property names that are array indices first; that reordering is not
      modelled.  The theorems that depend on the order or on what an
      object inherits are stated for plain names.
    - [String(v)] and [new Date(v)] are given for values that are not
      objects with methods of their own; the theorems that print or date
      a stored value are stated for such values.
    - [localStorage] maps each raw key to the decoded form of the text stored
      under it: the medium is written only through [Storage.set], it accepts
      every write, and [JSON.parse (JSON.stringify v)] is [v] on [json].
    - One synchronous call reads the same instant from the clock at every
      [new Date()] / [Date.now()].
    - The offset of local time from UTC is the platform's and may change
      with the instant, as under daylight saving.
    - [Date.parse] reads the Date Time String Format of ECMA-262, which is
      what [toISOString] writes; what it makes of any other string is the
      platform's.
    - Console output and the artificial delay of [API.request] are omitted. *)

From Stdlib Require Import ZArith QArith Qround Qpower Lqa Lia List Sorted Bool Ascii String.
From stdpp Require Import base option list strings gmap pretty.

Open Scope Z_scope.

(** ** JSON values *)

#[warnings="-register-all"]
Inductive json : Type :=
| JNull
| JBool (b : bool)
| JNum (q : Q)
| JStr (s : string)
| JArr (items : list json)
| JObj (fields : list (string * json)).

Definition JInt (n : Z) : json := JNum (inject_Z n).

(** The platform the script runs on. *)
Record platform : Type := Platform {
  userAgent : string;                (* navigator.userAgent *)
  LocalTZA : Z -> bool -> Z;         (* LocalTZA(t, isUTC): the offset of local
                                        time, in ms, at the instant t when
                                        isUTC, at the local time t otherwise *)
  Number_toString : Z -> Q -> string; (* Number.prototype.toString(radix) of a
                                         number that is not an integer *)
  Date_parse_other : string -> option Z (* Date.parse of a string that is not
                                           in the Date Time String Format;
                                           None is NaN *)
}.

(** ** JavaScript primitives used by the sources *)
Module JS.

(** [s.toLowerCase()] *)
Definition lower_ascii (c : ascii) : ascii :=
  let n := nat_of_ascii c in
  if ((65 <=? n) && (n <=? 90))%nat then ascii_of_nat (n + 32) else c.

Fixpoint toLowerCase (s : string) : string :=
  match s with
  | EmptyString => EmptyString
  | String c s' => String (lower_ascii c) (toLowerCase s')
  end.

(** [s.startsWith(p)] and [s.includes(p)] *)
Fixpoint startsWith (p s : string) : bool :=
  match p, s with
  | EmptyString, _ => true
  | String a p', String b s' => Ascii.eqb a b && startsWith p' s'
  | String _ _, EmptyString => false
  end.

Fixpoint includes (p s : string) : bool :=
  startsWith p s ||
  match s with
  | EmptyString => false
  | String _ s' => includes p s'
  end.

(** [parts.join(sep)] on strings *)
Fixpoint join (sep : string) (parts : list string) : string :=
  match parts with
  | [] => ""
  | [p] => p
  | p :: rest => p +:+ sep +:+ join sep rest
  end.

(** [s.replace] with the global pattern for the double quote: every
    double quote becomes two. *)
Definition dquote : ascii := ascii_of_nat 34.
Definition newline : ascii := ascii_of_nat 10.

Fixpoint double_quotes (s : string) : string :=
  match s with
  | EmptyString => EmptyString
  | String c s' =>
      if Ascii.eqb c dquote then String dquote (String dquote (double_quotes s'))
      else String c (double_quotes s')
  end.

(** Truthiness of a defined value; [undefined] is falsy. *)
Definition truthy (v : json) : bool :=
  match v with
  | JNull => false
  | JBool b => b
  | JNum q => negb (Qeq_bool q 0)
  | JStr s => negb (String.eqb s "")
  | JArr _ | JObj _ => true
  end.

Definition truthy_opt (v : option json) : bool :=
  match v with Some x => truthy x | None => false end.

(** [a === b].  A decoded array or object is a fresh reference, never
    identical to another value. *)
Definition strict_eq (a b : option json) : bool :=
  match a, b with
  | None, None => true
  | Some JNull, Some JNull => true
  | Some (JBool x), Some (JBool y) => Bool.eqb x y
  | Some (JNum x), Some (JNum y) => Qeq_bool x y
  | Some (JStr x), Some (JStr y) => String.eqb x y
  | _, _ => false
  end.

(** Own properties of an object literal. *)
Fixpoint lookup_field (k : string) (fields : list (string * json)) : option json :=
  match fields with
  | [] => None
  | (k', v) :: rest => if String.eqb k k' then Some v else lookup_field k rest
  end.

(** [o[k] = v] on an object: an existing property keeps its place, a new
    one goes last. *)
Fixpoint set_field (k : string) (v : json) (fields : list (string * json))
  : list (string * json) :=
  match fields with
  | [] => [(k, v)]
  | (k', v') :: rest =>
      if String.eqb k k' then (k, v) :: rest else (k', v') :: set_field k v rest
  end.

(** Indexed elements of an array, and the characters of a string, seen as
    properties named by the decimal index. *)
Fixpoint indexed (i : nat) (items : list json) : list (string * json) :=
  match items with
  | [] => []
  | x :: rest => (pretty i, x) :: indexed (S i) rest
  end.

Fixpoint chars (s : string) : list json :=
  match s with
  | EmptyString => []
  | String c s' => JStr (String c EmptyString) :: chars s'
  end.

(** Own enumerable properties, as [Object.entries] and object spread see
    them. *)
Definition own_props (v : json) : list (string * json) :=
  match v with
  | JObj fields => fields
  | JArr items => indexed 0 items
  | JStr s => indexed 0 (chars s)
  | JNull | JBool _ | JNum _ => []
  end.

(** [v[k]] for a value other than [null] / [undefined]. *)
Definition prop (v : json) (k : string) : option json :=
  match v with
  | JObj fields => lookup_field k fields
  | JArr items =>
      if String.eqb k "length" then Some (JInt (Z.of_nat (length items)))
      else lookup_field k (indexed 0 items)
  | JStr s =>
      if String.eqb k "length" then Some (JInt (Z.of_nat (String.length s)))
      else lookup_field k (indexed 0 (chars s))
  | JNull | JBool _ | JNum _ => None
  end.

(** [{ ...fields, ...src }]: spreading [null] or [undefined] adds nothing. *)
Definition spread (fields : list (string * json)) (src : option json)
  : list (string * json) :=
  match src with
  | None => fields
  | Some v => fold_left (fun acc kv => set_field kv.1 kv.2 acc) (own_props v) fields
  end.

(** [n.toString(radix)]: an integer is printed here, the platform prints
    the other numbers. *)
Definition digit_char (d : Z) : ascii :=
  ascii_of_nat (Z.to_nat (if d <? 10 then 48 + d else 87 + d)).

Fixpoint radix_digits (fuel : nat) (radix n : Z) (acc : string) : string :=
  match fuel with
  | O => acc
  | S fuel' =>
      let acc' := String (digit_char (n mod radix)) acc in
      if n <? radix then acc' else radix_digits fuel' radix (n / radix) acc'
  end.

Definition int_to_string (radix n : Z) : string :=
  if n <? 0 then "-" +:+ radix_digits (S (Z.to_nat (Z.log2 (- n)))) radix (- n) ""
  else radix_digits (S (Z.to_nat (Z.log2 n))) radix n "".

Definition is_integer (q : Q) : bool := (Z.pos (Qden (Qred q)) =? 1).

Definition number_to_string (pf : platform) (radix : Z) (q : Q) : string :=
  if is_integer q then int_to_string radix (Qnum (Qred q))
  else Number_toString pf radix q.

(** [s.substr(n)] *)
Fixpoint substr_from (n : nat) (s : string) : string :=
  match n, s with
  | S n', String _ s' => substr_from n' s'
  | _, _ => s
  end.

(** [String(v)] *)

Fixpoint to_String (pf : platform) (v : json) : string :=
  match v with
  | JNull => "null"
  | JBool true => "true"
  | JBool false => "false"
  | JNum q => number_to_string pf 10 q
  | JStr s => s
  | JArr items =>
      join "," (map (fun x => match x with JNull => "" | _ => to_String pf x end) items)
  | JObj _ => "[object Object]"
  end.

Definition String_of (pf : platform) (v : option json) : string :=
  match v with
  | None => "undefined"
  | Some x => to_String pf x
  end.

End JS.

(** ** Rounded arithmetic

    A Number is a double.  Where the sources compute with fractions the
    result of an operation is the double nearest to the exact result, the
    one with the even significand of two that are as near (ECMA-262
    6.1.6.1).  The exponent is not bounded here: the quotients taken by
    the sources are zero or lie between 2^-16 and 2^54 in size. *)
Module Number.

(** 2^k *)
Definition pow2 (k : Z) : Q := (2 ^ k)%Q.

(** The [e] with 2^e <= q < 2^(e+1), for a positive [q]. *)
Definition exponent (q : Q) : Z :=
  let e := Z.log2 (Qnum q) - Z.log2 (Z.pos (Qden q)) in
  if Qle_bool (pow2 e) q then e else e - 1.

(** The integer nearest to [q], the even one of two that are as near. *)
Definition round_half_even (q : Q) : Z :=
  let f := Qfloor q in
  match Qcompare (q - inject_Z f) (1 # 2) with
  | Lt => f
  | Gt => f + 1
  | Eq => if Z.even f then f else f + 1
  end.

(** The double nearest to a positive rational: a significand of 53 bits. *)
Definition nearest (q : Q) : Q :=
  let e := exponent q in
  Qred (inject_Z (round_half_even (q * pow2 (52 - e))) * pow2 (e - 52)).

(** The double nearest to a rational. *)
Definition of_rational (q : Q) : Q :=
  match Qcompare q 0 with
  | Eq => 0
  | Gt => nearest q
  | Lt => - nearest (- q)
  end.

(** [a + b], [a - b], and [a / b] for a divisor other than zero *)
Definition add (a b : Q) : Q := of_rational (a + b).
Definition subtract (a b : Q) : Q := of_rational (a - b).
Definition divide (a b : Q) : Q := of_rational (a / b).

End Number.

(** ** Dates

    Time values are integral milliseconds since the epoch, as in ECMA-262.
    The civil calendar is computed with the usual era/day-of-era
    arithmetic on the proleptic Gregorian calendar. *)
Module Date.

Definition msPerDay : Z := 86400000.
Definition msPerMinute : Z := 60000.

(** Day number of the civil date [y]-[m]-[d], [m] in 1..12. *)
Definition days_from_civil (y m d : Z) : Z :=
  let y' := if m <=? 2 then y - 1 else y in
  let era := y' / 400 in
  let yoe := y' - era * 400 in
  let mp := (m + 9) mod 12 in
  let doy := (153 * mp + 2) / 5 + d - 1 in
  let doe := yoe * 365 + yoe / 4 - yoe / 100 + doy in
  era * 146097 + doe - 719468.

(** Civil date (year, month 1..12, day) of a day number. *)
Definition civil_from_days (z : Z) : Z * Z * Z :=
  let z' := z + 719468 in
  let era := z' / 146097 in
  let doe := z' - era * 146097 in
  let yoe := (doe - doe / 1460 + doe / 36524 - doe / 146096) / 365 in
  let doy := doe - (365 * yoe + yoe / 4 - yoe / 100) in
  let mp := (5 * doy + 2) / 153 in
  let d := doy - (153 * mp + 2) / 5 + 1 in
  let m := if mp <? 10 then mp + 3 else mp - 9 in
  let y := yoe + era * 400 + (if m <=? 2 then 1 else 0) in
  (y, m, d).

Definition Day (t : Z) : Z := t / msPerDay.
Definition TimeWithinDay (t : Z) : Z := t mod msPerDay.
Definition YearFromTime (t : Z) : Z := (civil_from_days (Day t)).1.1.
Definition MonthFromTime (t : Z) : Z := (civil_from_days (Day t)).1.2 - 1.
Definition DateFromTime (t : Z) : Z := (civil_from_days (Day t)).2.

(** [MakeDay(year, month, date)], [month] counted from 0 and allowed to
    overflow into neighbouring years, [date] into neighbouring months. *)
Definition MakeDay (year month date : Z) : Z :=
  days_from_civil (year + month / 12) (month mod 12 + 1) 1 + date - 1.

Definition MakeTime (h mi s ms : Z) : Z :=
  ((h * 60 + mi) * 60 + s) * 1000 + ms.

Definition MakeDate (day time : Z) : Z := day * msPerDay + time.

(** [TimeClip]: [None] is the invalid date. *)
Definition TimeClip (t : Z) : option Z :=
  if Z.abs t <=? 8640000000000000 then Some t else None.

(** [LocalTime(t)] and [UTC(t)] *)
Definition LocalTime (pf : platform) (t : Z) : Z := t + LocalTZA pf t true.
Definition UTC (pf : platform) (t : Z) : Z := t - LocalTZA pf t false.

(** [d.getMonth()] and [d.setMonth(month)] in local time. *)
Definition getMonth (pf : platform) (t : Z) : Z :=
  MonthFromTime (LocalTime pf t).

Definition setMonth (pf : platform) (t month : Z) : option Z :=
  let lt := LocalTime pf t in
  TimeClip (UTC pf (MakeDate (MakeDay (YearFromTime lt) month (DateFromTime lt))
                             (TimeWithinDay lt))).

(** Zero-padded decimal of a natural number. *)
Fixpoint pad (width : nat) (n : Z) : string :=
  match width with
  | O => ""
  | S w => pad w (n / 10) +:+ String (ascii_of_nat (48 + Z.to_nat (n mod 10))) ""
  end.

(** [d.toISOString()] of a valid date. *)
Definition toISOString (t : Z) : string :=
  let '(y, m, d) := civil_from_days (Day t) in
  let r := TimeWithinDay t in
  let year :=
    if (0 <=? y) && (y <=? 9999) then pad 4 y
    else (if y <? 0 then "-" else "+") +:+ pad 6 (Z.abs y) in
  year +:+ "-" +:+ pad 2 m +:+ "-" +:+ pad 2 d +:+ "T" +:+
  pad 2 (r / 3600000) +:+ ":" +:+ pad 2 (r / 60000 mod 60) +:+ ":" +:+
  pad 2 (r / 1000 mod 60) +:+ "." +:+ pad 3 (r mod 1000) +:+ "Z".

(** [s.split('T')[0]] *)
Fixpoint before_T (s : string) : string :=
  match s with
  | EmptyString => EmptyString
  | String c s' => if Ascii.eqb c "T" then EmptyString else String c (before_T s')
  end.

(** *** [Date.parse]: the Date Time String Format; a string that is not in
    the format, or names a day that its month does not have, is left to
    the platform. *)

Definition digit (c : ascii) : option Z :=
  let n := nat_of_ascii c in
  if ((48 <=? n) && (n <=? 57))%nat then Some (Z.of_nat n - 48) else None.

(** Reads exactly [k] digits. *)
Fixpoint digits (k : nat) (acc : Z) (s : list ascii) : option (Z * list ascii) :=
  match k with
  | O => Some (acc, s)
  | S k' =>
      match s with
      | c :: rest =>
          match digit c with
          | Some d => digits k' (acc * 10 + d) rest
          | None => None
          end
      | [] => None
      end
  end.

(** Reads [sep] followed by exactly [k] digits, if [sep] is next. *)
Definition field (sep : ascii) (k : nat) (s : list ascii)
  : option (option Z * list ascii) :=
  match s with
  | c :: rest =>
      if Ascii.eqb c sep then
        match digits k 0 rest with
        | Some (n, rest') => Some (Some n, rest')
        | None => None
        end
      else Some (None, s)
  | [] => Some (None, s)
  end.

Definition parse_year (s : list ascii) : option (Z * list ascii) :=
  match s with
  | c :: rest =>
      if Ascii.eqb c "+" then digits 6 0 rest
      else if Ascii.eqb c "-" then
        match digits 6 0 rest with
        | Some (0, _) => None
        | Some (n, rest') => Some (- n, rest')
        | None => None
        end
      else digits 4 0 s
  | [] => None
  end.

(** The offset from UTC, in minutes: [Some None] when it is absent. *)
Definition parse_offset (s : list ascii) : option (option Z) :=
  match s with
  | [] => Some None
  | c :: rest =>
      if Ascii.eqb c "Z" then
        match rest with [] => Some (Some 0) | _ => None end
      else if Ascii.eqb c "+" || Ascii.eqb c "-" then
        match digits 2 0 rest with
        | Some (h, c' :: rest') =>
            if Ascii.eqb c' ":" then
              match digits 2 0 rest' with
              | Some (mi, []) =>
                  if (h <=? 23) && (mi <=? 59) then
                    Some (Some (if Ascii.eqb c "-" then - (h * 60 + mi) else h * 60 + mi))
                  else None
              | _ => None
              end
            else None
        | _ => None
        end
      else None
  end.

(** The time of day and the offset after the ['T']. *)
Definition parse_time (s : list ascii) : option (Z * option Z) :=
  match digits 2 0 s with
  | Some (h, c :: rest) =>
      if Ascii.eqb c ":" then
        match digits 2 0 rest with
        | Some (mi, rest1) =>
            match field ":" 2 rest1 with
            | Some (sec, rest2) =>
                match (match sec with
                       | Some _ => field "." 3 rest2
                       | None => Some (None, rest2)
                       end) with
                | Some (ms, rest3) =>
                    let sec := default 0 sec in
                    let ms := default 0 ms in
                    match parse_offset rest3 with
                    | Some off =>
                        if (h <=? 23) && (mi <=? 59) && (sec <=? 59)
                           || (h =? 24) && (mi =? 0) && (sec =? 0) && (ms =? 0)
                        then Some (MakeTime h mi sec ms, off)
                        else None
                    | None => None
                    end
                | None => None
                end
            | None => None
            end
        | None => None
        end
      else None
  | _ => None
  end.

(** The day exists in the calendar. *)
Definition is_civil (y m d : Z) : bool :=
  let '(y', m', d') := civil_from_days (days_from_civil y m d) in
  (y' =? y) && (m' =? m) && (d' =? d).

Definition parse_format (pf : platform) (str : string) : option Z :=
  match parse_year (list_ascii_of_string str) with
  | Some (y, rest0) =>
      match field "-" 2 rest0 with
      | Some (mo, rest1) =>
          match (match mo with
                 | Some _ => field "-" 2 rest1
                 | None => Some (None, rest1)
                 end) with
          | Some (dd, rest2) =>
              let mo := default 1 mo in
              let dd := default 1 dd in
              if (1 <=? mo) && (mo <=? 12) && (1 <=? dd) && (dd <=? 31)
                 && is_civil y mo dd then
                let day := MakeDay y (mo - 1) dd in
                match rest2 with
                | [] => TimeClip (MakeDate day 0)
                | c :: rest3 =>
                    if Ascii.eqb c "T" then
                      match parse_time rest3 with
                      | Some (time, Some off) =>
                          TimeClip (MakeDate day time - off * msPerMinute)
                      | Some (time, None) => TimeClip (UTC pf (MakeDate day time))
                      | None => None
                      end
                    else None
                end
              else None
          | None => None
          end
      | None => None
      end
  | None => None
  end.

Definition parse (pf : platform) (str : string) : option Z :=
  match parse_format pf str with
  | Some t => Some t
  | None => Date_parse_other pf str
  end.

(** [new Date(v)]: the time value, [None] for the invalid date. *)
Definition of_value (pf : platform) (v : option json) : option Z :=
  match v with
  | None => None
  | Some JNull => Some 0
  | Some (JBool b) => Some (if b then 1 else 0)
  | Some (JNum q) => TimeClip (Z.quot (Qnum q) (Z.pos (Qden q)))
  | Some (JStr s) => parse pf s
  | Some (JArr items) => parse pf (JS.to_String pf (JArr items))
  | Some (JObj fields) => parse pf (JS.to_String pf (JObj fields))
  end.

End Date.

(** ** The state of the page and the monad of its synchronous code *)

Record world : Type := World {
  localStorage : gmap string json; (* raw key to decoded stored value *)
  nextId : Q;                      (* [userStorage.nextId] of the singleton *)
  clock : Z;                       (* the instant of the running call, in ms *)
  random : nat -> Q;               (* successive results of [Math.random()] *)
  drawn : nat;                     (* how many of them have been consumed *)
  host : platform
}.

Inductive exn : Type :=
| APIError (message : string) (status : Z)
| TypeError
| Error (message : string).

(** The result of a run.  [Unmodelled] marks a run that leaves the fragment
    of JavaScript given a meaning here (coercion of a non-number to a
    number, NaN). *)
Inductive outcome (A : Type) : Type :=
| Return (a : A)
| Throw (e : exn)
| Unmodelled.
Arguments Return {A} a.
Arguments Throw {A} e.
Arguments Unmodelled {A}.

(** Code that may throw but touches no state. *)
Definition obind {A B} (c : outcome A) (k : A -> outcome B) : outcome B :=
  match c with
  | Return a => k a
  | Throw e => Throw e
  | Unmodelled => Unmodelled
  end.

(** Code that reads and writes the page state; a thrown exception keeps the
    writes made before it. *)
Definition M (A : Type) : Type := world -> world * outcome A.

Definition ret {A} (a : A) : M A := fun w => (w, Return a).
Definition throw {A} (e : exn) : M A := fun w => (w, Throw e).
Definition unmodelled {A} : M A := fun w => (w, Unmodelled).
Definition lift {A} (c : outcome A) : M A := fun w => (w, c).

Definition bind {A B} (c : M A) (k : A -> M B) : M B :=
  fun w =>
    match c w with
    | (w', Return a) => k a w'
    | (w', Throw e) => (w', Throw e)
    | (w', Unmodelled) => (w', Unmodelled)
    end.

(** [try { c } catch (error) { h error }] *)
Definition try_catch {A} (c : M A) (h : exn -> M A) : M A :=
  fun w =>
    match c w with
    | (w', Throw e) => h e w'
    | r => r
    end.

Declare Scope js_scope.
Delimit Scope js_scope with js.
Notation "x <- c ;; k" := (bind c (fun x => k))
  (at level 100, c at next level, right associativity) : js_scope.
Notation "c ;;; k" := (bind c (fun _ => k))
  (at level 100, k at level 200, right associativity) : js_scope.
Notation "x <~ c ;; k" := (obind c (fun x => k))
  (at level 100, c at next level, right associativity) : js_scope.
Open Scope js_scope.

(** [new Date()] / [Date.now()] and [Math.random()] *)
Definition Date_now : M Z := fun w => (w, Return (clock w)).

Definition Math_random : M Q :=
  fun w =>
    (World (localStorage w) (nextId w) (clock w) (random w) (S (drawn w)) (host w),
     Return (random w (drawn w))).

Definition platform_of : M platform := fun w => (w, Return (host w)).

(** A method of [Array.prototype] called on a decoded value: anything but
    an array has no such method. *)
Definition as_array (v : json) : outcome (list json) :=
  match v with
  | JArr items => Return items
  | _ => Throw TypeError
  end.

(** [v.k] *)
Definition get_prop (v : json) (k : string) : outcome (option json) :=
  match v with
  | JNull => Throw TypeError
  | _ => Return (JS.prop v k)
  end.

(** [s.toLowerCase()] on a value that may not be a string. *)
Definition call_toLowerCase (v : option json) : outcome string :=
  match v with
  | Some (JStr s) => Return (JS.toLowerCase s)
  | _ => Throw TypeError
  end.

(** [items.findIndex(p)]: the callback runs on the elements in order until
    it answers true. *)
Fixpoint findIndex (p : json -> outcome bool) (items : list json) : outcome (option nat) :=
  match items with
  | [] => Return None
  | x :: rest =>
      b <~ p x ;;
      if b then Return (Some O)
      else
        r <~ findIndex p rest ;;
        Return (option_map S r)
  end.

(** [items.filter(p)] and [items.map(f)] with callbacks that may throw. *)
Fixpoint filterM (p : json -> outcome bool) (items : list json) : outcome (list json) :=
  match items with
  | [] => Return []
  | x :: rest =>
      b <~ p x ;;
      r <~ filterM p rest ;;
      Return (if b then x :: r else r)
  end.

Fixpoint mapM {A B} (f : A -> outcome B) (items : list A) : outcome (list B) :=
  match items with
  | [] => Return []
  | x :: rest =>
      y <~ f x ;;
      r <~ mapM f rest ;;
      Return (y :: r)
  end.

(** [items.forEach(f)] with an effectful callback. *)
Fixpoint forEach {A} (f : A -> M unit) (items : list A) : M unit :=
  match items with
  | [] => ret tt
  | x :: rest => f x ;;; forEach f rest
  end.

(** ** constants.js *)
Module STORAGE_KEYS.
Definition CURRENT_USER : string := "studyquality_current_user".
Definition USER_DATA : string := "studyquality_users".
Definition SYSTEM_SETTINGS : string := "studyquality_settings".
Definition BACKUP_DATA : string := "studyquality_backup".
Definition SESSION_DATA : string := "studyquality_session".
Definition METRICS_DATA : string := "studyquality_metrics".
Definition LOGS_DATA : string := "studyquality_logs".

(** [Object.values(STORAGE_KEYS)] *)
Definition values : list string :=
  [CURRENT_USER; USER_DATA; SYSTEM_SETTINGS; BACKUP_DATA; SESSION_DATA;
   METRICS_DATA; LOGS_DATA].
End STORAGE_KEYS.

Definition sample_user (id : Z) (name email role status registeredDate notes lastLogin : string)
  : json :=
  JObj [("id", JInt id); ("name", JStr name); ("email", JStr email);
        ("role", JStr role); ("status", JStr status);
        ("registeredDate", JStr registeredDate); ("notes", JStr notes);
        ("lastLogin", JStr lastLogin)].

Definition SAMPLE_USERS : json :=
  JArr [
    sample_user 1 "Juan Pérez" "juan@demo.com" "admin" "active" "2024-01-15"
      "Usuario administrador principal" "2024-03-15T10:30:00Z";
    sample_user 2 "María García" "maria@demo.com" "user" "active" "2024-02-20"
      "Usuario regular del sistema" "2024-03-14T15:45:00Z";
    sample_user 3 "Carlos López" "carlos@demo.com" "user" "inactive" "2024-01-30"
      "Usuario temporal" "2024-02-28T09:15:00Z";
    sample_user 4 "Ana Martínez" "ana@demo.com" "user" "active" "2024-03-01"
      "Usuario departamento de ventas" "2024-03-15T14:20:00Z";
    sample_user 5 "Roberto Silva" "roberto@demo.com" "admin" "active" "2024-02-10"
      "Administrador técnico" "2024-03-15T08:00:00Z"
  ].

Module MESSAGES.
Definition LOGIN : string := "Inicio de sesión exitoso".
Definition LOGOUT : string := "Sesión cerrada correctamente".
Definition USER_CREATED : string := "Usuario creado exitosamente".
Definition USER_UPDATED : string := "Usuario actualizado exitosamente".
Definition USER_DELETED : string := "Usuario eliminado exitosamente".
Definition DATA_EXPORTED : string := "Datos exportados correctamente".
Definition LOGIN_FAILED : string := "Credenciales incorrectas".
Definition USER_EXISTS : string := "El usuario ya existe".
Definition USER_NOT_FOUND : string := "Usuario no encontrado".
End MESSAGES.

Module API_ENDPOINTS.
Definition USERS_LIST : string := "/api/users".
Definition USERS_CREATE : string := "/api/users".
Definition USERS_BULK : string := "/api/users/bulk".
Definition REPORTS_GENERATE : string := "/api/reports/generate".
Definition REPORTS_EXPORT : string := "/api/reports/export".
Definition REPORTS_LIST : string := "/api/reports".
Definition METRICS_SYSTEM : string := "/api/metrics/system".
Definition METRICS_USERS : string := "/api/metrics/users".
Definition METRICS_PERFORMANCE : string := "/api/metrics/performance".
End API_ENDPOINTS.

(** ** helpers.js: [Data.deepClone]

    A decoded object inherits [hasOwnProperty] unless it has an own
    property of that name; an own one holds a decoded value, which cannot
    be called, so that the first [obj.hasOwnProperty(key)] throws.  The
    assignment [clonedObj[key] = ...] defines the property on the fresh
    object, except under the name [__proto__]: that one reaches the
    inherited setter and defines nothing, after its value was cloned. *)
Fixpoint deepClone (obj : json) : outcome json :=
  match obj with
  | JArr items =>
      cloned <~ mapM deepClone items ;;
      Return (JArr cloned)
  | JObj fields =>
      if existsb (fun kv => String.eqb kv.1 "hasOwnProperty") fields then Throw TypeError
      else
        cloned <~ mapM (fun kv => value <~ deepClone kv.2 ;; Return (kv.1, value)) fields ;;
        Return (JObj (List.filter (fun kv => negb (String.eqb kv.1 "__proto__")) cloned))
  | _ => Return obj
  end.

(** ** storage.js: class [Storage] *)
Module Storage.

Definition prefix : string := "studyquality_".

Definition get (key : string) (defaultValue : json) : M json :=
  fun w =>
    (w, Return (match localStorage w !! (prefix +:+ key) with
                | Some item => item
                | None => defaultValue
                end)).

Definition set (key : string) (value : json) : M bool :=
  fun w =>
    (World (<[prefix +:+ key := value]> (localStorage w))
           (nextId w) (clock w) (random w) (drawn w) (host w),
     Return true).

Definition remove (key : string) : M unit :=
  fun w =>
    (World (delete (prefix +:+ key) (localStorage w))
           (nextId w) (clock w) (random w) (drawn w) (host w),
     Return tt).

Definition has (key : string) : M bool :=
  fun w => (w, Return (bool_decide (is_Some (localStorage w !! (prefix +:+ key))))).

Definition default_settings : json :=
  JObj [("theme", JStr "auto"); ("language", JStr "es");
        ("notifications", JBool true); ("autoSave", JBool true);
        ("debugMode", JBool false)].

Definition initializeStorage : M unit :=
  users <- get STORAGE_KEYS.USER_DATA JNull ;;
  if negb (JS.truthy users) then
    set STORAGE_KEYS.USER_DATA SAMPLE_USERS ;;;
    set STORAGE_KEYS.SYSTEM_SETTINGS default_settings ;;;
    ret tt
  else ret tt.

(** [clear()] *)
Definition clear : M unit := forEach remove STORAGE_KEYS.values.

End Storage.

(** ** storage.js: class [UserStorage] *)
Module UserStorage.

Definition getUsers : M json := Storage.get STORAGE_KEYS.USER_DATA (JArr []).

(** [Math.max(...ids)] of a non-empty list of numbers; an id that is not a
    number would be coerced, which is not modelled. *)
Fixpoint max_id (ids : list (option json)) : option Q :=
  match ids with
  | [] => None
  | Some (JNum q) :: rest =>
      match rest with
      | [] => Some q
      | _ => match max_id rest with
             | Some m => Some (if Qle_bool q m then m else q)
             | None => None
             end
      end
  | _ :: _ => None
  end.

Definition getNextUserId : M Q :=
  users <- getUsers ;;
  match users with
  | JArr [] => ret 1%Q
  | JArr items =>
      ids <- lift (mapM (fun u => get_prop u "id") items) ;;
      match max_id ids with
      | Some m => ret (Number.add m 1)
      | None => unmodelled
      end
  | JNull => throw TypeError
  | _ => unmodelled
  end.

Definition set_nextId (n : Q) : M unit :=
  fun w => (World (localStorage w) n (clock w) (random w) (drawn w) (host w), Return tt).

(** [new UserStorage()] for the exported singleton [userStorage]. *)
Definition constructor : M unit :=
  Storage.initializeStorage ;;;
  n <- getNextUserId ;;
  set_nextId n.

(** [new UserStorage()] for an instance that is dropped before its
    [nextId] is read. *)
Definition constructor_temporary : M unit :=
  Storage.initializeStorage ;;;
  _ <- getNextUserId ;;
  ret tt.

(** [this.nextId++] *)
Definition post_increment_nextId : M Q :=
  fun w =>
    (World (localStorage w) (Number.add (nextId w) 1) (clock w) (random w) (drawn w)
       (host w),
     Return (nextId w)).

(** [user.id === id] *)
Definition has_id (id : option json) (user : json) : outcome bool :=
  v <~ get_prop user "id" ;;
  Return (JS.strict_eq v id).

Definition getUserById (id : option json) : M json :=
  users <- getUsers ;;
  items <- lift (as_array users) ;;
  idx <- lift (findIndex (has_id id) items) ;;
  match idx with
  | Some i =>
      let user := default JNull (items !! i) in
      ret (if JS.truthy user then user else JNull)
  | None => ret JNull
  end.

(** [user.email.toLowerCase() === email.toLowerCase()] *)
Definition has_email (email : option json) (user : json) : outcome bool :=
  v <~ get_prop user "email" ;;
  a <~ call_toLowerCase v ;;
  b <~ call_toLowerCase email ;;
  Return (String.eqb a b).

Definition getUserByEmail (email : option json) : M json :=
  users <- getUsers ;;
  items <- lift (as_array users) ;;
  idx <- lift (findIndex (has_email email) items) ;;
  match idx with
  | Some i =>
      let user := default JNull (items !! i) in
      ret (if JS.truthy user then user else JNull)
  | None => ret JNull
  end.

(** Keeps the last [n] elements: [l.splice(0, l.length - n)] when
    [l.length > n]. *)
Definition keep_last {A} (n : nat) (l : list A) : list A :=
  if (n <? length l)%nat then drop (length l - n) l else l.

(** The literal [logEntry], given the clone of the data; the entry is
    stored as JSON, which has no property for an [undefined] value. *)
Definition logEntry (now : Z) (rnd : Q) (pf : platform)
    (action : string) (userId : option json) (cloned : json) : json :=
  JObj ([("id", JNum (inject_Z now + rnd)%Q);
         ("timestamp", JStr (Date.toISOString now));
         ("action", JStr action)]
        ++ match userId with Some v => [("userId", v)] | None => [] end
        ++ [("data", cloned);
            ("userAgent", JStr (userAgent pf))]).

Definition logUserAction (action : string) (userId : option json) (data : json) : M unit :=
  logs <- Storage.get STORAGE_KEYS.LOGS_DATA (JArr []) ;;
  t <- Date_now ;;
  r <- Math_random ;;
  cloned <- lift (deepClone data) ;;
  pf <- platform_of ;;
  let logEntry := logEntry t r pf action userId cloned in
  items <- lift (as_array logs) ;;
  let logs' := keep_last 1000 (items ++ [logEntry]) in
  Storage.set STORAGE_KEYS.LOGS_DATA (JArr logs') ;;;
  ret tt.

(** The properties an object literal defines after its spreads. *)
Definition set_fields (fields more : list (string * json)) : list (string * json) :=
  fold_left (fun acc kv => JS.set_field kv.1 kv.2 acc) more fields.

(** The literal [newUser]. *)
Definition newUser (id : Q) (userData : option json) (now : Z) : list (string * json) :=
  set_fields (JS.spread [("id", JNum id)] userData)
    [("registeredDate", JStr (Date.before_T (Date.toISOString now)));
     ("lastLogin", JNull);
     ("createdAt", JStr (Date.toISOString now));
     ("updatedAt", JStr (Date.toISOString now))].

Definition createUser (userData : option json) : M json :=
  users <- getUsers ;;
  id <- post_increment_nextId ;;
  t <- Date_now ;;
  let newUser := JObj (newUser id userData t) in
  items <- lift (as_array users) ;;
  Storage.set STORAGE_KEYS.USER_DATA (JArr (items ++ [newUser])) ;;;
  logUserAction "USER_CREATED" (JS.prop newUser "id") newUser ;;;
  ret newUser.

(** The literal [updatedUser]. *)
Definition updatedUser (user : option json) (updates : option json) (now : Z)
  : list (string * json) :=
  set_fields (JS.spread (JS.spread [] user) updates)
    [("updatedAt", JStr (Date.toISOString now))].

Definition updateUser (id : option json) (updates : option json) : M json :=
  users <- getUsers ;;
  items <- lift (as_array users) ;;
  userIndex <- lift (findIndex (has_id id) items) ;;
  match userIndex with
  | None => ret JNull
  | Some i =>
      t <- Date_now ;;
      let updatedUser := JObj (updatedUser (items !! i) updates t) in
      Storage.set STORAGE_KEYS.USER_DATA (JArr (<[i := updatedUser]> items)) ;;;
      logUserAction "USER_UPDATED" id updatedUser ;;;
      ret updatedUser
  end.

Definition deleteUser (id : option json) : M bool :=
  users <- getUsers ;;
  items <- lift (as_array users) ;;
  userIndex <- lift (findIndex (has_id id) items) ;;
  match userIndex with
  | None => ret false
  | Some i =>
      let deletedUser := default JNull (items !! i) in
      Storage.set STORAGE_KEYS.USER_DATA (JArr (delete i items)) ;;;
      logUserAction "USER_DELETED" id deletedUser ;;;
      ret true
  end.

Fixpoint deleteUsers_loop (ids : list json) (deletedCount : Z) : M Z :=
  match ids with
  | [] => ret deletedCount
  | id :: rest =>
      ok <- deleteUser (Some id) ;;
      deleteUsers_loop rest (if ok then deletedCount + 1 else deletedCount)
  end.

Definition deleteUsers (ids : json) : M Z :=
  items <- lift (as_array ids) ;;
  deleteUsers_loop items 0.

(** [user.f === 'text'] *)
Definition field_is (f text : string) (user : json) : outcome bool :=
  v <~ get_prop user f ;;
  Return (JS.strict_eq v (Some (JStr text))).

(** The callback of [recentRegistrations]: [regDate > monthAgo], false
    when either date is invalid. *)
Definition registered_recently (pf : platform) (now : Z) (user : json) : outcome bool :=
  v <~ get_prop user "registeredDate" ;;
  Return (match Date.of_value pf v,
                Date.setMonth pf now (Date.getMonth pf now - 1) with
          | Some regDate, Some monthAgo => monthAgo <? regDate
          | _, _ => false
          end).

Definition count (p : json -> outcome bool) (items : list json) : outcome json :=
  r <~ filterM p items ;;
  Return (JInt (Z.of_nat (length r))).

Definition getUserStats : M json :=
  users <- getUsers ;;
  now <- Date_now ;;
  pf <- platform_of ;;
  lift (items <~ as_array users ;;
        active <~ count (field_is "status" "active") items ;;
        inactive <~ count (field_is "status" "inactive") items ;;
        admins <~ count (field_is "role" "admin") items ;;
        regularUsers <~ count (field_is "role" "user") items ;;
        recent <~ count (registered_recently pf now) items ;;
        Return (JObj [("total", JInt (Z.of_nat (length items)));
                      ("active", active); ("inactive", inactive);
                      ("admins", admins); ("regularUsers", regularUsers);
                      ("recentRegistrations", recent)])).

(** The text callback of [searchUsers]. *)
Definition matches_query (searchTerm : string) (user : json) : outcome bool :=
  name <~ get_prop user "name" ;;
  name <~ call_toLowerCase name ;;
  if JS.includes searchTerm name then Return true
  else
    email <~ get_prop user "email" ;;
    email <~ call_toLowerCase email ;;
    if JS.includes searchTerm email then Return true
    else
      notes <~ get_prop user "notes" ;;
      if JS.truthy_opt notes then
        notes <~ call_toLowerCase notes ;;
        Return (JS.includes searchTerm notes)
      else Return false.

(** The loop over [Object.entries(filters)]. *)
Fixpoint apply_filters (entries : list (string * json)) (users : json) : outcome json :=
  match entries with
  | [] => Return users
  | (key, value) :: rest =>
      if JS.truthy value then
        items <~ as_array users ;;
        kept <~ filterM (fun user =>
                           v <~ get_prop user key ;;
                           Return (JS.strict_eq v (Some value))) items ;;
        apply_filters rest (JArr kept)
      else apply_filters rest users
  end.

(** [filters] defaults to the empty object when it is [undefined]. *)
Definition searchUsers (query : string) (filters : option json) : M json :=
  users <- getUsers ;;
  lift (users <~ (if negb (String.eqb query "") then
                    items <~ as_array users ;;
                    kept <~ filterM (matches_query (JS.toLowerCase query)) items ;;
                    Return (JArr kept)
                  else Return users) ;;
        match filters with
        | Some JNull => Throw TypeError
        | Some v => apply_filters (JS.own_props v) users
        | None => Return users
        end).

End UserStorage.

(** ** storage.js: class [SessionStorage] *)
Module SessionStorage.

Definition generateSessionId : M string :=
  t <- Date_now ;;
  r <- Math_random ;;
  pf <- platform_of ;;
  ret (JS.int_to_string 36 t +:+ JS.substr_from 2 (JS.number_to_string pf 36 r)).

Definition setCurrentUser (user : json) : M unit :=
  t <- Date_now ;;
  sessionId <- generateSessionId ;;
  let sessionData :=
    JObj [("user", user);
          ("loginTime", JStr (Date.toISOString t));
          ("lastActivity", JStr (Date.toISOString t));
          ("sessionId", JStr sessionId)] in
  Storage.set STORAGE_KEYS.CURRENT_USER sessionData ;;;
  Storage.set STORAGE_KEYS.SESSION_DATA
    (JObj [("isLoggedIn", JBool true);
           ("sessionStart", JStr (Date.toISOString t));
           ("sessionId", JStr sessionId)]) ;;;
  UserStorage.constructor_temporary ;;;
  id <- lift (get_prop user "id") ;;
  UserStorage.updateUser id (Some (JObj [("lastLogin", JStr (Date.toISOString t))])) ;;;
  ret tt.

Definition getCurrentUser : M (option json) :=
  sessionData <- Storage.get STORAGE_KEYS.CURRENT_USER JNull ;;
  if JS.truthy sessionData then ret (JS.prop sessionData "user") else ret (Some JNull).

(** [sessionData && sessionData.isLoggedIn] *)
Definition isLoggedIn : M (option json) :=
  sessionData <- Storage.get STORAGE_KEYS.SESSION_DATA JNull ;;
  if JS.truthy sessionData then ret (JS.prop sessionData "isLoggedIn")
  else ret (Some sessionData).

(** Module code is strict: assigning a property of a primitive throws,
    and a property added to an array that is not an index is not
    serialised. *)
Definition updateActivity : M unit :=
  currentSession <- Storage.get STORAGE_KEYS.CURRENT_USER JNull ;;
  if JS.truthy currentSession then
    t <- Date_now ;;
    match currentSession with
    | JObj fields =>
        Storage.set STORAGE_KEYS.CURRENT_USER
          (JObj (JS.set_field "lastActivity" (JStr (Date.toISOString t)) fields)) ;;;
        ret tt
    | JArr _ => Storage.set STORAGE_KEYS.CURRENT_USER currentSession ;;; ret tt
    | _ => throw TypeError
    end
  else ret tt.

Definition logout : M unit :=
  Storage.remove STORAGE_KEYS.CURRENT_USER ;;;
  Storage.remove STORAGE_KEYS.SESSION_DATA.

(** [a > b] on numbers *)
Definition Qgt_bool (a b : Q) : bool := negb (Qle_bool a b).

Definition isSessionExpired (timeoutMinutes : Q) : M bool :=
  currentSession <- Storage.get STORAGE_KEYS.CURRENT_USER JNull ;;
  if negb (JS.truthy currentSession) then ret true
  else
    pf <- platform_of ;;
    now <- Date_now ;;
    match Date.of_value pf (JS.prop currentSession "lastActivity") with
    | Some lastActivity =>
        let diffMinutes :=
          Number.divide (Number.subtract (inject_Z now) (inject_Z lastActivity))
            (inject_Z (1000 * 60)) in
        ret (Qgt_bool diffMinutes timeoutMinutes)
    | None => ret false
    end.

(** The default argument, [timeoutMinutes = 30]. *)
Definition isSessionExpired_default : M bool := isSessionExpired 30.

End SessionStorage.

(** ** storage.js: class [BackupStorage] *)
Module BackupStorage.

(** The loop of [createBackup] over [Object.values(STORAGE_KEYS)]. *)
Fixpoint collect (keys : list string) (data : list (string * json))
  : M (list (string * json)) :=
  match keys with
  | [] => ret data
  | key :: rest =>
      value <- Storage.get key JNull ;;
      match value with
      | JNull => collect rest data
      | _ => collect rest (JS.set_field key value data)
      end
  end.

Definition createBackup : M json :=
  t <- Date_now ;;
  data <- collect STORAGE_KEYS.values [] ;;
  let backupData :=
    JObj [("version", JStr "1.0.0");
          ("timestamp", JStr (Date.toISOString t));
          ("data", JObj data)] in
  Storage.set STORAGE_KEYS.BACKUP_DATA backupData ;;;
  ret backupData.

(** The callback of the loop of [restoreBackup]. *)
Definition restore_entry (entry : string * json) : M unit :=
  if negb (String.eqb entry.1 STORAGE_KEYS.BACKUP_DATA) then
    Storage.set entry.1 entry.2 ;;; ret tt
  else ret tt.

Definition restoreBackup (backupData : json) : M bool :=
  try_catch
    (stored <- Storage.get STORAGE_KEYS.BACKUP_DATA JNull ;;
     let backup := if JS.truthy backupData then backupData else stored in
     if negb (JS.truthy backup) || negb (JS.truthy_opt (JS.prop backup "data")) then
       throw (Error "No backup data found")
     else
       forEach restore_entry
         (JS.own_props (default JNull (JS.prop backup "data"))) ;;;
       ret true)
    (fun _ => ret false).

Definition quote_cell (pf : platform) (value : option json) : string :=
  String JS.dquote (JS.double_quotes (JS.String_of pf value)) +:+ String JS.dquote "".

Definition csv_row (pf : platform) (headers : list string) (user : json) : outcome string :=
  cells <~ mapM (fun header =>
                   value <~ get_prop user header ;;
                   Return (quote_cell pf value)) headers ;;
  Return (JS.join "," cells).

Definition convertToCSV (pf : platform) (users : json) : outcome string :=
  match users with
  | JArr [] => Return ""
  | JArr (first :: rest) =>
      match first with
      | JNull => Throw TypeError
      | _ =>
          let headers := map fst (JS.own_props first) in
          let csvHeaders := JS.join "," headers in
          csvRows <~ mapM (csv_row pf headers) (first :: rest) ;;
          Return (JS.join (String JS.newline "") (csvHeaders :: csvRows))
      end
  | JObj fields =>
      if JS.strict_eq (JS.lookup_field "length" fields) (Some (JInt 0)) then Return ""
      else Throw TypeError
  | _ => Throw TypeError
  end.

(** The text that [JSON.stringify(backup, null, 2)] prints is not
    modelled. *)
Definition exportData (format : string) : M string :=
  backup <- createBackup ;;
  if String.eqb format "json" then unmodelled
  else if String.eqb format "csv" then
    let stored :=
      JS.prop (default JNull (JS.prop backup "data")) STORAGE_KEYS.USER_DATA in
    let users := if JS.truthy_opt stored then default JNull stored else JArr [] in
    pf <- platform_of ;;
    lift (convertToCSV pf users)
  else ret "".

End BackupStorage.

(** ** api.js: class [API]

    A response is given as the JSON it denotes: a property whose value is
    [undefined] is left out. *)
Module API.

(** Properties of a literal, without those whose value is [undefined]. *)
Fixpoint literal (fields : list (string * option json)) : list (string * json) :=
  match fields with
  | [] => []
  | (k, Some v) :: rest => (k, v) :: literal rest
  | (_, None) :: rest => literal rest
  end.

Definition success (message : option string) (data : option json) : json :=
  JObj (literal [("success", Some (JBool true));
                 ("message", option_map JStr message);
                 ("data", data)]).

(** [const { k } = data] *)
Definition destructure (data : json) (k : string) : outcome (option json) :=
  get_prop data k.

(** [Math.floor(Math.random() * scale) + offset] *)
Definition random_int (scale offset : Z) : M json :=
  r <- Math_random ;;
  ret (JInt (Qfloor (r * inject_Z scale) + offset)).

(** The decimal value of the longest run of digits in front of [s]. *)
Fixpoint digit_run (acc : option Z) (s : string) : option Z * string :=
  match s with
  | String c s' =>
      match Date.digit c with
      | Some d => digit_run (Some (default 0 acc * 10 + d)) s'
      | None => (acc, s)
      end
  | EmptyString => (acc, s)
  end.

(** [endpoint.match] with the pattern: a slash, one or more digits, then a
    slash or the end; the first such place wins. *)
Fixpoint extractIdFromEndpoint (endpoint : string) : option Z :=
  match endpoint with
  | EmptyString => None
  | String c rest =>
      let here :=
        if Ascii.eqb c "/" then
          match digit_run None rest with
          | (Some n, EmptyString) => Some n
          | (Some n, String c' _) => if Ascii.eqb c' "/" then Some n else None
          | (None, _) => None
          end
        else None in
      match here with
      | Some n => Some n
      | None => extractIdFromEndpoint rest
      end
  end.

Definition login (credentials : json) : M json :=
  email <- lift (destructure credentials "email") ;;
  password <- lift (destructure credentials "password") ;;
  t <- Date_now ;;
  if JS.strict_eq email (Some (JStr "admin@demo.com"))
     && JS.strict_eq password (Some (JStr "demo123")) then
    let user :=
      JObj (literal [("id", Some (JInt 0));
                     ("name", Some (JStr "Administrador Demo"));
                     ("email", email);
                     ("role", Some (JStr "admin"));
                     ("status", Some (JStr "active"))]) in
    SessionStorage.setCurrentUser user ;;;
    ret (success (Some MESSAGES.LOGIN)
           (Some (JObj [("user", user);
                        ("token", JStr ("demo_token_" +:+ JS.int_to_string 10 t));
                        ("expiresIn", JInt (30 * 60))])))
  else
    user <- UserStorage.getUserByEmail email ;;
    if JS.truthy user
       && JS.strict_eq (JS.prop user "status") (Some (JStr "active")) then
      SessionStorage.setCurrentUser user ;;;
      ret (success (Some MESSAGES.LOGIN)
             (Some (JObj [("user", user);
                          ("token", JStr ("user_token_" +:+ JS.int_to_string 10 t));
                          ("expiresIn", JInt (30 * 60))])))
    else throw (APIError MESSAGES.LOGIN_FAILED 401).

Definition logout : M json :=
  SessionStorage.logout ;;;
  ret (success (Some MESSAGES.LOGOUT) None).

Definition register (userData : json) : M json :=
  email <- lift (destructure userData "email") ;;
  existing <- UserStorage.getUserByEmail email ;;
  if JS.truthy existing then throw (APIError MESSAGES.USER_EXISTS 409)
  else
    newUser <- UserStorage.createUser
                 (Some (JObj (UserStorage.set_fields (JS.spread [] (Some userData))
                                [("status", JStr "active")]))) ;;
    ret (success (Some MESSAGES.USER_CREATED) (Some (JObj [("user", newUser)]))).

Definition getUsers : M json :=
  users <- UserStorage.getUsers ;;
  length <- lift (get_prop users "length") ;;
  ret (success None
         (Some (JObj (literal [("users", Some users); ("total", length);
                               ("page", Some (JInt 1)); ("pageSize", length)])))).

Definition createUser (userData : json) : M json :=
  email <- lift (destructure userData "email") ;;
  existing <- UserStorage.getUserByEmail email ;;
  if JS.truthy existing then throw (APIError MESSAGES.USER_EXISTS 409)
  else
    newUser <- UserStorage.createUser (Some userData) ;;
    ret (success (Some MESSAGES.USER_CREATED) (Some (JObj [("user", newUser)]))).

(** [parseInt(id)] of what [extractIdFromEndpoint] returned; [parseInt(null)]
    is NaN. *)
Definition updateUser (id : option Z) (updates : json) : M json :=
  match id with
  | None => unmodelled
  | Some n =>
      updatedUser <- UserStorage.updateUser (Some (JInt n)) (Some updates) ;;
      if negb (JS.truthy updatedUser) then throw (APIError MESSAGES.USER_NOT_FOUND 404)
      else ret (success (Some MESSAGES.USER_UPDATED)
                  (Some (JObj [("user", updatedUser)])))
  end.

Definition deleteUser (id : option Z) : M json :=
  match id with
  | None => unmodelled
  | Some n =>
      ok <- UserStorage.deleteUser (Some (JInt n)) ;;
      if negb ok then throw (APIError MESSAGES.USER_NOT_FOUND 404)
      else ret (success (Some MESSAGES.USER_DELETED) None)
  end.

(** The loops of the [activate] and [deactivate] cases. *)
Fixpoint set_status_loop (status : string) (ids : list json) (n : Z) : M Z :=
  match ids with
  | [] => ret n
  | id :: rest =>
      updated <- UserStorage.updateUser (Some id) (Some (JObj [("status", JStr status)])) ;;
      set_status_loop status rest (if JS.truthy updated then n + 1 else n)
  end.

Definition call_forEach (v : option json) : outcome (list json) :=
  match v with
  | Some x => as_array x
  | None => Throw TypeError
  end.

Definition bulkUserOperation (data : json) : M json :=
  operation <- lift (destructure data "operation") ;;
  userIds <- lift (destructure data "userIds") ;;
  if JS.strict_eq operation (Some (JStr "delete")) then
    ids <- lift (call_forEach userIds) ;;
    deletedCount <- UserStorage.deleteUsers_loop ids 0 ;;
    ret (success (Some (JS.int_to_string 10 deletedCount +:+ " usuarios eliminados"))
           (Some (JObj [("deletedCount", JInt deletedCount)])))
  else if JS.strict_eq operation (Some (JStr "activate")) then
    ids <- lift (call_forEach userIds) ;;
    activatedCount <- set_status_loop "active" ids 0 ;;
    ret (success (Some (JS.int_to_string 10 activatedCount +:+ " usuarios activados"))
           (Some (JObj [("activatedCount", JInt activatedCount)])))
  else if JS.strict_eq operation (Some (JStr "deactivate")) then
    ids <- lift (call_forEach userIds) ;;
    deactivatedCount <- set_status_loop "inactive" ids 0 ;;
    ret (success (Some (JS.int_to_string 10 deactivatedCount +:+ " usuarios desactivados"))
           (Some (JObj [("deactivatedCount", JInt deactivatedCount)])))
  else throw (APIError "Operación no válida" 400).

Definition generateReport (data : json) : M json :=
  type <- lift (destructure data "type") ;;
  filters <- lift (destructure data "filters") ;;
  format <- lift (destructure data "format") ;;
  t <- Date_now ;;
  size <- random_int 1000 100 ;;
  ret (success (Some MESSAGES.DATA_EXPORTED)
         (Some (JObj [("report",
                       JObj (literal [("id", Some (JInt t)); ("type", type);
                                      ("format", format); ("filters", filters);
                                      ("generatedAt", Some (JStr (Date.toISOString t)));
                                      ("size", Some size)]))]))).

Definition exportData (data : json) : M json :=
  format <- lift (destructure data "format") ;;
  filters <- lift (destructure data "filters") ;;
  stored <- UserStorage.getUsers ;;
  users <- (if JS.truthy_opt filters then UserStorage.searchUsers "" filters
            else ret stored) ;;
  length <- lift (get_prop users "length") ;;
  t <- Date_now ;;
  ret (success (Some MESSAGES.DATA_EXPORTED)
         (Some (JObj (literal [("format", format); ("recordCount", length);
                               ("generatedAt", Some (JStr (Date.toISOString t)));
                               ("data", Some users)])))).

Definition getReports : M json :=
  ret (success None
         (Some (JObj [("reports",
            JArr [JObj [("id", JInt 1); ("name", JStr "Reporte de Usuarios");
                        ("type", JStr "users"); ("format", JStr "pdf");
                        ("generatedAt", JStr "2024-03-15T10:30:00Z");
                        ("size", JStr "245 KB")];
                  JObj [("id", JInt 2); ("name", JStr "Reporte de Actividad");
                        ("type", JStr "activity"); ("format", JStr "csv");
                        ("generatedAt", JStr "2024-03-14T15:45:00Z");
                        ("size", JStr "156 KB")]])]))).

Definition getSystemMetrics : M json :=
  stats <- UserStorage.getUserStats ;;
  uptime <- random_int 100000 0 ;;
  responseTime <- random_int 100 50 ;;
  memoryUsage <- random_int 80 20 ;;
  cpuUsage <- random_int 60 10 ;;
  ret (success None
         (Some (JObj (literal [("uptime", Some uptime);
                               ("responseTime", Some responseTime);
                               ("activeUsers", JS.prop stats "active");
                               ("totalUsers", JS.prop stats "total");
                               ("memoryUsage", Some memoryUsage);
                               ("cpuUsage", Some cpuUsage)])))).

Definition getUserMetrics : M json :=
  stats <- UserStorage.getUserStats ;;
  growthRate <- random_int 20 5 ;;
  retention <- random_int 30 70 ;;
  satisfaction <- random_int 20 80 ;;
  ret (success None
         (Some (JObj (UserStorage.set_fields (JS.spread [] (Some stats))
                        [("growthRate", growthRate); ("retention", retention);
                         ("satisfaction", satisfaction)])))).

Definition getPerformanceMetrics : M json :=
  loadTime <- random_int 500 100 ;;
  renderTime <- random_int 200 50 ;;
  networkTime <- random_int 300 100 ;;
  cacheHitRate <- random_int 20 80 ;;
  r <- Math_random ;;
  ret (success None
         (Some (JObj [("loadTime", loadTime); ("renderTime", renderTime);
                      ("networkTime", networkTime); ("cacheHitRate", cacheHitRate);
                      ("errorRate", JNum (r * 2)%Q)]))).

Definition handleAuthRequest (method endpoint : string) (data : json) : M json :=
  if JS.includes "/login" endpoint then login data
  else if JS.includes "/logout" endpoint then logout
  else if JS.includes "/register" endpoint then register data
  else throw (APIError "Auth endpoint not found" 404).

Definition handleUsersRequest (method endpoint : string) (data : json) : M json :=
  loggedIn <- SessionStorage.isLoggedIn ;;
  if negb (JS.truthy_opt loggedIn) then throw (APIError "Unauthorized" 401)
  else if String.eqb method "GET" && String.eqb endpoint API_ENDPOINTS.USERS_LIST then
    getUsers
  else if String.eqb method "POST" && String.eqb endpoint API_ENDPOINTS.USERS_CREATE then
    createUser data
  else if String.eqb method "PUT" && JS.includes "/users/" endpoint then
    updateUser (extractIdFromEndpoint endpoint) data
  else if String.eqb method "DELETE" && JS.includes "/users/" endpoint then
    deleteUser (extractIdFromEndpoint endpoint)
  else if String.eqb method "POST" && String.eqb endpoint API_ENDPOINTS.USERS_BULK then
    bulkUserOperation data
  else throw (APIError "Users endpoint not found" 404).

Definition handleReportsRequest (method endpoint : string) (data : json) : M json :=
  loggedIn <- SessionStorage.isLoggedIn ;;
  if negb (JS.truthy_opt loggedIn) then throw (APIError "Unauthorized" 401)
  else if String.eqb method "POST" && String.eqb endpoint API_ENDPOINTS.REPORTS_GENERATE then
    generateReport data
  else if String.eqb method "POST" && String.eqb endpoint API_ENDPOINTS.REPORTS_EXPORT then
    exportData data
  else if String.eqb method "GET" && String.eqb endpoint API_ENDPOINTS.REPORTS_LIST then
    getReports
  else throw (APIError "Reports endpoint not found" 404).

Definition handleMetricsRequest (method endpoint : string) (data : json) : M json :=
  loggedIn <- SessionStorage.isLoggedIn ;;
  if negb (JS.truthy_opt loggedIn) then throw (APIError "Unauthorized" 401)
  else if String.eqb endpoint API_ENDPOINTS.METRICS_SYSTEM then getSystemMetrics
  else if String.eqb endpoint API_ENDPOINTS.METRICS_USERS then getUserMetrics
  else if String.eqb endpoint API_ENDPOINTS.METRICS_PERFORMANCE then getPerformanceMetrics
  else throw (APIError "Metrics endpoint not found" 404).

Definition processRequest (method endpoint : string) (data : json) : M json :=
  if JS.includes "/auth/" endpoint then handleAuthRequest method endpoint data
  else if JS.includes "/users" endpoint then handleUsersRequest method endpoint data
  else if JS.includes "/reports" endpoint then handleReportsRequest method endpoint data
  else if JS.includes "/metrics" endpoint then handleMetricsRequest method endpoint data
  else throw (APIError "Endpoint not found" 404).

End API.

(** ** Further methods of [String.prototype] and [Array.prototype] *)
Module Str.

(** [s.replace(pattern, replacement)] with a string pattern: the first
    occurrence is replaced.  The replacement is taken literally, as it is
    when it holds no dollar sign. *)
Fixpoint replace (pattern replacement s : string) : string :=
  if JS.startsWith pattern s then
    replacement +:+ JS.substr_from (String.length pattern) s
  else
    match s with
    | EmptyString => EmptyString
    | String c s' => String c (replace pattern replacement s')
    end.

(** [regexp.test(s)] for a pattern that is one character class. *)
Fixpoint any (class : ascii -> bool) (s : string) : bool :=
  match s with
  | EmptyString => false
  | String c s' => class c || any class s'
  end.

End Str.

Module Arr.

(** The integer an index argument denotes: the number with its fraction
    dropped. *)
Definition trunc (q : Q) : Z := if Qle_bool 0 q then Qfloor q else Qceiling q.

(** An index argument of [slice] against the length: a negative one counts
    from the end, and both ends are clamped. *)
Definition relative (len : Z) (q : Q) : Z :=
  let k := trunc q in
  if k <? 0 then Z.max (len + k) 0 else Z.min k len.

(** [l.slice(start, end)] *)
Definition slice {A} (start finish : Q) (l : list A) : list A :=
  let len := Z.of_nat (length l) in
  let from := relative len start in
  let to := relative len finish in
  take (Z.to_nat (to - from)) (drop (Z.to_nat from) l).

End Arr.

(** ** helpers.js: [Data.deepEqual], [Data.paginate],
    [Validation.validatePassword] *)
Module Data.

(** [typeof v === 'object'] for a value other than [null] *)
Definition is_object (v : json) : bool :=
  match v with
  | JArr _ | JObj _ => true
  | _ => false
  end.

(** [deepEqual(obj1, obj2)] on two decoded values.  Two arrays or objects
    here are never one and the same reference; for one reference the
    source answers true at once. *)
Fixpoint deepEqual (obj1 obj2 : json) {struct obj1} : bool :=
  match obj1 with
  | JObj fields =>
      is_object obj2
      && (length fields =? length (JS.own_props obj2))%nat
      && (fix every (entries : list (string * json)) : bool :=
            match entries with
            | [] => true
            | (key, value) :: rest =>
                match JS.lookup_field key (JS.own_props obj2) with
                | Some other => deepEqual value other && every rest
                | None => false
                end
            end) fields
  | JArr items =>
      is_object obj2
      && (length items =? length (JS.own_props obj2))%nat
      && (fix every (i : nat) (elements : list json) : bool :=
            match elements with
            | [] => true
            | value :: rest =>
                match JS.lookup_field (pretty i) (JS.own_props obj2) with
                | Some other => deepEqual value other && every (S i) rest
                | None => false
                end
            end) 0%nat items
  | _ => JS.strict_eq (Some obj1) (Some obj2)
  end.

(** [a < b] on numbers *)
Definition Qlt_bool (a b : Q) : bool := negb (Qle_bool b a).

(** [paginate(array, page, pageSize)].  With [pageSize] zero the number of
    pages is infinite or not a number. *)
Definition paginate (array : list json) (page pageSize : Q) : outcome json :=
  let startIndex := ((page - 1) * pageSize)%Q in
  let endIndex := (startIndex + pageSize)%Q in
  let items := Arr.slice startIndex endIndex array in
  let length := inject_Z (Z.of_nat (length array)) in
  if Qeq_bool pageSize 0 then Unmodelled
  else
    Return (JObj [("items", JArr items);
                  ("totalItems", JNum length);
                  ("totalPages", JInt (Qceiling (length / pageSize)));
                  ("currentPage", JNum page);
                  ("pageSize", JNum pageSize);
                  ("hasNext", JBool (Qlt_bool endIndex length));
                  ("hasPrev", JBool (Qlt_bool 1 page))]).

End Data.

Module Validation.

Definition minLength : Z := 6.

Definition in_range (lo hi : nat) (c : ascii) : bool :=
  let n := nat_of_ascii c in ((lo <=? n) && (n <=? hi))%nat.

(** The classes [A-Z], [a-z], [\d] and the class of special characters. *)
Definition upper : ascii -> bool := in_range 65 90.
Definition lower : ascii -> bool := in_range 97 122.
Definition digit : ascii -> bool := in_range 48 57.
Definition special (c : ascii) : bool :=
  Ascii.eqb c JS.dquote || Str.any (Ascii.eqb c) "!@#$%^&*(),.?:{}|<>".

Definition score (b : bool) : Z := if b then 1 else 0.

(** [validatePassword(password)] of the text of a field. *)
Definition validatePassword (password : string) : json :=
  if String.eqb password "" then
    JObj [("isValid", JBool false); ("strength", JStr "weak");
          ("errors", JArr [JStr "La contraseña es obligatoria"])]
  else
    let length := Z.of_nat (String.length password) in
    let hasUpperCase := Str.any upper password in
    let hasLowerCase := Str.any lower password in
    let hasNumbers := Str.any digit password in
    let hasSpecialChars := Str.any special password in
    let errors :=
      (if length <? minLength
       then [JStr ("Mínimo " +:+ JS.int_to_string 10 minLength +:+ " caracteres")]
       else [])
      ++ (if negb hasUpperCase then [JStr "Debe contener mayúsculas"] else [])
      ++ (if negb hasLowerCase then [JStr "Debe contener minúsculas"] else [])
      ++ (if negb hasNumbers then [JStr "Debe contener números"] else []) in
    let strength :=
      score (8 <=? length) + score hasUpperCase + score hasLowerCase
      + score hasNumbers + score hasSpecialChars in
    JObj [("isValid", JBool (Nat.eqb (List.length errors) 0));
          ("strength",
           JStr (if strength <=? 2 then "weak"
                 else if strength =? 3 then "fair"
                 else if strength =? 4 then "good"
                 else "strong"));
          ("errors", JArr errors)].

End Validation.

(** ** api.js: the client service [UsersAPI]

    A call goes through [HTTPClient] to [API.request], that is to
    [processRequest] after the delay. *)
Module UsersAPI.

Definition UPDATE : string := "/api/users/:id".
Definition DELETE : string := "/api/users/:id".

(** The endpoint built for the user with the integer [id]. *)
Definition endpoint (template : string) (id : Z) : string :=
  Str.replace ":id" (JS.int_to_string 10 id) template.

Definition updateUser (id : Z) (updates : json) : M json :=
  API.processRequest "PUT" (endpoint UPDATE id) updates.

Definition deleteUser (id : Z) : M json :=
  API.processRequest "DELETE" (endpoint DELETE id) JNull.

End UsersAPI.

(** ** auth.js: [AuthManager.checkExistingSession]

    [onLoginSuccess] works on the document, a timer and the console only;
    the result is the user it is called with, if it is called. *)
Module AuthManager.

Definition checkExistingSession : M (option json) :=
  loggedIn <- SessionStorage.isLoggedIn ;;
  live <- (if JS.truthy_opt loggedIn then
             expired <- SessionStorage.isSessionExpired_default ;;
             ret (negb expired)
           else ret false) ;;
  if live then
    user <- SessionStorage.getCurrentUser ;;
    ret (if JS.truthy_opt user then user else None)
  else
    SessionStorage.logout ;;;
    ret None.

End AuthManager.

(** * Observations used in the statements *)

(** The decoded value stored under a key of the name space. *)
Definition stored (w : world) (key : string) : option json :=
  localStorage w !! (Storage.prefix +:+ key).

(** The user collection and the audit log as [getUsers] and
    [logUserAction] read them: the stored array, the empty array when the
    key is absent, nothing when something else is stored. *)
Definition user_collection (w : world) : option (list json) :=
  match default (JArr []) (stored w STORAGE_KEYS.USER_DATA) with
  | JArr items => Some items
  | _ => None
  end.

Definition audit_log (w : world) : option (list json) :=
  match default (JArr []) (stored w STORAGE_KEYS.LOGS_DATA) with
  | JArr entries => Some entries
  | _ => None
  end.

(** A record: an object, whose property names are distinct. *)
Definition is_record (v : json) : Prop :=
  exists fields, v = JObj fields /\ NoDup (map fst fields).

(** The page state with another content of the medium. *)
Definition with_storage (ls : gmap string json) (w : world) : world :=
  World ls (nextId w) (clock w) (random w) (drawn w) (host w).

(** The value and the final state of a run. *)
Definition value_of {A} (r : world * outcome A) : outcome A := r.2.
Definition state_of {A} (r : world * outcome A) : world := r.1.

(** No session: [SessionStorage.isLoggedIn()] answers a falsy value. *)
Definition logged_out (w : world) : Prop :=
  exists v, value_of (SessionStorage.isLoggedIn w) = Return v /\ JS.truthy_opt v = false.

(** The page as the clock shows another instant. *)
Definition at_time (t : Z) (w : world) : world :=
  World (localStorage w) (nextId w) t (random w) (drawn w) (host w).

(** The mutations of the repository that write the audit log. *)
Inductive mutation : Type :=
| CreateUser (userData : option json)
| UpdateUser (id updates : option json)
| DeleteUser (id : option json).

Definition run_mutation (m : mutation) : M unit :=
  match m with
  | CreateUser userData => UserStorage.createUser userData ;;; ret tt
  | UpdateUser id updates => UserStorage.updateUser id updates ;;; ret tt
  | DeleteUser id => UserStorage.deleteUser id ;;; ret tt
  end.

Definition action_tag (m : mutation) : string :=
  match m with
  | CreateUser _ => "USER_CREATED"
  | UpdateUser _ _ => "USER_UPDATED"
  | DeleteUser _ => "USER_DELETED"
  end.

(** The data the caller gives with the mutation. *)
Definition given (m : mutation) : option json :=
  match m with
  | CreateUser userData => userData
  | UpdateUser _ updates => updates
  | DeleteUser _ => None
  end.

(** Whether the mutation finds its user in the collection, and so appends
    an entry: creation always does. *)
Definition finds_user (m : mutation) (items : list json) : bool :=
  match m with
  | CreateUser _ => true
  | UpdateUser id _ | DeleteUser id =>
      match findIndex (UserStorage.has_id id) items with
      | Return (Some _) => true
      | _ => false
      end
  end.

(** The environment moves the clock between two calls. *)
Definition tick (t : Z) : M unit := fun w => (at_time t w, Return tt).

(** Successive calls of [createUser], each at its instant.  The trace pairs
    the collection read just before a call with the user the call
    returned. *)
Fixpoint createUser_calls (calls : list (Z * option json)) : M (list (json * json)) :=
  match calls with
  | [] => ret []
  | (t, userData) :: rest =>
      tick t ;;;
      before <- UserStorage.getUsers ;;
      user <- UserStorage.createUser userData ;;
      trace <- createUser_calls rest ;;
      ret ((before, user) :: trace)
  end.

(** The numeric id of a record, if it has one. *)
Definition id_of (user : json) : option Q :=
  match JS.prop user "id" with
  | Some (JNum q) => Some q
  | _ => None
  end.

(** [q] is one more than the greatest id present in [items], or 1 when
    [items] is empty. *)
Definition next_id_after (items : list json) (q : Q) : Prop :=
  (items = [] /\ q == 1)%Q
  \/ exists m : Q,
       Some m ∈ map id_of items
       /\ (forall x, Some x ∈ map id_of items -> (x <= m)%Q)
       /\ (q == m + 1)%Q.

(** The caller's data names no [id]. *)
Definition names_no_id (userData : option json) : Prop :=
  "id" ∉ map fst (from_option JS.own_props [] userData).

(** A computation that never changes what is stored under [key],
    whatever it returns or throws. *)
Definition preserves {A} (key : string) (c : M A) : Prop :=
  forall w, stored (state_of (c w)) key = stored w key.

(** What a backup holds for a key: the stored value, unless it is absent
    or null. *)
Definition snapshot (w : world) (key : string) : option json :=
  match stored w key with
  | Some JNull | None => None
  | Some v => Some v
  end.

(** The lines of a text: the pieces between its newline characters. *)
Fixpoint lines (s : string) : list string :=
  match s with
  | EmptyString => [EmptyString]
  | String c s' =>
      if Ascii.eqb c JS.newline then EmptyString :: lines s'
      else match lines s' with
           | [] => [String c EmptyString]
           | l :: ls => String c l :: ls
           end
  end.

Fixpoint has_newline (s : string) : bool :=
  match s with
  | EmptyString => false
  | String c s' => Ascii.eqb c JS.newline || has_newline s'
  end.

(** Reading a CSV cell back: the text between the enclosing double quotes,
    every doubled double quote read as one. *)
Fixpoint undouble (s : string) : string :=
  match s with
  | EmptyString => EmptyString
  | String c s' =>
      if Ascii.eqb c JS.dquote then
        match s' with
        | String c' s'' =>
            if Ascii.eqb c' JS.dquote then String JS.dquote (undouble s'')
            else String c (undouble s')
        | EmptyString => String c EmptyString
        end
      else String c (undouble s')
  end.

Fixpoint without_closing_quote (s : string) : option string :=
  match s with
  | EmptyString => None
  | String c EmptyString => if Ascii.eqb c JS.dquote then Some EmptyString else None
  | String c s' => String c <$> without_closing_quote s'
  end.

Definition read_cell (cell : string) : option string :=
  match cell with
  | String c rest =>
      if Ascii.eqb c JS.dquote then undouble <$> without_closing_quote rest else None
  | EmptyString => None
  end.

(** The row of a record under the given headers. *)
Definition csv_line (pf : platform) (headers : list string) (user : json) : string :=
  JS.join "," (map (fun header => BackupStorage.quote_cell pf (JS.prop user header)) headers).

(** An instant that [toISOString] prints with a four-digit year. *)
Definition four_digit_year (t : Z) : Prop :=
  0 <= Date.YearFromTime t <= 9999 /\ Z.abs t <= 8640000000000000.

(** The minutes from the instant [earlier] to the instant [later], as
    [isSessionExpired] computes them. *)
Definition minutes_elapsed (earlier later : Z) : Q :=
  Number.divide (Number.subtract (inject_Z later) (inject_Z earlier)) (inject_Z (1000 * 60)).

(** The registration date of a record is later than [instant]. *)
Definition registered_after (pf : platform) (instant : Z) (user : json) : bool :=
  match Date.of_value pf (JS.prop user "registeredDate") with
  | Some regDate => instant <? regDate
  | None => false
  end.

(** The registration date of a record falls within the 30 days that end
    at [now]. *)
Definition registered_within_30_days (pf : platform) (now : Z) (user : json) : bool :=
  match Date.of_value pf (JS.prop user "registeredDate") with
  | Some regDate => (now - 30 * Date.msPerDay <=? regDate) && (regDate <=? now)
  | None => false
  end.

(** [restoreBackup(createBackup())] *)
Definition restore_fresh_backup : M bool :=
  backupData <- BackupStorage.createBackup ;;
  BackupStorage.restoreBackup backupData.

(** Somebody is logged in: [SessionStorage.isLoggedIn()] answers a truthy
    value. *)
Definition logged_in (w : world) : Prop :=
  exists v, value_of (SessionStorage.isLoggedIn w) = Return v /\ JS.truthy_opt v = true.

(** A decoded value in which no object names a property twice. *)
Fixpoint well_formed (v : json) : Prop :=
  match v with
  | JObj fields =>
      NoDup (map fst fields)
      /\ (fix all (entries : list (string * json)) : Prop :=
            match entries with
            | [] => True
            | (_, value) :: rest => well_formed value /\ all rest
            end) fields
  | JArr items =>
      (fix all (elements : list json) : Prop :=
         match elements with
         | [] => True
         | value :: rest => well_formed value /\ all rest
         end) items
  | _ => True
  end.

(** A text of decimal digits only. *)
Definition digits_only (s : string) : Prop :=
  Str.any (fun c => match Date.digit c with Some _ => false | None => true end) s = false.

(** A record that the text search can read: [name] and [email] are
    strings, and [notes] is a string or falsy. *)
Definition searchable (user : json) : Prop :=
  exists (fields : list (string * json)) (name email : string),
    user = JObj fields
    /\ JS.lookup_field "name" fields = Some (JStr name)
    /\ JS.lookup_field "email" fields = Some (JStr email)
    /\ match JS.lookup_field "notes" fields with
       | Some (JStr _) | None => True
       | Some v => JS.truthy v = false
       end.

(** The name, the address or the notes of the record contain the term,
    whatever the letter case of the record. *)
Definition text_matches (searchTerm : string) (user : json) : bool :=
  let contains (k : string) :=
    match JS.prop user k with
    | Some (JStr s) => JS.includes searchTerm (JS.toLowerCase s)
    | _ => false
    end in
  contains "name" || contains "email"
  || (JS.truthy_opt (JS.prop user "notes") && contains "notes").

(** The record has the value of every filter that is truthy. *)
Definition passes (filters : list (string * json)) (user : json) : bool :=
  forallb (fun kv => negb (JS.truthy kv.2) || JS.strict_eq (JS.prop user kv.1) (Some kv.2))
          filters.

Definition wanted (query : string) (filters : list (string * json)) (user : json) : bool :=
  (String.eqb query "" || text_matches (JS.toLowerCase query) user) && passes filters user.

(** A stored record carries the id: the search of [updateUser] and
    [deleteUser] finds one. *)
Definition carries (id : json) (items : list json) : bool :=
  match findIndex (UserStorage.has_id (Some id)) items with
  | Return (Some _) => true
  | _ => false
  end.

(** The [id] properties of the records, in their order. *)
Definition ids_of (items : list json) : list (option json) :=
  map (fun u => JS.prop u "id") items.

(** ** The values on which the embedding is exact *)

(** No object within the value has an own property with one of the
    names. *)
Fixpoint avoids (names : list string) (v : json) : bool :=
  match v with
  | JObj fields =>
      forallb (fun kv => negb (existsb (String.eqb kv.1) names) && avoids names kv.2) fields
  | JArr items => forallb (avoids names) items
  | _ => true
  end.

(** [Data.deepClone] returns on the value: no object within it has an own
    property named [hasOwnProperty]. *)
Definition clonable (v : json) : bool := avoids ["hasOwnProperty"] v.

Definition clonable_opt (v : option json) : bool := from_option clonable true v.

(** The clone, where there is one. *)
Definition cloned (v : json) : json :=
  match deepClone v with
  | Return clone => clone
  | _ => v
  end.

(** A text of ASCII characters: on it a byte is a UTF-16 code unit, and
    [toLowerCase] folds the letters A to Z only. *)
Definition ascii_text (s : string) : bool :=
  negb (Str.any (fun c => (128 <=? nat_of_ascii c)%nat) s).

(** Absent, not a string, or an ASCII text. *)
Definition ascii_value (v : option json) : Prop :=
  match v with
  | Some (JStr s) => ascii_text s = true
  | _ => True
  end.

(** The record's [id] is a whole number with [room] increments left below
    2^53, the range in which a double counts exactly. *)
Definition safe_id (room : Z) (user : json) : Prop :=
  exists n : Z, JS.prop user "id" = Some (JInt n) /\ Z.abs n + room < 2 ^ 53.

(** A value that [new Date] reads as given here: absent, or not an array
    or object, whose conversion to a primitive runs their methods, nor a
    number with a fraction, which a double may round to a whole number. *)
Definition date_argument (v : option json) : bool :=
  match v with
  | Some (JArr _) | Some (JObj _) => false
  | Some (JNum q) => JS.is_integer q
  | _ => true
  end.

(** The names that every object inherits from [Object.prototype]. *)
Definition Object_prototype_names : list string :=
  ["constructor"; "hasOwnProperty"; "isPrototypeOf"; "propertyIsEnumerable";
   "toLocaleString"; "toString"; "valueOf"; "__proto__";
   "__defineGetter__"; "__defineSetter__"; "__lookupGetter__"; "__lookupSetter__"].

(** A property name that is enumerated in the order of its creation and
    that is read from the object itself: it does not begin with a digit,
    as every array index does, and [Object.prototype] does not have it. *)
Definition plain_name (k : string) : bool :=
  negb (existsb (String.eqb k) Object_prototype_names)
  && match k with
     | String c _ => match Date.digit c with Some _ => false | None => true end
     | EmptyString => true
     end.

(** A value that [String] turns into the text given here: not an array or
    object, and when it is a whole number, one of at most 2^53 in size,
    which its decimal digits denote exactly. *)
Definition printable (v : option json) : bool :=
  match v with
  | Some (JArr _) | Some (JObj _) => false
  | Some (JNum q) => negb (JS.is_integer q) || (Z.abs (Qnum (Qred q)) <=? 2 ^ 53)
  | _ => true
  end.

(** The zone keeps one offset from UTC. *)
Definition fixed_offset (pf : platform) : Prop :=
  exists tza : Z, forall (t : Z) (isUTC : bool), LocalTZA pf t isUTC = tza.

(** ** Concrete states used in the examples *)

Definition demo_platform : platform :=
  Platform "Mozilla/5.0" (fun _ _ => 0)
    (fun radix _ => if radix =? 36 then "0.i" else "0.5") (fun _ => None).

(** A page with nothing stored, at the instant [t]. *)
Definition blank_page (t : Z) : world :=
  World ∅ 1 t (fun _ => 1 # 2)%Q 0 demo_platform.

(** Loading [storage.js] constructs its four singletons. *)
Definition load_module : M unit :=
  Storage.initializeStorage ;;;
  UserStorage.constructor ;;;
  Storage.initializeStorage ;;;
  Storage.initializeStorage.

(** The page once the module is loaded over empty storage: the sample
    users are seeded. *)
Definition loaded_page (t : Z) : world := state_of (load_module (blank_page t)).

(** 2024-03-15T12:00:00.000Z *)
Definition noon_2024_03_15 : Z := 1710504000000.

Definition demo_credentials : json :=
  JObj [("email", JStr "admin@demo.com"); ("password", JStr "demo123")].

(** The loaded page after the demo administrator logged in at [t]. *)
Definition logged_in_page (t : Z) : world :=
  state_of (API.login demo_credentials (loaded_page t)).

(** The records seeded on first use. *)
Definition sample_records : list json :=
  match SAMPLE_USERS with JArr items => items | _ => [] end.

(** Two registrations, the second of which brings its own [id]. *)
Definition eva : json :=
  JObj [("name", JStr "Eva"); ("email", JStr "eva@demo.com"); ("role", JStr "user")].
Definition leo_with_id : json :=
  JObj [("id", JInt 3); ("name", JStr "Leo"); ("email", JStr "leo@demo.com")].
Definition leo : json :=
  JObj [("name", JStr "Leo"); ("email", JStr "leo@demo.com")].

(** The loaded page with an audit log of 1000 entries. *)
Definition thousand_entries : list json :=
  map (fun i => JInt (Z.of_nat i)) (seq 0 1000).

Definition full_log_page (t : Z) : world :=
  state_of (Storage.set STORAGE_KEYS.LOGS_DATA (JArr thousand_entries) (loaded_page t)).

(** The loaded page after Eva was created at [t]; she gets id 6. *)
Definition page_with_eva (t : Z) : world :=
  state_of (UserStorage.createUser (Some eva) (loaded_page t)).

Definition eva_stored : json :=
  JObj [("id", JInt 6); ("name", JStr "Eva"); ("email", JStr "eva@demo.com");
        ("role", JStr "user"); ("registeredDate", JStr "2024-03-15");
        ("lastLogin", JNull); ("createdAt", JStr "2024-03-15T12:00:00.000Z");
        ("updatedAt", JStr "2024-03-15T12:00:00.000Z")].

Definition eva_a_minute_later : world :=
  at_time (noon_2024_03_15 + 60000) (page_with_eva noon_2024_03_15).

Definition renumber : json :=
  JObj [("id", JInt 99); ("createdAt", JStr "2000-01-01T00:00:00.000Z")].

Definition deactivate : json := JObj [("status", JStr "inactive")].

(** A registration request for a new address. *)
Definition eva_registration : json :=
  JObj [("name", JStr "Eva"); ("email", JStr "eva@demo.com"); ("password", JStr "s3cret")].

(** A registration request for an address already stored in another case. *)
Definition juan_again : json :=
  JObj [("name", JStr "Juan"); ("email", JStr "JUAN@Demo.com"); ("password", JStr "x")].

(** A page whose only user has a note of two lines. *)
Definition two_line_note : json :=
  JObj [("id", JInt 1); ("name", JStr "Ana");
        ("notes", JStr (String "a" (String JS.newline (String "b" EmptyString))))].

Definition page_with_note (t : Z) : world :=
  state_of (Storage.set STORAGE_KEYS.USER_DATA (JArr [two_line_note]) (blank_page t)).

(** A page whose only user carries a stamp of 2030-01-01. *)
Definition stamped_in_2030 : json :=
  JObj [("id", JInt 1); ("name", JStr "Ana"); ("status", JStr "active");
        ("updatedAt", JStr "2030-01-01T00:00:00.000Z")].

Definition page_from_2030 (t : Z) : world :=
  state_of (Storage.set STORAGE_KEYS.USER_DATA (JArr [stamped_in_2030]) (blank_page t)).

(** A page whose only user registered on the given date. *)
Definition registered_on (date : string) : json :=
  JObj [("id", JInt 1); ("name", JStr "Ana"); ("status", JStr "active");
        ("registeredDate", JStr date)].

Definition page_registered (date : string) (t : Z) : world :=
  state_of (Storage.set STORAGE_KEYS.USER_DATA (JArr [registered_on date]) (blank_page t)).

(** 2024-01-15T12:00:00.000Z *)
Definition noon_2024_01_15 : Z := 1705320000000.

(** The page ten minutes after the demo administrator logged in at noon. *)
Definition ten_minutes_in : world :=
  at_time (noon_2024_03_15 + 600000) (logged_in_page noon_2024_03_15).

(** The loaded page with an empty user collection stored. *)
Definition empty_collection_page : world :=
  state_of (Storage.set STORAGE_KEYS.USER_DATA (JArr []) (loaded_page noon_2024_03_15)).

(** The backup taken on the loaded page, before anybody logged in. *)
Definition backup_before_login : json :=
  match value_of (BackupStorage.createBackup (loaded_page noon_2024_03_15)) with
  | Return doc => doc
  | _ => JNull
  end.

(** Three users whose texts are ASCII. *)
Definition office : list json :=
  [JObj [("id", JInt 1); ("name", JStr "Ada Demo"); ("email", JStr "ada@demo.com");
         ("role", JStr "admin"); ("status", JStr "active");
         ("notes", JStr "Keeps the demo data")];
   JObj [("id", JInt 2); ("name", JStr "Bob Stone"); ("email", JStr "bob@DEMO.com");
         ("role", JStr "user"); ("status", JStr "active"); ("notes", JNull)];
   JObj [("id", JInt 3); ("name", JStr "Cy Demosthenes"); ("email", JStr "cy@example.org");
         ("role", JStr "admin"); ("status", JStr "inactive")]].

Definition office_page (t : Z) : world :=
  state_of (Storage.set STORAGE_KEYS.USER_DATA (JArr office) (blank_page t)).

(** * Proofs *)

(** ** Running the monad *)

Lemma world_eta (w : world) :
  World (localStorage w) (nextId w) (clock w) (random w) (drawn w) (host w) = w.
Proof. by destruct w. Qed.

Lemma with_storage_same (w : world) : with_storage (localStorage w) w = w.
Proof. apply world_eta. Qed.

Lemma prefix_inj (k1 k2 : string) :
  Storage.prefix +:+ k1 = Storage.prefix +:+ k2 -> k1 = k2.
Proof. unfold Storage.prefix. simpl. intros H. by simplify_eq. Qed.

Lemma bind_ret {A B} (a : A) (k : A -> M B) (w : world) : bind (ret a) k w = k a w.
Proof. reflexivity. Qed.

Lemma bind_throw {A B} (e : exn) (k : A -> M B) (w : world) :
  bind (throw e) k w = (w, Throw e).
Proof. reflexivity. Qed.

Lemma bind_lift_Return {A B} (a : A) (k : A -> M B) (w : world) :
  bind (lift (Return a)) k w = k a w.
Proof. reflexivity. Qed.

Lemma bind_lift_Throw {A B} (e : exn) (k : A -> M B) (w : world) :
  bind (lift (Throw e)) k w = (w, Throw e).
Proof. reflexivity. Qed.

Lemma bind_bind {A B C} (c : M A) (f : A -> M B) (g : B -> M C) (w : world) :
  bind (bind c f) g w = bind c (fun a => bind (f a) g) w.
Proof. unfold bind. destruct (c w) as [w' [a | e |]]; reflexivity. Qed.

Lemma bind_get {B} (key : string) (d : json) (k : json -> M B) (w : world) :
  bind (Storage.get key d) k w = k (default d (stored w key)) w.
Proof.
  unfold bind, Storage.get, stored. by destruct (localStorage w !! _).
Qed.

Lemma bind_set {B} (key : string) (v : json) (k : bool -> M B) (w : world) :
  bind (Storage.set key v) k w
  = k true (with_storage (<[Storage.prefix +:+ key := v]> (localStorage w)) w).
Proof. reflexivity. Qed.

Lemma bind_now {B} (k : Z -> M B) (w : world) : bind Date_now k w = k (clock w) w.
Proof. reflexivity. Qed.

Lemma bind_platform {B} (k : platform -> M B) (w : world) :
  bind platform_of k w = k (host w) w.
Proof. reflexivity. Qed.

Lemma bind_random {B} (k : Q -> M B) (w : world) :
  bind Math_random k w
  = k (random w (drawn w))
      (World (localStorage w) (nextId w) (clock w) (random w) (S (drawn w)) (host w)).
Proof. reflexivity. Qed.

Lemma get_run (key : string) (d : json) (w : world) :
  Storage.get key d w = (w, Return (default d (stored w key))).
Proof. unfold Storage.get, stored. by destruct (localStorage w !! _). Qed.

Ltac step :=
  repeat first
    [ rewrite bind_bind | rewrite bind_get | rewrite bind_set | rewrite bind_now
    | rewrite bind_platform | rewrite bind_random | rewrite bind_ret
    | rewrite bind_lift_Return | rewrite bind_lift_Throw | rewrite bind_throw ].

(** ** Dates *)

(** The day number of the civil date of a day is that day. *)
Lemma civil_round_trip (z : Z) :
  Date.days_from_civil (Date.civil_from_days z).1.1 (Date.civil_from_days z).1.2
    (Date.civil_from_days z).2 = z
  /\ 1 <= (Date.civil_from_days z).1.2 <= 12
  /\ 1 <= (Date.civil_from_days z).2 <= 31.
Proof.
  unfold Date.civil_from_days.
  set (z' := z + 719468). set (era := z' / 146097). set (doe := z' - era * 146097).
  assert (Hdoe : 0 <= doe <= 146096).
  { unfold doe, era. Z.to_euclidean_division_equations; lia. }
  set (yoe := (doe - doe / 1460 + doe / 36524 - doe / 146096) / 365).
  assert (Hyoe : 0 <= yoe <= 399).
  { unfold yoe. Z.to_euclidean_division_equations; lia. }
  set (doy := doe - (365 * yoe + yoe / 4 - yoe / 100)).
  assert (Hdoy : 0 <= doy <= 365).
  { unfold doy, yoe. Z.to_euclidean_division_equations; lia. }
  set (mp := (5 * doy + 2) / 153).
  assert (Hmp : 0 <= mp <= 11).
  { unfold mp. Z.to_euclidean_division_equations; lia. }
  set (d := doy - (153 * mp + 2) / 5 + 1).
  assert (Hd : 1 <= d <= 31).
  { unfold d, mp. Z.to_euclidean_division_equations; lia. }
  set (m := if mp <? 10 then mp + 3 else mp - 9).
  assert (Hm : 1 <= m <= 12 /\ (m + 9) mod 12 = mp).
  { unfold m. destruct (mp <? 10) eqn:E.
    - apply Z.ltb_lt in E. split; [lia |]. Z.to_euclidean_division_equations; lia.
    - apply Z.ltb_ge in E. split; [lia |]. Z.to_euclidean_division_equations; lia. }
  destruct Hm as [Hm Hmp'].
  cbn [fst snd]. split; [| split; assumption].
  unfold Date.days_from_civil. rewrite Hmp'.
  set (y' := if m <=? 2 then _ - 1 else _).
  assert (Hy' : y' = yoe + era * 400).
  { unfold y'. destruct (m <=? 2); lia. }
  rewrite Hy'.
  assert (Hera : (yoe + era * 400) / 400 = era).
  { Z.to_euclidean_division_equations; lia. }
  rewrite Hera.
  replace (yoe + era * 400 - era * 400) with yoe by lia.
  unfold d, doy, doe, z'. lia.
Qed.

Lemma days_from_civil_day (y m d : Z) :
  Date.days_from_civil y m d = Date.days_from_civil y m 1 + d - 1.
Proof. unfold Date.days_from_civil. lia. Qed.

Lemma MakeDay_civil (y m d : Z) :
  1 <= m <= 12 -> Date.MakeDay y (m - 1) d = Date.days_from_civil y m d.
Proof.
  intros Hm. unfold Date.MakeDay.
  replace ((m - 1) / 12) with 0 by (Z.to_euclidean_division_equations; lia).
  replace ((m - 1) mod 12 + 1) with m by (Z.to_euclidean_division_equations; lia).
  rewrite (days_from_civil_day y m d). f_equal. f_equal. f_equal. lia.
Qed.

Lemma previous_month_length (y mon : Z) :
  0 <= mon <= 11 ->
  28 <= Date.days_from_civil y (mon + 1) 1 - Date.MakeDay y (mon - 1) 1 <= 31.
Proof.
  intros H. unfold Date.MakeDay.
  assert (C : mon = 0 \/ mon = 1 \/ mon = 2 \/ mon = 3 \/ mon = 4 \/ mon = 5 \/ mon = 6
              \/ mon = 7 \/ mon = 8 \/ mon = 9 \/ mon = 10 \/ mon = 11) by lia.
  repeat (destruct C as [-> | C]); try subst mon; unfold Date.days_from_civil; simpl;
    Z.to_euclidean_division_equations; lia.
Qed.

(** In a zone that keeps one offset, one calendar month before [now] is 28
    to 31 days before it. *)
Lemma setMonth_previous (pf : platform) (now : Z) :
  fixed_offset pf ->
  0 <= now <= 8640000000000000 ->
  exists L, 28 <= L <= 31
    /\ Date.setMonth pf now (Date.getMonth pf now - 1) = Some (now - L * Date.msPerDay).
Proof.
  intros [tza Htza] Hnow. unfold Date.setMonth, Date.getMonth, Date.MonthFromTime,
    Date.YearFromTime, Date.DateFromTime, Date.LocalTime, Date.UTC.
  rewrite !Htza.
  set (lt := now + tza).
  destruct (civil_round_trip (Date.Day lt)) as [Hround [Hm Hd]].
  set (y := (Date.civil_from_days (Date.Day lt)).1.1) in *.
  set (m := (Date.civil_from_days (Date.Day lt)).1.2) in *.
  set (d := (Date.civil_from_days (Date.Day lt)).2) in *.
  exists (Date.days_from_civil y (m - 1 + 1) 1 - Date.MakeDay y (m - 1 - 1) 1).
  assert (HL := previous_month_length y (m - 1) ltac:(lia)).
  split; [exact HL |].
  assert (Hday : Date.MakeDay y (m - 1 - 1) d
                 = Date.Day lt
                   - (Date.days_from_civil y (m - 1 + 1) 1 - Date.MakeDay y (m - 1 - 1) 1)).
  { rewrite <- Hround. rewrite (days_from_civil_day y m d).
    replace (m - 1 + 1) with m by lia. unfold Date.MakeDay. lia. }
  rewrite Hday.
  set (L := Date.days_from_civil y (m - 1 + 1) 1 - Date.MakeDay y (m - 1 - 1) 1) in *.
  assert (Hlt : (Date.Day lt - L) * Date.msPerDay + Date.TimeWithinDay lt - tza
                = now - L * Date.msPerDay).
  { unfold Date.Day, Date.TimeWithinDay, Date.msPerDay, lt.
    Z.to_euclidean_division_equations; lia. }
  unfold Date.MakeDate. rewrite Hlt. unfold Date.TimeClip.
  rewrite (proj2 (Z.leb_le _ _)); [done |]. unfold Date.msPerDay. lia.
Qed.

Lemma list_ascii_of_string_app (a b : string) :
  list_ascii_of_string (a +:+ b) = list_ascii_of_string a ++ list_ascii_of_string b.
Proof. induction a as [| c a IH]; simpl; [done |]. by rewrite IH. Qed.

Lemma digit_char (n : Z) :
  0 <= n <= 9 ->
  Date.digit (ascii_of_nat (48 + Z.to_nat n)) = Some n
  /\ Ascii.eqb (ascii_of_nat (48 + Z.to_nat n)) "+" = false
  /\ Ascii.eqb (ascii_of_nat (48 + Z.to_nat n)) "-" = false.
Proof.
  intros H. rewrite <- (Z2Nat.id n) at 2 by lia.
  assert (Hk : (Z.to_nat n < 10)%nat) by lia.
  destruct (Z.to_nat n) as [| k]; [done |].
  do 9 (destruct k as [| k]; [done |]). lia.
Qed.

Lemma digits_add (k1 k2 : nat) (acc : Z) (s : list ascii) :
  Date.digits (k1 + k2) acc s
  = match Date.digits k1 acc s with
    | Some (a, s') => Date.digits k2 a s'
    | None => None
    end.
Proof.
  revert acc s. induction k1 as [| k1 IH]; intros acc s; simpl; [done |].
  destruct s as [| c s]; [done |]. destruct (Date.digit c); [apply IH | done].
Qed.

Lemma digits_pad (k : nat) :
  forall (n acc : Z) (rest : list ascii),
    0 <= n < 10 ^ Z.of_nat k ->
    Date.digits k acc (list_ascii_of_string (Date.pad k n) ++ rest)
    = Some (acc * 10 ^ Z.of_nat k + n, rest).
Proof.
  induction k as [| k IH]; intros n acc rest Hn.
  - simpl in *. f_equal. f_equal. lia.
  - replace (S k) with (k + 1)%nat at 1 by lia.
    rewrite digits_add. cbn [Date.pad].
    rewrite list_ascii_of_string_app, <- app_assoc.
    assert (Hpow : 10 ^ Z.of_nat (S k) = 10 * 10 ^ Z.of_nat k).
    { rewrite Nat2Z.inj_succ, Z.pow_succ_r; lia. }
    rewrite IH by (Z.to_euclidean_division_equations; nia).
    cbn [list_ascii_of_string app Date.digits].
    destruct (digit_char (n mod 10)) as [Hdigit _];
      [Z.to_euclidean_division_equations; lia |].
    rewrite Hdigit. f_equal. f_equal. rewrite Hpow.
    Z.to_euclidean_division_equations; nia.
Qed.

Lemma field_pad (sep : ascii) (k : nat) (n : Z) (rest : list ascii) :
  0 <= n < 10 ^ Z.of_nat k ->
  Date.field sep k (sep :: list_ascii_of_string (Date.pad k n) ++ rest)
  = Some (Some n, rest).
Proof.
  intros Hn. unfold Date.field. rewrite Ascii.eqb_refl.
  rewrite digits_pad by done.
  by replace (0 * 10 ^ Z.of_nat k + n) with n by lia.
Qed.

Lemma parse_year_pad (y : Z) (rest : list ascii) :
  0 <= y <= 9999 ->
  Date.parse_year (list_ascii_of_string (Date.pad 4 y) ++ rest) = Some (y, rest).
Proof.
  intros Hy.
  assert (Hd := digits_pad 4 y 0 rest ltac:(simpl; lia)).
  unfold Date.parse_year. revert Hd. cbn [Date.pad].
  rewrite !list_ascii_of_string_app, <- !app_assoc.
  cbn [list_ascii_of_string app].
  destruct (digit_char (y / 10 / 10 / 10 mod 10)) as [_ [Hplus Hminus]];
    [Z.to_euclidean_division_equations; lia |].
  rewrite Hplus, Hminus. intros ->.
  by replace (0 * 10 ^ Z.of_nat 4 + y) with y by lia.
Qed.

(** Parsing reads back the instant that [toISOString] printed. *)
Lemma parse_toISOString (pf : platform) (t : Z) :
  0 <= Date.YearFromTime t <= 9999 ->
  Z.abs t <= 8640000000000000 ->
  Date.parse pf (Date.toISOString t) = Some t.
Proof.
  intros Hyear Hclip. unfold Date.YearFromTime in Hyear.
  destruct (civil_round_trip (Date.Day t)) as [Hround [Hm Hd]].
  unfold Date.toISOString, Date.parse, Date.parse_format.
  destruct (Date.civil_from_days (Date.Day t)) as [[y m] d] eqn:Hcivil. cbn [fst snd] in *.
  assert (Hday : Date.is_civil y m d = true).
  { unfold Date.is_civil. rewrite Hround, Hcivil. by rewrite !Z.eqb_refl. }
  rewrite (proj2 (Z.leb_le 0 y)), (proj2 (Z.leb_le y 9999)) by lia.
  cbn [andb].
  set (r := Date.TimeWithinDay t).
  assert (Hr : 0 <= r < 86400000).
  { unfold r, Date.TimeWithinDay, Date.msPerDay. Z.to_euclidean_division_equations; lia. }
  rewrite !list_ascii_of_string_app. cbn [list_ascii_of_string app].
  rewrite parse_year_pad by lia.
  rewrite (field_pad "-" 2 m) by (simpl; lia).
  rewrite (field_pad "-" 2 d) by (simpl; lia).
  cbn [default from_option id].
  rewrite (proj2 (Z.leb_le 1 m)), (proj2 (Z.leb_le m 12)),
    (proj2 (Z.leb_le 1 d)), (proj2 (Z.leb_le d 31)), Hday by lia.
  cbn [andb Ascii.eqb Bool.eqb]. unfold Date.parse_time.
  rewrite digits_pad by (simpl; Z.to_euclidean_division_equations; lia).
  cbn [Ascii.eqb Bool.eqb].
  rewrite digits_pad by (simpl; Z.to_euclidean_division_equations; lia).
  rewrite (field_pad ":" 2) by (simpl; Z.to_euclidean_division_equations; lia).
  rewrite (field_pad "." 3) by (simpl; Z.to_euclidean_division_equations; lia).
  cbn [default from_option id Date.parse_offset list_ascii_of_string Ascii.eqb Bool.eqb].
  replace (0 * 10 ^ Z.of_nat 2 + r / 3600000) with (r / 3600000) by lia.
  replace (0 * 10 ^ Z.of_nat 2 + r / 60000 mod 60) with (r / 60000 mod 60) by lia.
  rewrite (proj2 (Z.leb_le (r / 3600000) 23)),
    (proj2 (Z.leb_le (r / 60000 mod 60) 59)),
    (proj2 (Z.leb_le (r / 1000 mod 60) 59))
    by (Z.to_euclidean_division_equations; lia).
  cbn [andb orb].
  rewrite MakeDay_civil by lia. rewrite Hround.
  assert (Ht : Date.MakeDate (Date.Day t)
                 (Date.MakeTime (r / 3600000) (r / 60000 mod 60) (r / 1000 mod 60)
                    (r mod 1000)) - 0 * Date.msPerMinute = t).
  { unfold Date.MakeDate, Date.MakeTime, r, Date.TimeWithinDay, Date.Day, Date.msPerDay.
    Z.to_euclidean_division_equations; lia. }
  rewrite Ht. unfold Date.TimeClip. by rewrite (proj2 (Z.leb_le _ _)).
Qed.

(** ** The authentication gate *)

Lemma isLoggedIn_run (w : world) :
  exists v, SessionStorage.isLoggedIn w = (w, Return v).
Proof.
  unfold SessionStorage.isLoggedIn. step.
  destruct (JS.truthy _); eauto.
Qed.

Lemma gate_closed {A} (w : world) (k : option json -> M A) (e : exn) :
  logged_out w ->
  (forall v, JS.truthy_opt v = false -> k v w = (w, Throw e)) ->
  bind SessionStorage.isLoggedIn k w = (w, Throw e).
Proof.
  intros [v [Hv Hf]] Hk. destruct (isLoggedIn_run w) as [v' Hrun].
  unfold value_of in Hv. unfold bind. rewrite Hrun in *. simpl in *.
  simplify_eq. by apply Hk.
Qed.

(** C9.  A request that reaches the users, reports or metrics handler while
    nobody is logged in fails with the 401 error "Unauthorized" and leaves
    the whole page state, and so the user collection, the audit log and the
    session records, as it was; the same holds through [processRequest]
    for every endpoint it routes to one of these handlers. *)
Theorem unauthorized_request_touches_nothing
    (w : world) (method endpoint : string) (data : json) :
  logged_out w ->
  API.handleUsersRequest method endpoint data w = (w, Throw (APIError "Unauthorized" 401))
  /\ API.handleReportsRequest method endpoint data w = (w, Throw (APIError "Unauthorized" 401))
  /\ API.handleMetricsRequest method endpoint data w = (w, Throw (APIError "Unauthorized" 401))
  /\ (JS.includes "/auth/" endpoint = false ->
      JS.includes "/users" endpoint || JS.includes "/reports" endpoint
        || JS.includes "/metrics" endpoint = true ->
      API.processRequest method endpoint data w = (w, Throw (APIError "Unauthorized" 401))).
Proof.
  intros Hout.
  assert (Hu : API.handleUsersRequest method endpoint data w
               = (w, Throw (APIError "Unauthorized" 401))).
  { apply gate_closed; [done |]. by intros v ->. }
  assert (Hr : API.handleReportsRequest method endpoint data w
               = (w, Throw (APIError "Unauthorized" 401))).
  { apply gate_closed; [done |]. by intros v ->. }
  assert (Hm : API.handleMetricsRequest method endpoint data w
               = (w, Throw (APIError "Unauthorized" 401))).
  { apply gate_closed; [done |]. by intros v ->. }
  repeat split; try done.
  intros Hauth Hroute. unfold API.processRequest. rewrite Hauth.
  destruct (JS.includes "/users" endpoint); [done |].
  destruct (JS.includes "/reports" endpoint); [done |].
  destruct (JS.includes "/metrics" endpoint); [done | discriminate].
Qed.

Example unauthorized_request_witness :
  logged_out (loaded_page noon_2024_03_15)
  /\ API.handleUsersRequest "DELETE" "/api/users/3" JNull (loaded_page noon_2024_03_15)
     = (loaded_page noon_2024_03_15, Throw (APIError "Unauthorized" 401)).
Proof.
  assert (H : logged_out (loaded_page noon_2024_03_15)).
  { exists (Some JNull). split; vm_compute; reflexivity. }
  split; [exact H |].
  exact (proj1 (unauthorized_request_touches_nothing
                  (loaded_page noon_2024_03_15) "DELETE" "/api/users/3" JNull H)).
Defined.

(** ** Rounded arithmetic *)

Lemma pow2_pos (k : Z) : (0 < Number.pow2 k)%Q.
Proof. apply Qpower_0_lt. reflexivity. Qed.

Lemma pow2_plus (a b : Z) : (Number.pow2 (a + b) == Number.pow2 a * Number.pow2 b)%Q.
Proof. apply Qpower_plus. discriminate. Qed.

Lemma pow2_le (a b : Z) : a <= b -> (Number.pow2 a <= Number.pow2 b)%Q.
Proof. intros H. apply Qpower_le_compat_l; [exact H | discriminate]. Qed.

Lemma pow2_lt (a b : Z) : a < b -> (Number.pow2 a < Number.pow2 b)%Q.
Proof. intros H. apply Qpower_lt_compat_l; [exact H | reflexivity]. Qed.

Lemma pow2_lt_inv (a b : Z) : (Number.pow2 a < Number.pow2 b)%Q -> a < b.
Proof. intros H. apply (Qpower_lt_compat_l_inv 2); [exact H | reflexivity]. Qed.

Lemma pow2_Z (k : Z) : 0 <= k -> (Number.pow2 k == inject_Z (2 ^ k))%Q.
Proof. intros H. unfold Number.pow2. by rewrite (Zpower_Qpower 2 k H). Qed.

Lemma pow2_shift (a b : Z) :
  (Number.pow2 a * Number.pow2 (b - a) == Number.pow2 b)%Q.
Proof. rewrite <- pow2_plus. by replace (a + (b - a)) with b by lia. Qed.

(** *** The exponent *)

Lemma exponent_spec (q : Q) :
  (0 < q)%Q ->
  (Number.pow2 (Number.exponent q) <= q < Number.pow2 (Number.exponent q + 1))%Q.
Proof.
  intros Hq. destruct q as [n d].
  assert (Hn : 0 < n) by (unfold Qlt in Hq; simpl in Hq; lia).
  unfold Number.exponent. cbn [Qnum Qden].
  set (a := Z.log2 n). set (b := Z.log2 (Z.pos d)).
  destruct (Z.log2_spec n Hn) as [Ha1 Ha2]. fold a in Ha1, Ha2.
  destruct (Z.log2_spec (Z.pos d) eq_refl) as [Hb1 Hb2]. fold b in Hb1, Hb2.
  assert (Ha0 : 0 <= a) by apply Z.log2_nonneg.
  assert (Hb0 : 0 <= b) by apply Z.log2_nonneg.
  assert (HD : (0 < inject_Z (Z.pos d))%Q) by reflexivity.
  assert (Hqd : ((n # d) * inject_Z (Z.pos d) == inject_Z n)%Q).
  { rewrite (Qmake_Qdiv n d). field. discriminate. }
  assert (Hupper : forall e, a + 1 <= e + b -> ((n # d) < Number.pow2 e)%Q).
  { intros e He. apply (Qmult_lt_r _ _ (inject_Z (Z.pos d)) HD). rewrite Hqd.
    apply Qlt_le_trans with (Number.pow2 (a + 1)).
    - rewrite pow2_Z by lia. rewrite <- Zlt_Qlt. exact Ha2.
    - apply Qle_trans with (Number.pow2 e * Number.pow2 b)%Q.
      + rewrite <- pow2_plus. by apply pow2_le.
      + apply Qmult_le_l; [apply pow2_pos |].
        rewrite pow2_Z by lia. rewrite <- Zle_Qle. exact Hb1. }
  assert (Hlower : forall e, e + b + 1 <= a -> (Number.pow2 e <= (n # d))%Q).
  { intros e He. apply (Qmult_le_r _ _ (inject_Z (Z.pos d)) HD). rewrite Hqd.
    apply Qle_trans with (Number.pow2 a).
    - apply Qle_trans with (Number.pow2 e * Number.pow2 (b + 1))%Q.
      + apply Qmult_le_l; [apply pow2_pos |].
        rewrite pow2_Z by lia. rewrite <- Zle_Qle.
        change (Z.succ b) with (b + 1) in Hb2. lia.
      + rewrite <- pow2_plus. apply pow2_le. lia.
    - rewrite pow2_Z by lia. rewrite <- Zle_Qle. exact Ha1. }
  destruct (Qle_bool (Number.pow2 (a - b)) (n # d)) eqn:E.
  - apply Qle_bool_iff in E. split; [exact E |]. apply Hupper. lia.
  - split; [apply Hlower; lia |].
    replace (a - b - 1 + 1) with (a - b) by lia.
    apply Qnot_le_lt. intros Hle. apply Qle_bool_iff in Hle. congruence.
Qed.

Lemma exponent_unique (q : Q) (e : Z) :
  (Number.pow2 e <= q < Number.pow2 (e + 1))%Q -> Number.exponent q = e.
Proof.
  intros [Hlo Hhi].
  assert (Hq : (0 < q)%Q) by (eapply Qlt_le_trans; [apply pow2_pos | exact Hlo]).
  destruct (exponent_spec q Hq) as [Hlo' Hhi'].
  assert (H1 : Number.exponent q < e + 1).
  { apply pow2_lt_inv. eapply Qle_lt_trans; [exact Hlo' | exact Hhi]. }
  assert (H2 : e < Number.exponent q + 1).
  { apply pow2_lt_inv. eapply Qle_lt_trans; [exact Hlo | exact Hhi']. }
  lia.
Qed.

Lemma exponent_comp (x y : Q) :
  (0 < x)%Q -> (x == y)%Q -> Number.exponent x = Number.exponent y.
Proof.
  intros Hx Hxy. symmetry. apply exponent_unique. rewrite <- Hxy.
  by apply exponent_spec.
Qed.

Lemma exponent_le (x y : Q) :
  (0 < x)%Q -> (x <= y)%Q -> Number.exponent x <= Number.exponent y.
Proof.
  intros Hx Hxy.
  assert (Hy : (0 < y)%Q) by (eapply Qlt_le_trans; [exact Hx | exact Hxy]).
  destruct (exponent_spec x Hx) as [Hlo _]. destruct (exponent_spec y Hy) as [_ Hhi].
  assert (H : Number.exponent x < Number.exponent y + 1).
  { apply pow2_lt_inv. eapply Qle_lt_trans; [exact Hlo |].
    eapply Qle_lt_trans; [exact Hxy | exact Hhi]. }
  lia.
Qed.

(** *** Rounding to an integer *)

Lemma round_half_even_floor (q : Q) :
  Qfloor q <= Number.round_half_even q <= Qfloor q + 1.
Proof.
  unfold Number.round_half_even.
  destruct (Qcompare _ _); [destruct (Z.even _) | |]; lia.
Qed.

Lemma round_half_even_Z (z : Z) : Number.round_half_even (inject_Z z) = z.
Proof.
  unfold Number.round_half_even. rewrite Qfloor_Z.
  destruct (Qcompare_spec (inject_Z z - inject_Z z) (1 # 2)) as [H | H | H];
    [exfalso; lra | done | exfalso; lra].
Qed.

Lemma round_half_even_comp (x y : Q) :
  (x == y)%Q -> Number.round_half_even x = Number.round_half_even y.
Proof.
  intros H. unfold Number.round_half_even. rewrite (Qfloor_comp x y H).
  destruct (Qcompare_spec (x - inject_Z (Qfloor y)) (1 # 2)) as [Hx | Hx | Hx];
    destruct (Qcompare_spec (y - inject_Z (Qfloor y)) (1 # 2)) as [Hy | Hy | Hy];
    try done; exfalso; lra.
Qed.

Lemma round_half_even_mono (x y : Q) :
  (x <= y)%Q -> Number.round_half_even x <= Number.round_half_even y.
Proof.
  intros Hxy. pose proof (Qfloor_resp_le x y Hxy) as Hfloor.
  destruct (decide (Qfloor x = Qfloor y)) as [Heq | Hne].
  - unfold Number.round_half_even. rewrite Heq.
    destruct (Qcompare_spec (x - inject_Z (Qfloor y)) (1 # 2)) as [Hx | Hx | Hx];
      destruct (Qcompare_spec (y - inject_Z (Qfloor y)) (1 # 2)) as [Hy | Hy | Hy];
      try (destruct (Z.even (Qfloor y))); try lia; exfalso; lra.
  - pose proof (round_half_even_floor x). pose proof (round_half_even_floor y). lia.
Qed.

(** *** The nearest double *)

Lemma scaled_range (q : Q) :
  (0 < q)%Q ->
  (inject_Z (2 ^ 52) <= q * Number.pow2 (52 - Number.exponent q) <= inject_Z (2 ^ 53))%Q.
Proof.
  intros Hq. destruct (exponent_spec q Hq) as [Hlo Hhi].
  set (e := Number.exponent q) in *.
  rewrite <- !pow2_Z by lia. split.
  - rewrite <- (pow2_shift e 52). apply Qmult_le_compat_r; [exact Hlo |].
    apply Qlt_le_weak, pow2_pos.
  - rewrite <- (pow2_shift (e + 1) 53). replace (53 - (e + 1)) with (52 - e) by lia.
    apply Qmult_le_compat_r; [by apply Qlt_le_weak |].
    apply Qlt_le_weak, pow2_pos.
Qed.

Lemma nearest_eq (q : Q) :
  (Number.nearest q
   == inject_Z (Number.round_half_even (q * Number.pow2 (52 - Number.exponent q)))
      * Number.pow2 (Number.exponent q - 52))%Q.
Proof. unfold Number.nearest. apply Qred_correct. Qed.

Lemma nearest_range (q : Q) :
  (0 < q)%Q ->
  (Number.pow2 (Number.exponent q) <= Number.nearest q
   <= Number.pow2 (Number.exponent q + 1))%Q.
Proof.
  intros Hq. destruct (scaled_range q Hq) as [Hlo Hhi]. rewrite nearest_eq.
  set (e := Number.exponent q) in *.
  set (m := Number.round_half_even (q * Number.pow2 (52 - e))).
  assert (Hm : 2 ^ 52 <= m <= 2 ^ 53).
  { split.
    - rewrite <- (round_half_even_Z (2 ^ 52)). by apply round_half_even_mono.
    - rewrite <- (round_half_even_Z (2 ^ 53)). by apply round_half_even_mono. }
  split.
  - rewrite <- (pow2_shift 52 e).
    apply Qmult_le_compat_r; [| apply Qlt_le_weak, pow2_pos].
    rewrite pow2_Z by lia. rewrite <- Zle_Qle. lia.
  - rewrite <- (pow2_shift 53 (e + 1)). replace (e + 1 - 53) with (e - 52) by lia.
    apply Qmult_le_compat_r; [| apply Qlt_le_weak, pow2_pos].
    rewrite pow2_Z by lia. rewrite <- Zle_Qle. lia.
Qed.

Lemma nearest_pos (q : Q) : (0 < q)%Q -> (0 < Number.nearest q)%Q.
Proof.
  intros Hq. eapply Qlt_le_trans; [apply pow2_pos |]. by apply nearest_range.
Qed.

Lemma nearest_mono (x y : Q) :
  (0 < x)%Q -> (x <= y)%Q -> (Number.nearest x <= Number.nearest y)%Q.
Proof.
  intros Hx Hxy.
  assert (Hy : (0 < y)%Q) by (eapply Qlt_le_trans; [exact Hx | exact Hxy]).
  pose proof (exponent_le x y Hx Hxy) as He.
  destruct (decide (Number.exponent x = Number.exponent y)) as [Heq | Hne].
  - rewrite !nearest_eq, Heq.
    apply Qmult_le_compat_r; [| apply Qlt_le_weak, pow2_pos].
    rewrite <- Zle_Qle. apply round_half_even_mono.
    apply Qmult_le_compat_r; [exact Hxy | apply Qlt_le_weak, pow2_pos].
  - apply Qle_trans with (Number.pow2 (Number.exponent x + 1));
      [by apply nearest_range |].
    apply Qle_trans with (Number.pow2 (Number.exponent y));
      [apply pow2_le; lia | by apply nearest_range].
Qed.

(** A rational with a significand of at most 53 bits is a double. *)
Lemma nearest_fixed (k j : Z) :
  0 < k < 2 ^ 53 ->
  (Number.nearest (inject_Z k * Number.pow2 j) == inject_Z k * Number.pow2 j)%Q.
Proof.
  intros [Hk0 Hk]. set (y := (inject_Z k * Number.pow2 j)%Q).
  assert (Hy : (0 < y)%Q).
  { unfold y. apply Qmult_lt_0_compat; [| apply pow2_pos].
    change 0%Q with (inject_Z 0). by rewrite <- Zlt_Qlt. }
  destruct (exponent_spec y Hy) as [Hlo _]. set (e := Number.exponent y) in *.
  assert (Hlt : (y < Number.pow2 (53 + j))%Q).
  { unfold y. rewrite pow2_plus. apply Qmult_lt_compat_r; [apply pow2_pos |].
    rewrite pow2_Z by lia. by rewrite <- Zlt_Qlt. }
  assert (He : e < 53 + j).
  { apply pow2_lt_inv. eapply Qle_lt_trans; [exact Hlo | exact Hlt]. }
  rewrite nearest_eq. fold e.
  assert (Hs : (y * Number.pow2 (52 - e) == inject_Z (k * 2 ^ (j + 52 - e)))%Q).
  { unfold y. rewrite inject_Z_mult, <- pow2_Z by lia.
    rewrite <- Qmult_assoc, <- pow2_plus.
    by replace (j + (52 - e)) with (j + 52 - e) by lia. }
  rewrite (round_half_even_comp _ _ Hs), round_half_even_Z.
  rewrite inject_Z_mult, <- pow2_Z by lia.
  rewrite <- Qmult_assoc, <- pow2_plus. unfold y.
  by replace (j + 52 - e + (e - 52)) with j by lia.
Qed.

Lemma nearest_comp (x y : Q) :
  (0 < x)%Q -> (x == y)%Q -> (Number.nearest x == Number.nearest y)%Q.
Proof.
  intros Hx Hxy. rewrite !nearest_eq, (exponent_comp x y Hx Hxy).
  assert (Hs : (x * Number.pow2 (52 - Number.exponent y)
                == y * Number.pow2 (52 - Number.exponent y))%Q) by (by rewrite Hxy).
  by rewrite (round_half_even_comp _ _ Hs).
Qed.

(** *** Rounding a rational *)

Lemma of_rational_pos (q : Q) : (0 < q)%Q -> Number.of_rational q = Number.nearest q.
Proof.
  intros H. unfold Number.of_rational.
  destruct (Qcompare_spec q 0) as [H0 | H0 | H0]; [exfalso; lra | exfalso; lra | done].
Qed.

Lemma of_rational_neg (q : Q) :
  (q < 0)%Q -> Number.of_rational q = (- Number.nearest (- q))%Q.
Proof.
  intros H. unfold Number.of_rational.
  destruct (Qcompare_spec q 0) as [H0 | H0 | H0]; [exfalso; lra | done | exfalso; lra].
Qed.

Lemma of_rational_zero (q : Q) : (q == 0)%Q -> Number.of_rational q = 0%Q.
Proof.
  intros H. unfold Number.of_rational.
  destruct (Qcompare_spec q 0) as [H0 | H0 | H0]; [done | exfalso; lra | exfalso; lra].
Qed.

Lemma of_rational_mono (x y : Q) :
  (x <= y)%Q -> (Number.of_rational x <= Number.of_rational y)%Q.
Proof.
  intros Hxy.
  destruct (Qcompare_spec x 0) as [Hx | Hx | Hx];
    destruct (Qcompare_spec y 0) as [Hy | Hy | Hy];
    try (exfalso; lra).
  - rewrite (of_rational_zero x Hx), (of_rational_zero y Hy). lra.
  - rewrite (of_rational_zero x Hx), (of_rational_pos y Hy).
    apply Qlt_le_weak. by apply nearest_pos.
  - rewrite (of_rational_neg x Hx), (of_rational_zero y Hy).
    assert (H : (0 < Number.nearest (- x))%Q) by (apply nearest_pos; lra). lra.
  - rewrite (of_rational_neg x Hx), (of_rational_neg y Hy).
    assert (H : (Number.nearest (- y) <= Number.nearest (- x))%Q)
      by (apply nearest_mono; lra).
    lra.
  - rewrite (of_rational_neg x Hx), (of_rational_pos y Hy).
    assert (H1 : (0 < Number.nearest (- x))%Q) by (apply nearest_pos; lra).
    assert (H2 : (0 < Number.nearest y)%Q) by (by apply nearest_pos).
    lra.
  - rewrite (of_rational_pos x Hx), (of_rational_pos y Hy). by apply nearest_mono.
Qed.

Lemma of_rational_fixed (k j : Z) (q : Q) :
  Z.abs k < 2 ^ 53 ->
  (q == inject_Z k * Number.pow2 j)%Q ->
  (Number.of_rational q == q)%Q.
Proof.
  intros Hk Hq. pose proof (pow2_pos j) as Hj.
  destruct (Z.lt_trichotomy k 0) as [Hneg | [-> | Hpos]].
  - assert (Hq0 : (q < 0)%Q).
    { rewrite Hq.
      assert (E : (inject_Z k * Number.pow2 j == - (inject_Z (- k) * Number.pow2 j))%Q)
        by (rewrite inject_Z_opp; ring).
      rewrite E.
      assert (H' : (0 < inject_Z (- k) * Number.pow2 j)%Q).
      { apply Qmult_lt_0_compat; [| done]. change 0%Q with (inject_Z 0).
        rewrite <- Zlt_Qlt. lia. }
      lra. }
    rewrite (of_rational_neg q Hq0).
    assert (E : (- q == inject_Z (- k) * Number.pow2 j)%Q)
      by (rewrite Hq, inject_Z_opp; ring).
    rewrite (nearest_comp (- q) _ ltac:(lra) E), nearest_fixed by lia.
    rewrite <- E. ring.
  - assert (Hq0 : (q == 0)%Q) by (rewrite Hq; ring).
    rewrite (of_rational_zero q Hq0). by rewrite Hq0.
  - assert (Hq0 : (0 < q)%Q).
    { rewrite Hq. apply Qmult_lt_0_compat; [| done].
      change 0%Q with (inject_Z 0). by rewrite <- Zlt_Qlt. }
    rewrite (of_rational_pos q Hq0).
    rewrite (nearest_comp q _ Hq0 Hq), nearest_fixed by lia.
    by rewrite Hq.
Qed.

Lemma of_rational_Z (k : Z) :
  Z.abs k < 2 ^ 53 -> (Number.of_rational (inject_Z k) == inject_Z k)%Q.
Proof.
  intros Hk. apply (of_rational_fixed k 0 _ Hk).
  change (Number.pow2 0) with 1%Q. ring.
Qed.

Lemma of_rational_whole (k : Z) (q : Q) :
  Z.abs k <= 2 ^ 53 -> (q == inject_Z k)%Q -> (Number.of_rational q == q)%Q.
Proof.
  intros Hk Hq. assert (Hpow : 2 ^ 53 = 9007199254740992) by reflexivity.
  destruct (decide (Z.abs k < 2 ^ 53)) as [Hlt | Hge].
  - apply (of_rational_fixed k 0 q Hlt). rewrite Hq.
    change (Number.pow2 0) with 1%Q. ring.
  - apply (of_rational_fixed (Z.sgn k) 53 q); [lia |].
    rewrite Hq, pow2_Z by lia. rewrite <- inject_Z_mult.
    replace (Z.sgn k * 2 ^ 53) with k by lia. reflexivity.
Qed.

(** Adding one to a whole number of at most 2^53 in size is exact. *)
Lemma add_one_whole (k : Z) (q : Q) :
  Z.abs (k + 1) <= 2 ^ 53 -> (q == inject_Z k)%Q ->
  (Number.add q 1 == inject_Z (k + 1))%Q.
Proof.
  intros Hk Hq.
  assert (Hsum : (q + 1 == inject_Z (k + 1))%Q).
  { rewrite Hq, inject_Z_plus. reflexivity. }
  unfold Number.add. by rewrite (of_rational_whole (k + 1) (q + 1) Hk Hsum).
Qed.

(** *** Minutes elapsed *)

(** Whether the minutes in [elapsed] milliseconds, as the sources compute
    them, exceed a whole number of minutes is decided exactly. *)
Lemma whole_minutes_exceeded (now lastActivity timeout : Z) :
  Z.abs timeout <= 2 ^ 31 ->
  (inject_Z timeout
   < Number.divide (Number.subtract (inject_Z now) (inject_Z lastActivity))
       (inject_Z (1000 * 60)))%Q
  <-> 60000 * timeout < now - lastActivity.
Proof.
  intros Htimeout.
  assert (Hpow : 2 ^ 31 = 2147483648) by reflexivity.
  assert (Hpow53 : 2 ^ 53 = 9007199254740992) by reflexivity.
  assert (Hpow16 : 2 ^ 16 = 65536) by reflexivity.
  unfold Number.divide, Number.subtract.
  change (inject_Z (1000 * 60)) with 60000%Q.
  set (exact := (inject_Z now - inject_Z lastActivity)%Q).
  assert (Hexact : (exact == inject_Z (now - lastActivity))%Q).
  { unfold exact, Z.sub. rewrite inject_Z_plus, inject_Z_opp. ring. }
  set (difference := Number.of_rational exact).
  split.
  - intros Hlt. destruct (decide (60000 * timeout < now - lastActivity)) as [| Hle];
      [done | exfalso].
    assert (H1 : (difference <= inject_Z (60000 * timeout))%Q).
    { rewrite <- (of_rational_Z (60000 * timeout)) by lia.
      apply of_rational_mono. rewrite Hexact, <- Zle_Qle. lia. }
    assert (H2 : (Number.of_rational (difference / 60000) <= inject_Z timeout)%Q).
    { rewrite <- (of_rational_Z timeout) by lia.
      apply of_rational_mono. apply Qle_shift_div_r; [reflexivity |].
      rewrite inject_Z_mult in H1. change (inject_Z 60000) with 60000%Q in H1. lra. }
    lra.
  - intros Hlt.
    assert (H1 : (inject_Z (60000 * timeout + 1) <= difference)%Q).
    { rewrite <- (of_rational_Z (60000 * timeout + 1)) by lia.
      apply of_rational_mono. rewrite Hexact, <- Zle_Qle. lia. }
    set (above := (inject_Z (timeout * 2 ^ 16 + 1) * Number.pow2 (- 16))%Q).
    assert (Habove : (above == inject_Z timeout + (1 # 65536))%Q).
    { unfold above. rewrite inject_Z_plus, inject_Z_mult, Hpow16.
      change (Number.pow2 (- 16)) with (/ 65536)%Q.
      change (inject_Z 65536) with 65536%Q. change (inject_Z 1) with 1%Q.
      rewrite (Qmake_Qdiv 1 65536). change (inject_Z (Z.pos 65536)) with 65536%Q.
      change (inject_Z 1) with 1%Q. field. }
    assert (H2 : (above <= Number.of_rational (difference / 60000))%Q).
    { rewrite <- (of_rational_fixed (timeout * 2 ^ 16 + 1) (- 16) above) at 1;
        [| lia | reflexivity].
      apply of_rational_mono. apply Qle_shift_div_l; [reflexivity |].
      rewrite inject_Z_plus, inject_Z_mult in H1.
      change (inject_Z 60000) with 60000%Q in H1. change (inject_Z 1) with 1%Q in H1.
      rewrite Habove. lra. }
    rewrite Habove in H2. lra.
Qed.

(** ** Session expiry *)

Lemma Qgt_bool_true (a b : Q) : SessionStorage.Qgt_bool a b = true <-> (b < a)%Q.
Proof.
  unfold SessionStorage.Qgt_bool. rewrite negb_true_iff. split.
  - intros H. apply Qnot_le_lt. intros Hle. apply Qle_bool_iff in Hle. congruence.
  - intros H. destruct (Qle_bool a b) eqn:E; [| done].
    apply Qle_bool_iff in E. by apply Qlt_not_le in H.
Qed.

(** The answer for a stored session record whose [lastActivity] denotes an
    instant; nothing is written. *)
Lemma isSessionExpired_run (w : world) (timeoutMinutes : Q) (session : json)
    (lastActivity : Z) :
  stored w STORAGE_KEYS.CURRENT_USER = Some session ->
  JS.truthy session = true ->
  Date.of_value (host w) (JS.prop session "lastActivity") = Some lastActivity ->
  SessionStorage.isSessionExpired timeoutMinutes w
  = (w, Return (SessionStorage.Qgt_bool (minutes_elapsed lastActivity (clock w))
                  timeoutMinutes)).
Proof.
  intros Hsome Htruthy Hdate.
  unfold SessionStorage.isSessionExpired. step.
  rewrite Hsome. cbn [default from_option id]. rewrite Htruthy. cbn [negb]. step.
  by rewrite Hdate.
Qed.

(** For a timeout of a whole number of minutes the answer is decided by
    the milliseconds. *)
Lemma whole_timeout_exceeded (earlier later timeout : Z) (timeoutMinutes : Q) :
  (timeoutMinutes == inject_Z timeout)%Q ->
  Z.abs timeout <= 2 ^ 31 ->
  SessionStorage.Qgt_bool (minutes_elapsed earlier later) timeoutMinutes
  = (60000 * timeout <? later - earlier).
Proof.
  intros Hwhole Hbound. apply eq_true_iff_eq.
  rewrite Qgt_bool_true, Z.ltb_lt, Hwhole. unfold minutes_elapsed.
  by apply whole_minutes_exceeded.
Qed.



Example session_at_the_boundary :
  value_of (SessionStorage.isSessionExpired 30
              (at_time (noon_2024_03_15 + 30 * 60000) (logged_in_page noon_2024_03_15)))
  = Return false
  /\ value_of (SessionStorage.isSessionExpired 30
                 (at_time (noon_2024_03_15 + 30 * 60000 + 1)
                    (logged_in_page noon_2024_03_15)))
     = Return true
  /\ value_of (SessionStorage.isSessionExpired 30 (loaded_page noon_2024_03_15))
     = Return true.
Proof. repeat split; vm_compute; reflexivity. Qed.

(** The minutes elapsed are a rounded quotient: twenty seconds are a third
    of a minute, which is more than the double nearest to a third, and
    the session is not expired for that timeout. *)
Example session_after_a_third_of_a_minute :
  let third := (6004799503160661 # 18014398509481984)%Q in
  Number.of_rational (1 # 3) = third
  /\ (third < 1 # 3)%Q
  /\ value_of (SessionStorage.isSessionExpired third
                 (at_time (noon_2024_03_15 + 20000) (logged_in_page noon_2024_03_15)))
     = Return false.
Proof. repeat split; vm_compute; reflexivity. Qed.

(** ** Backup and restore *)

Lemma Forall_set_field (P : string * json -> Prop) (k : string) (v : json)
    (fields : list (string * json)) :
  Forall P fields -> P (k, v) -> Forall P (JS.set_field k v fields).
Proof.
  intros Hall Hnew. induction Hall as [| [k' v'] rest Hx Hrest IH]; simpl.
  - by constructor.
  - destruct (String.eqb k k'); constructor; done.
Qed.

(** [collect] only reads, and every entry it adds is the value stored under
    its key. *)
Lemma collect_run (keys : list string) (data : list (string * json)) (w : world) :
  Forall (fun kv => stored w kv.1 = Some kv.2) data ->
  exists data',
    BackupStorage.collect keys data w = (w, Return data')
    /\ Forall (fun kv => stored w kv.1 = Some kv.2) data'.
Proof.
  revert data. induction keys as [| key rest IH]; intros data Hdata; simpl.
  - by exists data.
  - step. destruct (stored w key) as [value |] eqn:Hkey; simpl.
    + assert (Hnew : Forall (fun kv => stored w kv.1 = Some kv.2)
                       (JS.set_field key value data))
        by (by apply Forall_set_field).
      destruct value; auto.
    + auto.
Qed.

(** Restoring entries that already hold their stored values changes
    nothing. *)
Lemma restore_entries_noop (entries : list (string * json)) (w : world) :
  Forall (fun kv => kv.1 = STORAGE_KEYS.BACKUP_DATA \/ stored w kv.1 = Some kv.2) entries ->
  forEach BackupStorage.restore_entry entries w = (w, Return tt).
Proof.
  induction 1 as [| [k v] rest Hx Hrest IH]; cbn [forEach]; [done |].
  unfold BackupStorage.restore_entry at 1. cbn [fst snd] in *.
  destruct (String.eqb k STORAGE_KEYS.BACKUP_DATA) eqn:Hk; cbn [negb].
  - by step.
  - step. destruct Hx as [-> | Hx].
    + by rewrite String.eqb_refl in Hk.
    + unfold stored in Hx. rewrite (insert_id _ _ _ Hx), with_storage_same.
      exact IH.
Qed.

Lemma stored_with_storage_insert_ne (w : world) (key key' : string) (v : json) :
  key <> key' ->
  stored (with_storage (<[Storage.prefix +:+ key' := v]> (localStorage w)) w) key
  = stored w key.
Proof.
  intros Hne. unfold stored, with_storage. simpl.
  apply lookup_insert_ne. intros Heq. apply prefix_inj in Heq. congruence.
Qed.

Lemma stored_with_storage_insert_eq (w : world) (key : string) (v : json) :
  stored (with_storage (<[Storage.prefix +:+ key := v]> (localStorage w)) w) key = Some v.
Proof. unfold stored, with_storage. simpl. apply lookup_insert_eq. Qed.

(** C5.  [restoreBackup(createBackup())] succeeds and leaves every key
    other than the reserved backup key with the decoded value it had when
    the backup was taken; the reserved key holds the new document. *)
Theorem restoreBackup_createBackup (w : world) :
  exists (w' : world) (doc : json),
    restore_fresh_backup w = (w', Return true)
    /\ (forall key, key <> STORAGE_KEYS.BACKUP_DATA -> stored w' key = stored w key)
    /\ value_of (BackupStorage.createBackup w) = Return doc
    /\ stored w' STORAGE_KEYS.BACKUP_DATA = Some doc.
Proof.
  destruct (collect_run STORAGE_KEYS.values [] w) as [data [Hrun Hdata]];
    [by constructor |].
  assert (Hcreate : exists doc,
    BackupStorage.createBackup w
    = (with_storage (<[Storage.prefix +:+ STORAGE_KEYS.BACKUP_DATA := doc]>
                       (localStorage w)) w, Return doc)
    /\ JS.truthy doc = true /\ JS.prop doc "data" = Some (JObj data)).
  { unfold BackupStorage.createBackup. step.
    unfold bind at 1. rewrite Hrun. step. eexists. split; [reflexivity |]. done. }
  destruct Hcreate as [doc [Hcreate [Htruthy Hprop]]].
  set (w1 := with_storage _ w) in Hcreate.
  assert (Hrestore : BackupStorage.restoreBackup doc w1 = (w1, Return true)).
  { unfold BackupStorage.restoreBackup, try_catch. step.
    rewrite Htruthy. cbv beta iota. rewrite Htruthy, Hprop.
    cbn [JS.truthy_opt JS.truthy negb orb default from_option id JS.own_props].
    unfold bind at 1. rewrite restore_entries_noop; [done |].
    eapply Forall_impl; [exact Hdata |]. intros [k v] Hkv. cbn [fst snd] in *.
    destruct (decide (k = STORAGE_KEYS.BACKUP_DATA)) as [-> | Hne]; [by left |].
    right. unfold w1. by rewrite stored_with_storage_insert_ne. }
  exists w1, doc. split; [| split; [| split]].
  - unfold restore_fresh_backup, bind at 1. by rewrite Hcreate.
  - intros key Hne. unfold w1. by apply stored_with_storage_insert_ne.
  - unfold value_of. by rewrite Hcreate.
  - unfold w1. apply stored_with_storage_insert_eq.
Qed.

Example restoreBackup_createBackup_logged_in :
  value_of (restore_fresh_backup (logged_in_page noon_2024_03_15)) = Return true
  /\ stored (state_of (restore_fresh_backup (logged_in_page noon_2024_03_15)))
       STORAGE_KEYS.USER_DATA
     = stored (logged_in_page noon_2024_03_15) STORAGE_KEYS.USER_DATA.
Proof. split; vm_compute; reflexivity. Qed.

(** ** Objects *)

(** *** Cloning *)

Lemma mapM_outcome {A B} (f : A -> outcome B) (ok : A -> bool) (e : exn) (l : list A) :
  Forall (fun x => (ok x = true /\ exists y, f x = Return y)
                   \/ (ok x = false /\ f x = Throw e)) l ->
  (forallb ok l = true /\ exists ys, mapM f l = Return ys)
  \/ (forallb ok l = false /\ mapM f l = Throw e).
Proof.
  induction 1 as [| x rest Hx Hrest IH]; cbn [forallb mapM]; [left; eauto |].
  destruct Hx as [[Hok [y Hy]] | [Hok Hy]]; rewrite Hok, Hy; cbn [andb obind].
  - destruct IH as [[Hall [ys Hys]] | [Hall Hys]]; rewrite Hys; cbn [obind].
    + left. eauto.
    + by right.
  - by right.
Qed.

Lemma mapM_same {A} (f : A -> outcome A) (l : list A) :
  Forall (fun x => f x = Return x) l -> mapM f l = Return l.
Proof.
  induction 1 as [| x rest Hx Hrest IH]; cbn [mapM]; [done |].
  by rewrite Hx, IH.
Qed.

Lemma existsb_one (k name : string) :
  existsb (String.eqb k) [name] = String.eqb k name.
Proof. cbn [existsb]. apply orb_false_r. Qed.

(** [deepClone] returns on a clonable value and throws a [TypeError] on
    any other. *)
Lemma deepClone_outcome :
  forall v : json,
    (clonable v = true /\ exists clone, deepClone v = Return clone)
    \/ (clonable v = false /\ deepClone v = Throw TypeError).
Proof.
  fix IH 1. intros [| b | q | s | items | fields];
    try (left; split; [reflexivity | by eexists]).
  - assert (Hall : Forall (fun x => (clonable x = true /\ exists y, deepClone x = Return y)
                                    \/ (clonable x = false /\ deepClone x = Throw TypeError))
                          items).
    { induction items as [| x rest IHrest]; constructor; [apply IH | exact IHrest]. }
    apply (mapM_outcome deepClone clonable TypeError) in Hall.
    change (clonable (JArr items)) with (forallb clonable items).
    cbn [deepClone]. change (mapM deepClone items) with (mapM deepClone items) in Hall.
    destruct Hall as [[Hok [ys Hys]] | [Hok Hys]].
    + left. split; [exact Hok |]. exists (JArr ys).
      change ((cloned <~ mapM deepClone items ;; Return (JArr cloned)) = Return (JArr ys)).
      by rewrite Hys.
    + right. split; [exact Hok |].
      change ((cloned <~ mapM deepClone items ;; Return (JArr cloned)) = Throw TypeError).
      by rewrite Hys.
  - set (ok := fun kv : string * json =>
                 negb (existsb (String.eqb kv.1) ["hasOwnProperty"]) && clonable kv.2).
    set (g := fun kv : string * json => value <~ deepClone kv.2 ;; Return (kv.1, value)).
    change (clonable (JObj fields)) with (forallb ok fields).
    change (deepClone (JObj fields))
      with (if existsb (fun kv => String.eqb kv.1 "hasOwnProperty") fields
            then Throw TypeError
            else cloned <~ mapM g fields ;;
                 Return (JObj (List.filter (fun kv => negb (String.eqb kv.1 "__proto__"))
                                 cloned))).
    destruct (existsb (fun kv => String.eqb kv.1 "hasOwnProperty") fields) eqn:Hnamed.
    + right. split; [| done]. apply not_true_is_false. intros Hall.
      apply existsb_exists in Hnamed as [kv [Hin Hkv]].
      rewrite forallb_forall in Hall. specialize (Hall kv Hin). unfold ok in Hall.
      rewrite existsb_one, Hkv in Hall. done.
    + assert (Hall : Forall (fun kv => (ok kv = true /\ exists y, g kv = Return y)
                                       \/ (ok kv = false /\ g kv = Throw TypeError))
                            fields).
      { revert Hnamed. induction fields as [| [k x] rest IHrest]; intros Hnamed;
          constructor.
        - cbn [existsb fst] in Hnamed. apply orb_false_elim in Hnamed as [Hk _].
          unfold ok, g. cbn [fst snd]. rewrite existsb_one, Hk. cbn [negb andb].
          destruct (IH x) as [[Hok [y Hy]] | [Hok Hy]]; rewrite Hok, Hy; cbn [obind];
            [left; eauto | by right].
        - apply IHrest. cbn [existsb] in Hnamed.
          by apply orb_false_elim in Hnamed as [_ Hrest]. }
      apply (mapM_outcome g ok TypeError) in Hall.
      destruct Hall as [[Hok [ys Hys]] | [Hok Hys]]; rewrite Hys; cbn [obind].
      * left. split; [exact Hok |]. by eexists.
      * by right.
Qed.

Lemma deepClone_cloned (v : json) :
  clonable v = true -> deepClone v = Return (cloned v).
Proof.
  intros Hv. destruct (deepClone_outcome v) as [[_ [clone Hclone]] | [Hno _]];
    [| congruence].
  unfold cloned. by rewrite Hclone.
Qed.

Lemma deepClone_throws (v : json) :
  clonable v = false -> deepClone v = Throw TypeError.
Proof.
  intros Hv. destruct (deepClone_outcome v) as [[Hyes _] | [_ Hthrow]]; [congruence | done].
Qed.

(** A value in which no object has an own property named [hasOwnProperty]
    or [__proto__] is its own clone. *)
Lemma deepClone_same :
  forall v : json,
    avoids ["hasOwnProperty"; "__proto__"] v = true -> deepClone v = Return v.
Proof.
  fix IH 1. intros [| b | q | s | items | fields] Hv; try reflexivity.
  - change (avoids ["hasOwnProperty"; "__proto__"] (JArr items))
      with (forallb (avoids ["hasOwnProperty"; "__proto__"]) items) in Hv.
    change (deepClone (JArr items))
      with (cloned <~ mapM deepClone items ;; Return (JArr cloned)).
    rewrite (mapM_same deepClone items); [done |].
    induction items as [| x rest IHrest]; constructor.
    + apply IH. cbn [forallb] in Hv. by apply andb_true_iff in Hv as [Hx _].
    + apply IHrest. cbn [forallb] in Hv. by apply andb_true_iff in Hv as [_ Hrest].
  - set (g := fun kv : string * json => value <~ deepClone kv.2 ;; Return (kv.1, value)).
    change (deepClone (JObj fields))
      with (if existsb (fun kv => String.eqb kv.1 "hasOwnProperty") fields
            then Throw TypeError
            else cloned <~ mapM g fields ;;
                 Return (JObj (List.filter (fun kv => negb (String.eqb kv.1 "__proto__"))
                                 cloned))).
    set (ok := fun kv : string * json =>
                 negb (existsb (String.eqb kv.1) ["hasOwnProperty"; "__proto__"])
                 && avoids ["hasOwnProperty"; "__proto__"] kv.2).
    change (avoids ["hasOwnProperty"; "__proto__"] (JObj fields))
      with (forallb ok fields) in Hv.
    assert (Hnames : Forall (fun kv => String.eqb kv.1 "hasOwnProperty" = false
                                       /\ String.eqb kv.1 "__proto__" = false
                                       /\ g kv = Return kv) fields).
    { induction fields as [| [k x] rest IHrest]; constructor.
      - cbn [forallb] in Hv. apply andb_true_iff in Hv as [Hkv _].
        unfold ok in Hkv. cbn [fst snd existsb] in Hkv.
        apply andb_true_iff in Hkv as [Hk Hx]. apply negb_true_iff in Hk.
        apply orb_false_elim in Hk as [Hown Hk]. apply orb_false_elim in Hk as [Hproto _].
        cbn [fst]. split; [exact Hown |]. split; [exact Hproto |].
        unfold g. cbn [fst snd]. by rewrite (IH x Hx).
      - apply IHrest. cbn [forallb] in Hv. by apply andb_true_iff in Hv as [_ Hrest]. }
    replace (existsb (fun kv => String.eqb kv.1 "hasOwnProperty") fields) with false.
    2: { symmetry. apply not_true_is_false. intros Hex.
         apply existsb_exists in Hex as [kv [Hin Hkv]].
         rewrite Forall_forall in Hnames. apply list_elem_of_In in Hin.
         destruct (Hnames kv Hin) as [Hown _]. congruence. }
    rewrite (mapM_same g fields).
    2: { eapply Forall_impl; [exact Hnames |]. by intros kv [_ [_ Hg]]. }
    cbn [obind]. do 2 f_equal. clear Hv.
    induction Hnames as [| kv rest [_ [Hproto _]] Hrest IHrest]; cbn [List.filter]; [done |].
    rewrite Hproto. cbn [negb]. by rewrite IHrest.
Qed.

(** *** Records that can be cloned *)

Lemma pretty_N_go_digit (x : N) :
  forall s : string,
    (s = "" \/ exists c s', s = String c s' /\ is_Some (Date.digit c)) ->
    pretty_N_go x s = "" \/ exists c s', pretty_N_go x s = String c s' /\ is_Some (Date.digit c).
Proof.
  induction (N.lt_wf_0 x) as [x _ IH]; intros s Hs.
  assert (x = 0 \/ 0 < x)%N as [-> | Hpos] by lia.
  - by rewrite pretty_N_go_0.
  - rewrite pretty_N_go_step by done. apply IH; [by apply N.div_lt |].
    right. eexists; eexists. split; [reflexivity |].
    unfold pretty_N_char. repeat case_match; by eexists.
Qed.

Lemma pretty_nat_not_a_word (i : nat) (c : ascii) (name : string) :
  Date.digit c = None -> pretty i <> String c name.
Proof.
  intros Hc Heq. unfold pretty, pretty_nat, pretty, pretty_N in Heq.
  destruct (decide (N.of_nat i = 0%N)) as [_ | Hne].
  - injection Heq as <- _. discriminate Hc.
  - destruct (pretty_N_go_digit (N.of_nat i) "" (or_introl eq_refl))
      as [Hempty | [c' [s' [Hgo [d Hd]]]]]; [congruence |].
    rewrite Hgo in Heq. injection Heq as -> _. congruence.
Qed.

(** The properties that a spread or [Object.entries] takes from a clonable
    value. *)
Lemma own_props_clonable (v : json) :
  clonable v = true ->
  Forall (fun kv => String.eqb kv.1 "hasOwnProperty" = false /\ clonable kv.2 = true)
         (JS.own_props v).
Proof.
  assert (Hindexed : forall items i,
            Forall (fun x => clonable x = true) items ->
            Forall (fun kv => String.eqb kv.1 "hasOwnProperty" = false
                              /\ clonable kv.2 = true) (JS.indexed i items)).
  { induction items as [| x rest IH]; intros i Hall; cbn [JS.indexed]; constructor.
    - apply Forall_cons in Hall as [Hx _]. split; [| done]. cbn [fst].
      apply String.eqb_neq. by apply pretty_nat_not_a_word.
    - apply IH. by apply Forall_cons in Hall as [_ Hrest]. }
  destruct v as [| b | q | s | items | fields]; cbn [JS.own_props]; intros Hv;
    try constructor.
  - apply Hindexed. clear Hv.
    induction s as [| c s IH]; cbn [JS.chars]; [constructor | by constructor].
  - apply Hindexed. apply Forall_forall. intros x Hx.
    change (clonable (JArr items)) with (forallb clonable items) in Hv.
    rewrite forallb_forall in Hv. apply Hv. by apply list_elem_of_In.
  - change (clonable (JObj fields))
      with (forallb (fun kv => negb (existsb (String.eqb kv.1) ["hasOwnProperty"])
                               && clonable kv.2) fields) in Hv.
    apply Forall_forall. intros kv Hkv. rewrite forallb_forall in Hv.
    specialize (Hv kv ltac:(by apply list_elem_of_In)).
    apply andb_true_iff in Hv as [Hk Hx]. rewrite existsb_one in Hk.
    by apply negb_true_iff in Hk.
Qed.

Lemma clonable_fields (fields : list (string * json)) :
  clonable (JObj fields) = true
  <-> Forall (fun kv => String.eqb kv.1 "hasOwnProperty" = false /\ clonable kv.2 = true)
             fields.
Proof.
  split; [apply (own_props_clonable (JObj fields)) |].
  intros Hall.
  change (clonable (JObj fields))
    with (forallb (fun kv => negb (existsb (String.eqb kv.1) ["hasOwnProperty"])
                             && clonable kv.2) fields).
  apply forallb_forall. intros kv Hkv. rewrite Forall_forall in Hall.
  apply list_elem_of_In in Hkv. destruct (Hall kv Hkv) as [Hk Hx].
  by rewrite existsb_one, Hk, Hx.
Qed.

Lemma clonable_set_field (k : string) (v : json) (fields : list (string * json)) :
  String.eqb k "hasOwnProperty" = false -> clonable v = true ->
  clonable (JObj fields) = true ->
  clonable (JObj (JS.set_field k v fields)) = true.
Proof.
  intros Hk Hv. rewrite !clonable_fields. intros Hall.
  by apply Forall_set_field.
Qed.

Lemma clonable_set_fields (fields more : list (string * json)) :
  Forall (fun kv => String.eqb kv.1 "hasOwnProperty" = false /\ clonable kv.2 = true) more ->
  clonable (JObj fields) = true ->
  clonable (JObj (UserStorage.set_fields fields more)) = true.
Proof.
  unfold UserStorage.set_fields. intros Hmore. revert fields.
  induction Hmore as [| [k v] rest [Hk Hv] Hrest IH]; intros fields Hfields; cbn [fold_left];
    [done |].
  apply IH. by apply clonable_set_field.
Qed.

Lemma clonable_spread (fields : list (string * json)) (src : option json) :
  clonable_opt src = true -> clonable (JObj fields) = true ->
  clonable (JObj (JS.spread fields src)) = true.
Proof.
  destruct src as [v |]; cbn [clonable_opt from_option JS.spread]; [| done].
  intros Hv Hfields.
  apply (clonable_set_fields fields (JS.own_props v)); [| done].
  by apply own_props_clonable.
Qed.

(** The records that [createUser] and [updateUser] build can be cloned
    when their parts can. *)
Lemma clonable_newUser (n : Q) (userData : option json) (t : Z) :
  clonable_opt userData = true ->
  clonable (JObj (UserStorage.newUser n userData t)) = true.
Proof.
  intros Hdata. unfold UserStorage.newUser.
  apply clonable_set_fields; [by repeat constructor |].
  by apply clonable_spread.
Qed.

Lemma clonable_updatedUser (user updates : option json) (t : Z) :
  clonable_opt user = true -> clonable_opt updates = true ->
  clonable (JObj (UserStorage.updatedUser user updates t)) = true.
Proof.
  intros Huser Hupdates. unfold UserStorage.updatedUser.
  apply clonable_set_fields; [by repeat constructor |].
  apply clonable_spread; [done |]. by apply clonable_spread.
Qed.

Lemma clonable_lookup (items : list json) (i : nat) :
  Forall (fun u => clonable u = true) items -> clonable_opt (items !! i) = true.
Proof.
  intros Hall. destruct (items !! i) as [u |] eqn:Hu; [| done].
  by apply (Forall_lookup_1 _ _ _ _ Hall Hu).
Qed.


Lemma clonable_at (items : list json) (i : nat) :
  Forall (fun u => clonable u = true) items -> clonable (default JNull (items !! i)) = true.
Proof.
  intros H. pose proof (clonable_lookup items i H) as Hi. by destruct (items !! i).
Qed.

Lemma lookup_set_field_eq (k : string) (v : json) (fields : list (string * json)) :
  JS.lookup_field k (JS.set_field k v fields) = Some v.
Proof.
  induction fields as [| [k' v'] rest IH]; simpl.
  - by rewrite String.eqb_refl.
  - destruct (String.eqb k k') eqn:E; simpl.
    + by rewrite String.eqb_refl.
    + by rewrite E.
Qed.

Lemma lookup_set_field_ne (k k' : string) (v : json) (fields : list (string * json)) :
  k <> k' ->
  JS.lookup_field k (JS.set_field k' v fields) = JS.lookup_field k fields.
Proof.
  intros Hne. apply String.eqb_neq in Hne.
  induction fields as [| [k0 v0] rest IH]; simpl.
  - by rewrite Hne.
  - destruct (String.eqb k' k0) eqn:E; simpl.
    + apply String.eqb_eq in E. subst k0. by rewrite Hne.
    + by rewrite IH.
Qed.

Lemma lookup_field_None (k : string) (fields : list (string * json)) :
  JS.lookup_field k fields = None <-> k ∉ map fst fields.
Proof.
  induction fields as [| [k' v'] rest IH]; simpl.
  - split; [intros _; apply not_elem_of_nil | done].
  - rewrite not_elem_of_cons. destruct (String.eqb k k') eqn:E.
    + apply String.eqb_eq in E. split; [done | intros [Hne _]; done].
    + apply String.eqb_neq in E. rewrite IH. tauto.
Qed.

Lemma lookup_field_Some (k : string) (v : json) (fields : list (string * json)) :
  NoDup (map fst fields) ->
  JS.lookup_field k fields = Some v <-> (k, v) ∈ fields.
Proof.
  induction fields as [| [k' v'] rest IH]; simpl; intros Hnd.
  - split; [done | intros H; by apply elem_of_nil in H].
  - apply NoDup_cons in Hnd as [Hk' Hnd]. rewrite elem_of_cons.
    destruct (String.eqb k k') eqn:E.
    + apply String.eqb_eq in E. subst k'. split.
      * intros [= ->]. by left.
      * intros [[= ->] | Hin]; [done |].
        exfalso. apply Hk'. apply list_elem_of_fmap. by exists (k, v).
    + apply String.eqb_neq in E. rewrite IH by done. split; [by right |].
      intros [[= -> ->] | Hin]; done.
Qed.

(** What an object literal holds under [k] after [more] has been written
    over [fields], when [more] does not name [k] or names it once. *)
Lemma lookup_set_fields_other (k : string) (more fields : list (string * json)) :
  k ∉ map fst more ->
  JS.lookup_field k (UserStorage.set_fields fields more) = JS.lookup_field k fields.
Proof.
  unfold UserStorage.set_fields. revert fields.
  induction more as [| [k' v'] rest IH]; simpl; intros fields Hk; [done |].
  apply not_elem_of_cons in Hk as [Hne Hk].
  rewrite IH by done. by apply lookup_set_field_ne.
Qed.

Lemma lookup_set_fields_named (k : string) (v : json) (more fields : list (string * json)) :
  NoDup (map fst more) -> (k, v) ∈ more ->
  JS.lookup_field k (UserStorage.set_fields fields more) = Some v.
Proof.
  unfold UserStorage.set_fields. revert fields.
  induction more as [| [k' v'] rest IH]; simpl; intros fields Hnd Hin.
  - by apply elem_of_nil in Hin.
  - apply NoDup_cons in Hnd as [Hk' Hnd]. apply elem_of_cons in Hin as [[= <- <-] | Hin].
    + change (JS.lookup_field k (UserStorage.set_fields (JS.set_field k v fields) rest)
              = Some v).
      rewrite lookup_set_fields_other by done. apply lookup_set_field_eq.
    + by apply IH.
Qed.

Lemma lookup_spread_other (k : string) (fields : list (string * json)) (src : option json) :
  k ∉ map fst (from_option JS.own_props [] src) ->
  JS.lookup_field k (JS.spread fields src) = JS.lookup_field k fields.
Proof.
  destruct src as [v |]; simpl; [| done].
  intros Hk. by apply (lookup_set_fields_other k (JS.own_props v) fields).
Qed.

Lemma lookup_spread_named (k : string) (x : json) (fields : list (string * json))
    (v : json) :
  NoDup (map fst (JS.own_props v)) -> (k, x) ∈ JS.own_props v ->
  JS.lookup_field k (JS.spread fields (Some v)) = Some x.
Proof.
  intros Hnd Hin. by apply (lookup_set_fields_named k x (JS.own_props v) fields).
Qed.

Lemma spread_record (fields : list (string * json)) (k : string) :
  NoDup (map fst fields) ->
  JS.lookup_field k (JS.spread [] (Some (JObj fields))) = JS.lookup_field k fields.
Proof.
  intros Hnd. destruct (JS.lookup_field k fields) as [x |] eqn:E.
  - apply lookup_spread_named; [done |]. by apply lookup_field_Some.
  - rewrite lookup_spread_other; [done |]. by apply lookup_field_None.
Qed.

Lemma set_field_keys (k : string) (v : json) (fields : list (string * json)) :
  map fst (JS.set_field k v fields)
  = if bool_decide (k ∈ map fst fields) then map fst fields else map fst fields ++ [k].
Proof.
  induction fields as [| [k' v'] rest IH]; simpl; [done |].
  destruct (String.eqb k k') eqn:E.
  - apply String.eqb_eq in E. subst k'. simpl.
    rewrite bool_decide_eq_true_2; [done | by left].
  - apply String.eqb_neq in E. simpl. rewrite IH.
    destruct (bool_decide (k ∈ map fst rest)) eqn:Hin.
    + apply bool_decide_eq_true in Hin. rewrite bool_decide_eq_true_2; [done | by right].
    + apply bool_decide_eq_false in Hin. rewrite bool_decide_eq_false_2; [done |].
      intros H. apply elem_of_cons in H as [H | H]; done.
Qed.

Lemma set_field_NoDup (k : string) (v : json) (fields : list (string * json)) :
  NoDup (map fst fields) -> NoDup (map fst (JS.set_field k v fields)).
Proof.
  intros Hnd. rewrite set_field_keys. case_bool_decide; [done |].
  apply NoDup_app. split; [done |]. split; [| apply NoDup_singleton].
  intros x Hx Hk. apply list_elem_of_singleton in Hk. by subst x.
Qed.

Lemma set_fields_NoDup (fields more : list (string * json)) :
  NoDup (map fst fields) -> NoDup (map fst (UserStorage.set_fields fields more)).
Proof.
  unfold UserStorage.set_fields. revert fields.
  induction more as [| [k v] rest IH]; simpl; intros fields Hnd; [done |].
  apply IH. by apply set_field_NoDup.
Qed.

Lemma spread_NoDup (fields : list (string * json)) (src : option json) :
  NoDup (map fst fields) -> NoDup (map fst (JS.spread fields src)).
Proof.
  intros Hnd. destruct src as [v |]; simpl; [| done].
  by apply (set_fields_NoDup fields (JS.own_props v)).
Qed.

(** ** Searching the collection *)

Lemma findIndex_Some (p : json -> outcome bool) (items : list json) (i : nat) :
  findIndex p items = Return (Some i) <->
  (exists x, items !! i = Some x /\ p x = Return true)
  /\ (forall j y, (j < i)%nat -> items !! j = Some y -> p y = Return false).
Proof.
  split.
  - revert i. induction items as [| x rest IH]; intros i; simpl; [done |].
    destruct (p x) as [[|] | e |] eqn:Hp; simpl; try done.
    + intros [= <-]. split; [by exists x | intros j y Hj; lia].
    + destruct (findIndex p rest) as [[j |] | e |]; simpl; try done.
      intros [= <-]. destruct (IH j eq_refl) as [Hj Hbefore]. split; [done |].
      intros [| j'] y Hlt Hy; simpl in *; [by simplify_eq |].
      apply (Hbefore j' y); [lia | done].
  - revert i. induction items as [| x rest IH]; intros i [[y [Hy Hpy]] Hbefore].
    + done.
    + destruct i as [| i]; simpl in *.
      * simplify_eq. by rewrite Hpy.
      * rewrite (Hbefore O x) by (lia || done). simpl.
        rewrite (IH i); [done |]. split; [by exists y |].
        intros j' y' Hlt Hy'. apply (Hbefore (S j') y'); [lia | done].
Qed.

Lemma findIndex_None (p : json -> outcome bool) (items : list json) :
  findIndex p items = Return None <-> Forall (fun x => p x = Return false) items.
Proof.
  induction items as [| x rest IH]; simpl.
  - split; [by constructor | done].
  - destruct (p x) as [[|] | e |] eqn:Hp; simpl.
    + split; [done | intros H; apply Forall_cons in H as [H _]; congruence].
    + destruct (findIndex p rest) as [[j |] | e |]; simpl.
      * split; [done |]. intros H. apply Forall_cons in H as [_ H].
        apply IH in H. done.
      * split; [intros _; constructor; [done | by apply IH] | done].
      * split; [done |]. intros H. apply Forall_cons in H as [_ H].
        apply IH in H. done.
      * split; [done |]. intros H. apply Forall_cons in H as [_ H].
        apply IH in H. done.
    + split; [done | intros H; apply Forall_cons in H as [H _]; congruence].
    + split; [done | intros H; apply Forall_cons in H as [H _]; congruence].
Qed.

(** On records the search never throws. *)
Lemma has_id_record (id : option json) (user : json) :
  is_record user -> exists b, UserStorage.has_id id user = Return b.
Proof. intros [fields [-> _]]. unfold UserStorage.has_id. simpl. eauto. Qed.

Lemma findIndex_total (p : json -> outcome bool) (items : list json) :
  Forall (fun x => exists b, p x = Return b) items ->
  exists r, findIndex p items = Return r.
Proof.
  induction 1 as [| x rest [b Hb] Hrest [r IH]]; simpl; [eauto |].
  rewrite Hb. simpl. destruct b; [eauto |]. rewrite IH. simpl. eauto.
Qed.

(** ** Running the repository *)

Ltac proj :=
  unfold with_storage in *; cbn [localStorage nextId clock random drawn host] in *.

Lemma stored_insert_eq (ls : gmap string json) (n : Q) (t : Z) (rnd : nat -> Q)
    (d : nat) (pf : platform) (key : string) (v : json) :
  stored (World (<[Storage.prefix +:+ key := v]> ls) n t rnd d pf) key = Some v.
Proof. unfold stored. proj. apply lookup_insert_eq. Qed.

Lemma stored_insert_ne (ls : gmap string json) (n : Q) (t : Z) (rnd : nat -> Q)
    (d : nat) (pf : platform) (key key' : string) (v : json) :
  key <> key' ->
  stored (World (<[Storage.prefix +:+ key' := v]> ls) n t rnd d pf) key
  = ls !! (Storage.prefix +:+ key).
Proof.
  intros Hne. unfold stored. proj. apply lookup_insert_ne.
  intros Heq. apply prefix_inj in Heq. congruence.
Qed.

Lemma user_collection_Some (w : world) (items : list json) :
  user_collection w = Some items ->
  default (JArr []) (stored w STORAGE_KEYS.USER_DATA) = JArr items.
Proof.
  unfold user_collection. destruct (default _ _); intros H; by simplify_eq.
Qed.

Lemma audit_log_Some (w : world) (entries : list json) :
  audit_log w = Some entries ->
  default (JArr []) (stored w STORAGE_KEYS.LOGS_DATA) = JArr entries.
Proof.
  unfold audit_log. destruct (default _ _); intros H; by simplify_eq.
Qed.

Lemma logUserAction_run (action : string) (userId : option json) (data : json)
    (w : world) (entries : list json) :
  audit_log w = Some entries ->
  clonable data = true ->
  UserStorage.logUserAction action userId data w
  = (World (<[Storage.prefix +:+ STORAGE_KEYS.LOGS_DATA :=
               JArr (UserStorage.keep_last 1000
                       (entries ++ [UserStorage.logEntry (clock w) (random w (drawn w))
                                      (host w) action userId (cloned data)]))]>
              (localStorage w))
           (nextId w) (clock w) (random w) (S (drawn w)) (host w),
     Return tt).
Proof.
  intros Hlog Hdata. apply audit_log_Some in Hlog.
  unfold UserStorage.logUserAction. step. rewrite Hlog. proj.
  rewrite (deepClone_cloned data Hdata). step.
  cbn [as_array]. step. reflexivity.
Qed.

(** When the data cannot be cloned the entry is not written: only a
    random number has been drawn. *)
Lemma logUserAction_throws (action : string) (userId : option json) (data : json)
    (w : world) :
  clonable data = false ->
  UserStorage.logUserAction action userId data w
  = (World (localStorage w) (nextId w) (clock w) (random w) (S (drawn w)) (host w),
     Throw TypeError).
Proof.
  intros Hdata. unfold UserStorage.logUserAction. step. proj.
  rewrite (deepClone_throws data Hdata). by step.
Qed.

Lemma createUser_run (userData : option json) (w : world) (items entries : list json) :
  user_collection w = Some items ->
  audit_log w = Some entries ->
  let user := JObj (UserStorage.newUser (nextId w) userData (clock w)) in
  clonable user = true ->
  UserStorage.createUser userData w
  = (World (<[Storage.prefix +:+ STORAGE_KEYS.LOGS_DATA :=
               JArr (UserStorage.keep_last 1000
                       (entries ++ [UserStorage.logEntry (clock w) (random w (drawn w))
                                      (host w) "USER_CREATED" (JS.prop user "id")
                                      (cloned user)]))]>
              (<[Storage.prefix +:+ STORAGE_KEYS.USER_DATA := JArr (items ++ [user])]>
                 (localStorage w)))
           (Number.add (nextId w) 1) (clock w) (random w) (S (drawn w)) (host w),
     Return user).
Proof.
  intros Husers Hlog user Huser. apply user_collection_Some in Husers.
  unfold UserStorage.createUser, UserStorage.getUsers. step. rewrite Husers.
  unfold UserStorage.post_increment_nextId at 1. unfold bind at 1. step. proj.
  cbn [as_array]. step. proj.
  unfold bind at 1. erewrite logUserAction_run.
  - reflexivity.
  - unfold audit_log. rewrite stored_insert_ne by done.
    exact Hlog.
  - exact Huser.
Qed.

Lemma createUser_throws (userData : option json) (w : world) (items : list json) :
  user_collection w = Some items ->
  let user := JObj (UserStorage.newUser (nextId w) userData (clock w)) in
  clonable user = false ->
  UserStorage.createUser userData w
  = (World (<[Storage.prefix +:+ STORAGE_KEYS.USER_DATA := JArr (items ++ [user])]>
              (localStorage w))
           (Number.add (nextId w) 1) (clock w) (random w) (S (drawn w)) (host w),
     Throw TypeError).
Proof.
  intros Husers user Huser. apply user_collection_Some in Husers.
  unfold UserStorage.createUser, UserStorage.getUsers. step. rewrite Husers.
  unfold UserStorage.post_increment_nextId at 1. unfold bind at 1. step. proj.
  cbn [as_array]. step. proj.
  unfold bind at 1. by rewrite logUserAction_throws.
Qed.

Lemma updateUser_run (id updates : option json) (w : world)
    (items entries : list json) (i : nat) :
  user_collection w = Some items ->
  audit_log w = Some entries ->
  findIndex (UserStorage.has_id id) items = Return (Some i) ->
  let user := JObj (UserStorage.updatedUser (items !! i) updates (clock w)) in
  clonable user = true ->
  UserStorage.updateUser id updates w
  = (World (<[Storage.prefix +:+ STORAGE_KEYS.LOGS_DATA :=
               JArr (UserStorage.keep_last 1000
                       (entries ++ [UserStorage.logEntry (clock w) (random w (drawn w))
                                      (host w) "USER_UPDATED" id (cloned user)]))]>
              (<[Storage.prefix +:+ STORAGE_KEYS.USER_DATA := JArr (<[i := user]> items)]>
                 (localStorage w)))
           (nextId w) (clock w) (random w) (S (drawn w)) (host w),
     Return user).
Proof.
  intros Husers Hlog Hfind user Huser. apply user_collection_Some in Husers.
  unfold UserStorage.updateUser, UserStorage.getUsers. step. rewrite Husers.
  cbn [as_array]. step. rewrite Hfind. step. proj.
  unfold bind at 1. erewrite logUserAction_run.
  - reflexivity.
  - unfold audit_log. rewrite stored_insert_ne by done. exact Hlog.
  - exact Huser.
Qed.

Lemma updateUser_throws (id updates : option json) (w : world)
    (items : list json) (i : nat) :
  user_collection w = Some items ->
  findIndex (UserStorage.has_id id) items = Return (Some i) ->
  let user := JObj (UserStorage.updatedUser (items !! i) updates (clock w)) in
  clonable user = false ->
  UserStorage.updateUser id updates w
  = (World (<[Storage.prefix +:+ STORAGE_KEYS.USER_DATA := JArr (<[i := user]> items)]>
              (localStorage w))
           (nextId w) (clock w) (random w) (S (drawn w)) (host w),
     Throw TypeError).
Proof.
  intros Husers Hfind user Huser. apply user_collection_Some in Husers.
  unfold UserStorage.updateUser, UserStorage.getUsers. step. rewrite Husers.
  cbn [as_array]. step. rewrite Hfind. step. proj.
  unfold bind at 1. by rewrite logUserAction_throws.
Qed.

Lemma updateUser_missing (id updates : option json) (w : world) (items : list json) :
  user_collection w = Some items ->
  findIndex (UserStorage.has_id id) items = Return None ->
  UserStorage.updateUser id updates w = (w, Return JNull).
Proof.
  intros Husers Hfind. apply user_collection_Some in Husers.
  unfold UserStorage.updateUser, UserStorage.getUsers. step. rewrite Husers.
  cbn [as_array]. step. rewrite Hfind. by step.
Qed.

Lemma deleteUser_run (id : option json) (w : world)
    (items entries : list json) (i : nat) :
  user_collection w = Some items ->
  audit_log w = Some entries ->
  findIndex (UserStorage.has_id id) items = Return (Some i) ->
  clonable (default JNull (items !! i)) = true ->
  UserStorage.deleteUser id w
  = (World (<[Storage.prefix +:+ STORAGE_KEYS.LOGS_DATA :=
               JArr (UserStorage.keep_last 1000
                       (entries ++ [UserStorage.logEntry (clock w) (random w (drawn w))
                                      (host w) "USER_DELETED" id
                                      (cloned (default JNull (items !! i)))]))]>
              (<[Storage.prefix +:+ STORAGE_KEYS.USER_DATA := JArr (delete i items)]>
                 (localStorage w)))
           (nextId w) (clock w) (random w) (S (drawn w)) (host w),
     Return true).
Proof.
  intros Husers Hlog Hfind Huser. apply user_collection_Some in Husers.
  unfold UserStorage.deleteUser, UserStorage.getUsers. step. rewrite Husers.
  cbn [as_array]. step. rewrite Hfind. step. proj.
  unfold bind at 1. erewrite logUserAction_run.
  - reflexivity.
  - unfold audit_log. rewrite stored_insert_ne by done. exact Hlog.
  - exact Huser.
Qed.

Lemma deleteUser_throws (id : option json) (w : world) (items : list json) (i : nat) :
  user_collection w = Some items ->
  findIndex (UserStorage.has_id id) items = Return (Some i) ->
  clonable (default JNull (items !! i)) = false ->
  UserStorage.deleteUser id w
  = (World (<[Storage.prefix +:+ STORAGE_KEYS.USER_DATA := JArr (delete i items)]>
              (localStorage w))
           (nextId w) (clock w) (random w) (S (drawn w)) (host w),
     Throw TypeError).
Proof.
  intros Husers Hfind Huser. apply user_collection_Some in Husers.
  unfold UserStorage.deleteUser, UserStorage.getUsers. step. rewrite Husers.
  cbn [as_array]. step. rewrite Hfind. step. proj.
  unfold bind at 1. by rewrite logUserAction_throws.
Qed.

Lemma deleteUser_missing (id : option json) (w : world) (items : list json) :
  user_collection w = Some items ->
  findIndex (UserStorage.has_id id) items = Return None ->
  UserStorage.deleteUser id w = (w, Return false).
Proof.
  intros Husers Hfind. apply user_collection_Some in Husers.
  unfold UserStorage.deleteUser, UserStorage.getUsers. step. rewrite Husers.
  cbn [as_array]. step. rewrite Hfind. by step.
Qed.

Lemma user_collection_written (ls : gmap string json) (n : Q) (t : Z) (rnd : nat -> Q)
    (d : nat) (pf : platform) (items : list json) :
  user_collection
    (World (<[Storage.prefix +:+ STORAGE_KEYS.USER_DATA := JArr items]> ls) n t rnd d pf)
  = Some items.
Proof. unfold user_collection. by rewrite stored_insert_eq. Qed.

Lemma user_collection_after (ls : gmap string json) (n : Q) (t : Z) (rnd : nat -> Q)
    (d : nat) (pf : platform) (items : list json) (log : json) :
  user_collection
    (World (<[Storage.prefix +:+ STORAGE_KEYS.LOGS_DATA := log]>
              (<[Storage.prefix +:+ STORAGE_KEYS.USER_DATA := JArr items]> ls))
           n t rnd d pf)
  = Some items.
Proof.
  unfold user_collection. rewrite stored_insert_ne by done.
  by rewrite lookup_insert_eq.
Qed.

Lemma audit_log_after (ls : gmap string json) (n : Q) (t : Z) (rnd : nat -> Q)
    (d : nat) (pf : platform) (entries : list json) :
  audit_log
    (World (<[Storage.prefix +:+ STORAGE_KEYS.LOGS_DATA := JArr entries]> ls) n t rnd d pf)
  = Some entries.
Proof. unfold audit_log. by rewrite stored_insert_eq. Qed.

(** ** The record [createUser] builds *)

Ltac lookup_literal :=
  unfold UserStorage.newUser, UserStorage.updatedUser, UserStorage.set_fields;
  cbn [fold_left fst snd];
  repeat (rewrite lookup_set_field_ne by done);
  try rewrite lookup_set_field_eq.

(** The [id] that the caller's data carries, if any. *)
Lemma prop_own_props (v : json) (k : string) :
  k <> "length" -> JS.prop v k = JS.lookup_field k (JS.own_props v).
Proof.
  intros Hne. apply String.eqb_neq in Hne.
  destruct v; simpl; try done; by rewrite Hne.
Qed.

Lemma newUser_id (next : Q) (userData : option json) (now : Z) :
  NoDup (map fst (from_option JS.own_props [] userData)) ->
  JS.lookup_field "id" (UserStorage.newUser next userData now)
  = Some (default (JNum next) (userData ≫= fun data => JS.prop data "id")).
Proof.
  intros Hnd. lookup_literal.
  destruct userData as [data |]; cbn [mbind option_bind from_option] in *.
  - rewrite prop_own_props by done.
    destruct (JS.lookup_field "id" (JS.own_props data)) as [x |] eqn:E;
      cbn [default from_option id].
    + apply lookup_spread_named; [done |]. by apply lookup_field_Some.
    + rewrite lookup_spread_other; [done |]. by apply lookup_field_None.
  - done.
Qed.

(** C10.  Whatever the caller's data holds, the record that [createUser]
    builds and appends to the collection has [registeredDate] set to the
    date of the call, [lastLogin] set to null and [createdAt] and
    [updatedAt] set to the instant of the call; its [id] is the one the
    caller's data supplies when it supplies one, and the next sequential
    id otherwise.  The call returns this record, unless the record cannot
    be cloned for the audit log: then the record is stored all the same
    and the call throws a [TypeError]. *)
Theorem createUser_stamps_and_id
    (w : world) (userData : option json) (items entries : list json) :
  user_collection w = Some items ->
  audit_log w = Some entries ->
  NoDup (map fst (from_option JS.own_props [] userData)) ->
  exists (user : json) (w' : world),
    state_of (UserStorage.createUser userData w) = w'
    /\ value_of (UserStorage.createUser userData w)
       = (if clonable user then Return user else Throw TypeError)
    /\ (clonable_opt userData = true ->
        UserStorage.createUser userData w = (w', Return user))
    /\ user_collection w' = Some (items ++ [user])
    /\ JS.prop user "registeredDate"
       = Some (JStr (Date.before_T (Date.toISOString (clock w))))
    /\ JS.prop user "lastLogin" = Some JNull
    /\ JS.prop user "createdAt" = Some (JStr (Date.toISOString (clock w)))
    /\ JS.prop user "updatedAt" = Some (JStr (Date.toISOString (clock w)))
    /\ JS.prop user "id"
       = Some (default (JNum (nextId w)) (userData ≫= fun data => JS.prop data "id")).
Proof.
  intros Husers Hlog Hnd.
  set (user := JObj (UserStorage.newUser (nextId w) userData (clock w))).
  exists user, (state_of (UserStorage.createUser userData w)).
  split; [reflexivity |].
  assert (Hfields : JS.prop user "registeredDate"
                    = Some (JStr (Date.before_T (Date.toISOString (clock w))))
                    /\ JS.prop user "lastLogin" = Some JNull
                    /\ JS.prop user "createdAt" = Some (JStr (Date.toISOString (clock w)))
                    /\ JS.prop user "updatedAt" = Some (JStr (Date.toISOString (clock w)))
                    /\ JS.prop user "id"
                       = Some (default (JNum (nextId w))
                                 (userData ≫= fun data => JS.prop data "id"))).
  { unfold user. cbn [JS.prop]. repeat split; try (by lookup_literal). by apply newUser_id. }
  destruct (clonable user) eqn:Huser.
  - rewrite (createUser_run userData w items entries Husers Hlog Huser).
    split; [reflexivity |]. split; [done |].
    split; [apply user_collection_after | exact Hfields].
  - rewrite (createUser_throws userData w items Husers Huser).
    split; [reflexivity |]. split.
    + intros Hdata. pose proof (clonable_newUser (nextId w) userData (clock w) Hdata).
      unfold user in Huser. congruence.
    + split; [apply user_collection_written | exact Hfields].
Qed.

Example createUser_stamps_and_id_witness :
  let userData :=
    Some (JObj [("id", JInt 99); ("name", JStr "Eva"); ("email", JStr "eva@demo.com");
                ("createdAt", JStr "1999-01-01T00:00:00.000Z");
                ("lastLogin", JStr "1999-01-01T00:00:00.000Z")]) in
  exists (user : json) (w' : world),
    UserStorage.createUser userData (loaded_page noon_2024_03_15) = (w', Return user)
    /\ JS.prop user "lastLogin" = Some JNull
    /\ JS.prop user "createdAt" = Some (JStr "2024-03-15T12:00:00.000Z")
    /\ JS.prop user "id" = Some (JInt 99).
Proof.
  intros userData.
  destruct (createUser_stamps_and_id (loaded_page noon_2024_03_15) userData
              (default [] (user_collection (loaded_page noon_2024_03_15))) [])
    as [user [w' [_ [_ [Hrun [_ [_ [Hlogin [Hcreated [_ Hid]]]]]]]]]].
  - vm_compute. reflexivity.
  - vm_compute. reflexivity.
  - apply (bool_decide_unpack _). vm_compute. reflexivity.
  - exists user, w'.
    repeat split; [exact (Hrun eq_refl) | exact Hlogin | exact Hcreated | exact Hid].
Defined.

(** A record that cannot be cloned: the data name [hasOwnProperty].  The
    call throws after the record was stored, and no audit entry is
    written. *)
Example createUser_with_a_shadowing_name :
  let userData := Some (JObj [("name", JStr "Eva"); ("hasOwnProperty", JInt 1)]) in
  let r := UserStorage.createUser userData (loaded_page noon_2024_03_15) in
  value_of r = Throw TypeError
  /\ length (default [] (user_collection (state_of r))) = 6%nat
  /\ audit_log (state_of r) = audit_log (loaded_page noon_2024_03_15).
Proof. cbv zeta. repeat split; vm_compute; reflexivity. Qed.

(** ** Partial updates *)

(** C3 (as amended).  When [updateUser(id, partialFields)] finds a record
    with that id, for partial fields that are not a text with characters
    outside ASCII, the record it stores in its place has [updatedAt] set to
    the instant of the call, which is not earlier than a previous
    [updatedAt] stamped at an instant up to the call; it takes from
    [partialFields] every other field that [partialFields] names, [id] and
    [createdAt] included, and keeps the previous value of every field
    that [partialFields] does not name, so [id] and [createdAt] are
    unchanged when they are not named.  The call returns this record,
    unless the record cannot be cloned for the audit log: then the record
    is stored all the same and the call throws a [TypeError].  When no
    record has that id, [updateUser] returns null, throws nothing and
    changes nothing. *)
Theorem updateUser_frame
    (w : world) (id updates : option json) (items entries : list json) :
  user_collection w = Some items ->
  audit_log w = Some entries ->
  (findIndex (UserStorage.has_id id) items = Return None ->
   UserStorage.updateUser id updates w = (w, Return JNull))
  /\ (forall (i : nat) (fields : list (string * json)),
        findIndex (UserStorage.has_id id) items = Return (Some i) ->
        items !! i = Some (JObj fields) ->
        NoDup (map fst fields) ->
        NoDup (map fst (from_option JS.own_props [] updates)) ->
        ascii_value updates ->
        exists (user : json) (w' : world),
          state_of (UserStorage.updateUser id updates w) = w'
          /\ value_of (UserStorage.updateUser id updates w)
             = (if clonable user then Return user else Throw TypeError)
          /\ (clonable (JObj fields) = true -> clonable_opt updates = true ->
              UserStorage.updateUser id updates w = (w', Return user))
          /\ user_collection w' = Some (<[i := user]> items)
          /\ JS.prop user "updatedAt" = Some (JStr (Date.toISOString (clock w)))
          /\ (forall previous : Z,
                JS.lookup_field "updatedAt" fields
                = Some (JStr (Date.toISOString previous)) ->
                four_digit_year previous -> four_digit_year (clock w) ->
                previous <= clock w ->
                exists stamped_before stamped_now : Z,
                  Date.of_value (host w) (JS.lookup_field "updatedAt" fields)
                  = Some stamped_before
                  /\ Date.of_value (host w) (JS.prop user "updatedAt") = Some stamped_now
                  /\ stamped_before <= stamped_now)
          /\ (forall k, k <> "updatedAt" ->
                k ∉ map fst (from_option JS.own_props [] updates) ->
                JS.prop user k = JS.lookup_field k fields)
          /\ (forall k v, k <> "updatedAt" ->
                (k, v) ∈ from_option JS.own_props [] updates ->
                JS.prop user k = Some v)).
Proof.
  intros Husers Hlog. split.
  - intros Hnone. by apply (updateUser_missing id updates w items).
  - intros i fields Hfind Hi Hfields Hupdates _.
    set (user := JObj (UserStorage.updatedUser (items !! i) updates (clock w))).
    exists user, (state_of (UserStorage.updateUser id updates w)).
    split; [reflexivity |].
    assert (Hrun : value_of (UserStorage.updateUser id updates w)
                   = (if clonable user then Return user else Throw TypeError)
                   /\ (clonable (JObj fields) = true -> clonable_opt updates = true ->
                       UserStorage.updateUser id updates w
                       = (state_of (UserStorage.updateUser id updates w), Return user))
                   /\ user_collection (state_of (UserStorage.updateUser id updates w))
                      = Some (<[i := user]> items)).
    { destruct (clonable user) eqn:Huser.
      - rewrite (updateUser_run id updates w items entries i Husers Hlog Hfind Huser).
        split; [reflexivity |]. split; [done | apply user_collection_after].
      - rewrite (updateUser_throws id updates w items i Husers Hfind Huser).
        split; [reflexivity |]. split; [| apply user_collection_written].
        intros Hrecord Hup. unfold user in Huser. rewrite Hi in Huser.
        by rewrite (clonable_updatedUser (Some (JObj fields)) updates) in Huser. }
    destruct Hrun as [Hvalue [Hreturns Hstored]].
    split; [exact Hvalue |]. split; [exact Hreturns |]. split; [exact Hstored |].
    unfold user. rewrite Hi. cbn [JS.prop].
    assert (Hstamp : JS.lookup_field "updatedAt"
                       (UserStorage.updatedUser (Some (JObj fields)) updates (clock w))
                     = Some (JStr (Date.toISOString (clock w)))) by (by lookup_literal).
    split; [exact Hstamp |]. split; [| split].
    + intros previous Hprevious [Hy1 Hc1] [Hy2 Hc2] Hle.
      exists previous, (clock w). rewrite Hprevious, Hstamp. unfold Date.of_value.
      by rewrite !parse_toISOString.
    + intros k Hk Hnot. lookup_literal.
      rewrite lookup_spread_other by done. by apply spread_record.
    + intros k v Hk Hin. lookup_literal.
      destruct updates as [u |]; cbn [from_option] in *.
      * by apply lookup_spread_named.
      * by apply elem_of_nil in Hin.
Qed.

Example updateUser_frame_witness :
  exists (user : json) (w' : world),
    UserStorage.updateUser (Some (JInt 6)) (Some deactivate) eva_a_minute_later
    = (w', Return user)
    /\ JS.prop user "id" = Some (JInt 6)
    /\ JS.prop user "createdAt" = Some (JStr "2024-03-15T12:00:00.000Z")
    /\ JS.prop user "status" = Some (JStr "inactive")
    /\ JS.prop user "updatedAt" = Some (JStr "2024-03-15T12:01:00.000Z")
    /\ exists stamped_before stamped_now : Z,
         Date.of_value (host eva_a_minute_later) (JS.prop eva_stored "updatedAt")
         = Some stamped_before
         /\ Date.of_value (host eva_a_minute_later) (JS.prop user "updatedAt")
            = Some stamped_now
         /\ stamped_before <= stamped_now.
Proof.
  destruct (proj2 (updateUser_frame eva_a_minute_later (Some (JInt 6)) (Some deactivate)
                     (sample_records ++ [eva_stored])
                     (default [] (audit_log eva_a_minute_later))
                     ltac:(vm_compute; reflexivity) ltac:(vm_compute; reflexivity))
                  5%nat (JS.own_props eva_stored)
                  ltac:(vm_compute; reflexivity) ltac:(vm_compute; reflexivity)
                  ltac:(apply (bool_decide_unpack _); vm_compute; reflexivity)
                  ltac:(apply (bool_decide_unpack _); vm_compute; reflexivity)
                  ltac:(exact I))
    as [user [w' [_ [_ [Hrun [_ [Hstamp [Hlater [Hkeep Htake]]]]]]]]].
  exists user, w'. split; [exact (Hrun eq_refl eq_refl) |].
  split; [exact (Hkeep "id" ltac:(discriminate)
                   ltac:(apply (bool_decide_unpack _); vm_compute; reflexivity)) |].
  split; [exact (Hkeep "createdAt" ltac:(discriminate)
                   ltac:(apply (bool_decide_unpack _); vm_compute; reflexivity)) |].
  split; [exact (Htake "status" (JStr "inactive") ltac:(discriminate)
                   (list_elem_of_here _ _)) |].
  split; [exact Hstamp |].
  apply (Hlater noon_2024_03_15).
  - reflexivity.
  - split; [vm_compute; split; discriminate | vm_compute; discriminate].
  - split; [vm_compute; split; discriminate | vm_compute; discriminate].
  - vm_compute. discriminate.
Defined.

(** C3 as stated fails twice.  Eva, created with id 6 at noon, is updated
    with fields that name [id] and [createdAt]: the returned record has
    the id and the creation stamp of the update, not those of the stored
    record.  And a stored record stamped in 2030 is updated in 2024: its
    new [updatedAt] is earlier than the previous one. *)
Example updateUser_overwrites_id_and_createdAt :
  (exists user : json,
     default [] (user_collection eva_a_minute_later) !! 5%nat = Some eva_stored
     /\ JS.prop eva_stored "id" = Some (JInt 6)
     /\ JS.prop eva_stored "createdAt" = Some (JStr "2024-03-15T12:00:00.000Z")
     /\ value_of (UserStorage.updateUser (Some (JInt 6)) (Some renumber)
                    eva_a_minute_later) = Return user
     /\ JS.prop user "id" = Some (JInt 99)
     /\ JS.prop user "createdAt" = Some (JStr "2000-01-01T00:00:00.000Z")
     /\ JS.prop user "id" <> JS.prop eva_stored "id"
     /\ JS.prop user "createdAt" <> JS.prop eva_stored "createdAt"
     /\ default [] (user_collection
                      (state_of (UserStorage.updateUser (Some (JInt 6)) (Some renumber)
                                   eva_a_minute_later)))
        !! 5%nat = Some user)
  /\ (exists user : json,
        user_collection (page_from_2030 noon_2024_03_15) = Some [stamped_in_2030]
        /\ value_of (UserStorage.updateUser (Some (JInt 1)) (Some deactivate)
                       (page_from_2030 noon_2024_03_15)) = Return user
        /\ Date.of_value demo_platform (JS.prop stamped_in_2030 "updatedAt")
           = Some 1893456000000
        /\ Date.of_value demo_platform (JS.prop user "updatedAt") = Some noon_2024_03_15
        /\ ~ 1893456000000 <= noon_2024_03_15).
Proof.
  split.
  - eexists. split; [vm_compute; reflexivity |].
    split; [vm_compute; reflexivity |]. split; [vm_compute; reflexivity |].
    split; [vm_compute; reflexivity |]. split; [vm_compute; reflexivity |].
    split; [vm_compute; reflexivity |].
    split; [vm_compute; discriminate |]. split; [vm_compute; discriminate |].
    vm_compute; reflexivity.
  - eexists. split; [vm_compute; reflexivity |].
    split; [vm_compute; reflexivity |]. split; [vm_compute; reflexivity |].
    split; [vm_compute; reflexivity |]. unfold noon_2024_03_15. lia.
Qed.

(** ** The audit log *)

Lemma keep_last_suffix {A} (n : nat) (l : list A) :
  take (length l - n) l ++ UserStorage.keep_last n l = l.
Proof.
  unfold UserStorage.keep_last. destruct (n <? length l)%nat eqn:E.
  - apply take_drop.
  - apply Nat.ltb_ge in E. replace (length l - n)%nat with O by lia. done.
Qed.

Lemma keep_last_length {A} (n : nat) (l : list A) :
  length (UserStorage.keep_last n l) = Nat.min n (length l).
Proof.
  unfold UserStorage.keep_last. destruct (n <? length l)%nat eqn:E.
  - apply Nat.ltb_lt in E. rewrite length_drop. lia.
  - apply Nat.ltb_ge in E. lia.
Qed.

Lemma keep_last_last {A} (n : nat) (l : list A) (x : A) :
  (1 <= n)%nat -> last (UserStorage.keep_last n (l ++ [x])) = Some x.
Proof.
  intros Hn. unfold UserStorage.keep_last.
  destruct (n <? length (l ++ [x]))%nat eqn:E.
  - apply Nat.ltb_lt in E. rewrite length_app in *. simpl in *.
    rewrite drop_app_le by lia. apply last_snoc.
  - apply last_snoc.
Qed.

Lemma logEntry_action (now : Z) (rnd : Q) (pf : platform) (action : string)
    (userId : option json) (data : json) :
  JS.prop (UserStorage.logEntry now rnd pf action userId data) "action"
  = Some (JStr action)
  /\ JS.prop (UserStorage.logEntry now rnd pf action userId data) "data" = Some data.
Proof. unfold UserStorage.logEntry. by destruct userId. Qed.

Lemma audit_log_kept (ls : gmap string json) (n n' : Q) (t : Z) (rnd : nat -> Q)
    (d d' : nat) (pf : platform) (v : json) :
  audit_log (World (<[Storage.prefix +:+ STORAGE_KEYS.USER_DATA := v]> ls) n' t rnd d' pf)
  = audit_log (World ls n t rnd d pf).
Proof. unfold audit_log. by rewrite stored_insert_ne. Qed.

(** C7.  A mutation either appends its audit entry and returns, or throws
    a [TypeError] between the write of the collection and the write of the
    log, which happens when the record it would log cannot be cloned.  A
    mutation that appends an entry, that is every [createUser] and every
    [updateUser] or [deleteUser] that finds its user, leaves as the audit
    log the last up to 1000 elements of the old log followed by the new
    entry: at most 1000 entries, the new entry last, the dropped ones the
    oldest, the kept ones unchanged and in their order.  A mutation that
    does not find its user changes nothing, and one that throws leaves
    the log as it was. *)
Theorem audit_log_bounded
    (w : world) (m : mutation) (items entries : list json) :
  user_collection w = Some items ->
  audit_log w = Some entries ->
  Forall is_record items ->
  exists w' : world,
    state_of (run_mutation m w) = w'
    /\ (Forall (fun u => clonable u = true) items -> clonable_opt (given m) = true ->
        run_mutation m w = (w', Return tt))
    /\ match value_of (run_mutation m w) with
       | Return _ =>
           if finds_user m items then
             exists (entry : json) (dropped kept : list json),
               audit_log w' = Some kept
               /\ entries ++ [entry] = dropped ++ kept
               /\ length kept = Nat.min 1000 (length entries + 1)
               /\ (length kept <= 1000)%nat
               /\ last kept = Some entry
               /\ JS.prop entry "action" = Some (JStr (action_tag m))
           else w' = w
       | Throw e => e = TypeError /\ audit_log w' = Some entries
       | Unmodelled => False
       end.
Proof.
  intros Husers Hlog Hrecords.
  assert (Hkept : forall entry ls n t rnd d pf,
    exists dropped kept : list json,
      audit_log (World (<[Storage.prefix +:+ STORAGE_KEYS.LOGS_DATA :=
                          JArr (UserStorage.keep_last 1000 (entries ++ [entry]))]> ls)
                       n t rnd d pf) = Some kept
      /\ entries ++ [entry] = dropped ++ kept
      /\ length kept = Nat.min 1000 (length entries + 1)
      /\ (length kept <= 1000)%nat
      /\ last kept = Some entry).
  { intros entry ls n t rnd d pf.
    exists (take (length (entries ++ [entry]) - 1000) (entries ++ [entry])),
           (UserStorage.keep_last 1000 (entries ++ [entry])).
    split; [apply audit_log_after |]. split; [by rewrite keep_last_suffix |].
    rewrite keep_last_length, length_app. cbn [length].
    split; [done |]. split; [apply Nat.le_min_l |]. apply keep_last_last. lia. }
  assert (Hfind : forall id, exists r,
            findIndex (UserStorage.has_id id) items = Return r).
  { intros id. apply findIndex_total.
    eapply Forall_impl; [exact Hrecords |]. intros u Hu. by apply has_id_record. }
  assert (Hsame : forall n' d' v,
            audit_log (World (<[Storage.prefix +:+ STORAGE_KEYS.USER_DATA := v]>
                                (localStorage w))
                             n' (clock w) (random w) d' (host w)) = Some entries).
  { intros n' d' v.
    rewrite (audit_log_kept (localStorage w) (nextId w) n' (clock w) (random w)
               (drawn w) d' (host w) v).
    by rewrite world_eta. }
  eexists. split; [reflexivity |].
  destruct m as [userData | id updates | id];
    cbn [run_mutation finds_user action_tag given].
  - set (user := JObj (UserStorage.newUser (nextId w) userData (clock w))).
    destruct (clonable user) eqn:Huser.
    + unfold bind. rewrite (createUser_run userData w items entries Husers Hlog Huser).
      cbn [state_of value_of fst snd]. split; [done |].
      destruct (Hkept (UserStorage.logEntry (clock w) (random w (drawn w)) (host w)
                         "USER_CREATED" (JS.prop user "id") (cloned user))
                      (<[Storage.prefix +:+ STORAGE_KEYS.USER_DATA :=
                          JArr (items ++ [user])]> (localStorage w))
                      (Number.add (nextId w) 1) (clock w) (random w) (S (drawn w))
                      (host w))
        as [dropped [kept [H1 [H2 [H3 [H4 H5]]]]]].
      eexists; exists dropped, kept. repeat split; try done; apply logEntry_action.
    + unfold bind. rewrite (createUser_throws userData w items Husers Huser).
      cbn [state_of value_of fst snd]. split; [| split; [done | apply Hsame]].
      intros _ Hdata. pose proof (clonable_newUser (nextId w) userData (clock w) Hdata).
      unfold user in Huser. congruence.
  - destruct (Hfind id) as [[i |] Hi]; rewrite Hi.
    + set (user := JObj (UserStorage.updatedUser (items !! i) updates (clock w))).
      destruct (clonable user) eqn:Huser.
      * unfold bind. rewrite (updateUser_run id updates w items entries i Husers Hlog Hi Huser).
        cbn [state_of value_of fst snd]. split; [done |].
        destruct (Hkept (UserStorage.logEntry (clock w) (random w (drawn w)) (host w)
                           "USER_UPDATED" id (cloned user))
                        (<[Storage.prefix +:+ STORAGE_KEYS.USER_DATA :=
                            JArr (<[i := user]> items)]> (localStorage w))
                        (nextId w) (clock w) (random w) (S (drawn w)) (host w))
          as [dropped [kept [H1 [H2 [H3 [H4 H5]]]]]].
        eexists; exists dropped, kept. repeat split; try done; apply logEntry_action.
      * unfold bind. rewrite (updateUser_throws id updates w items i Husers Hi Huser).
        cbn [state_of value_of fst snd]. split; [| split; [done | apply Hsame]].
        intros Hitems Hup.
        pose proof (clonable_updatedUser (items !! i) updates (clock w)
                      (clonable_lookup items i Hitems) Hup).
        unfold user in Huser. congruence.
    + unfold bind. rewrite (updateUser_missing id updates w items Husers Hi).
      cbn [state_of value_of fst snd]. by split.
  - destruct (Hfind id) as [[i |] Hi]; rewrite Hi.
    + destruct (clonable (default JNull (items !! i))) eqn:Huser.
      * unfold bind. rewrite (deleteUser_run id w items entries i Husers Hlog Hi Huser).
        cbn [state_of value_of fst snd]. split; [done |].
        destruct (Hkept (UserStorage.logEntry (clock w) (random w (drawn w)) (host w)
                           "USER_DELETED" id (cloned (default JNull (items !! i))))
                        (<[Storage.prefix +:+ STORAGE_KEYS.USER_DATA :=
                            JArr (delete i items)]> (localStorage w))
                        (nextId w) (clock w) (random w) (S (drawn w)) (host w))
          as [dropped [kept [H1 [H2 [H3 [H4 H5]]]]]].
        eexists; exists dropped, kept. repeat split; try done; apply logEntry_action.
      * unfold bind. rewrite (deleteUser_throws id w items i Husers Hi Huser).
        cbn [state_of value_of fst snd]. split; [| split; [done | apply Hsame]].
        intros Hitems _. pose proof (clonable_lookup items i Hitems) as Hu.
        destruct (items !! i) as [u |]; simpl in Huser, Hu; [congruence | discriminate Huser].
    + unfold bind. rewrite (deleteUser_missing id w items Husers Hi).
      cbn [state_of value_of fst snd]. by split.
Qed.

(** ** Sequential identifiers *)

Lemma bind_tick {B} (t : Z) (k : unit -> M B) (w : world) :
  bind (tick t) k w = k tt (at_time t w).
Proof. reflexivity. Qed.

Lemma id_of_Some (user : json) (q : Q) :
  id_of user = Some q -> get_prop user "id" = Return (Some (JNum q)).
Proof.
  unfold id_of. destruct user; simpl; try done;
    destruct (JS.lookup_field _ _) as [[] |]; intros H; by simplify_eq.
Qed.

Lemma mapM_ids (items : list json) :
  Forall (fun u => is_Some (id_of u)) items ->
  exists qs, mapM (fun u => get_prop u "id") items = Return (map (fun q => Some (JNum q)) qs)
             /\ map id_of items = map Some qs.
Proof.
  induction 1 as [| u rest [q Hq] Hrest [qs [IH1 IH2]]]; simpl.
  - by exists [].
  - exists (q :: qs). rewrite (id_of_Some u q Hq). simpl. rewrite IH1. simpl.
    by rewrite Hq, IH2.
Qed.

Lemma max_id_spec (qs : list Q) :
  qs <> [] ->
  exists m, UserStorage.max_id (map (fun q => Some (JNum q)) qs) = Some m
            /\ m ∈ qs /\ (forall x, x ∈ qs -> (x <= m)%Q).
Proof.
  induction qs as [| q rest IH]; [done |]. intros _.
  destruct rest as [| q' rest'].
  - exists q. simpl. split; [done |]. split; [by left |].
    intros x Hx. apply list_elem_of_singleton in Hx as ->. apply Qle_refl.
  - destruct IH as [m [Hm [Hin Hmax]]]; [done |].
    cbn [map UserStorage.max_id] in *. rewrite Hm.
    destruct (Qle_bool q m) eqn:E.
    + exists m. split; [done |]. split; [by right |].
      intros x Hx. apply elem_of_cons in Hx as [-> | Hx]; [| by apply Hmax].
      by apply Qle_bool_iff.
    + exists q. split; [done |]. split; [by left |].
      assert (Hlt : (m < q)%Q).
      { apply Qnot_le_lt. intros Hle. apply Qle_bool_iff in Hle. congruence. }
      intros x Hx. apply elem_of_cons in Hx as [-> | Hx]; [apply Qle_refl |].
      apply Qle_trans with m; [by apply Hmax | by apply Qlt_le_weak].
Qed.

Lemma safe_id_has_id (room : Z) (user : json) : safe_id room user -> is_Some (id_of user).
Proof. intros [n [Hn _]]. unfold id_of. rewrite Hn. by eexists. Qed.

(** The constructor sets the counter; over whole-number ids below 2^53 the
    counter is one more than the greatest of them. *)
Lemma constructor_run (w : world) (items : list json) (room : Z) :
  stored w STORAGE_KEYS.USER_DATA = Some (JArr items) ->
  Forall (safe_id room) items ->
  1 <= room ->
  exists n : Q,
    UserStorage.constructor w
    = (World (localStorage w) n (clock w) (random w) (drawn w) (host w), Return tt)
    /\ next_id_after items n.
Proof.
  intros Hstored Hsafe Hroom.
  assert (Hids : Forall (fun u => is_Some (id_of u)) items).
  { eapply Forall_impl; [exact Hsafe |]. intros u. apply safe_id_has_id. }
  unfold UserStorage.constructor, Storage.initializeStorage,
    UserStorage.getNextUserId, UserStorage.getUsers.
  step. rewrite Hstored. cbn [default from_option id JS.truthy negb]. step.
  rewrite Hstored. cbn [default from_option id].
  destruct items as [| u rest].
  - step. exists 1%Q. split; [done |]. left. split; [done | reflexivity].
  - destruct (mapM_ids (u :: rest) Hids) as [qs [Hmap Hqs]].
    rewrite Hmap. step.
    destruct (max_id_spec qs) as [m [Hm [Hin Hmax]]].
    { intros ->. discriminate Hqs. }
    rewrite Hm. step. exists (Number.add m 1). split; [done |]. right. exists m.
    rewrite Hqs. split; [| split].
    + apply list_elem_of_fmap. by exists m.
    + intros x Hx. apply list_elem_of_fmap in Hx as [y [[= ->] Hy]]. by apply Hmax.
    + assert (Hsome : Some m ∈ map id_of (u :: rest)).
      { rewrite Hqs. apply list_elem_of_fmap. by exists m. }
      apply list_elem_of_fmap in Hsome as [x [Hx Hin']].
      rewrite Forall_forall in Hsafe. destruct (Hsafe x Hin') as [n0 [Hprop Hbound]].
      unfold id_of in Hx. rewrite Hprop in Hx. injection Hx as ->.
      rewrite (add_one_whole n0) by (lia || reflexivity).
      rewrite inject_Z_plus. reflexivity.
Qed.

Lemma getNextUserId_run (w : world) (items : list json) :
  stored w STORAGE_KEYS.USER_DATA = Some (JArr items) ->
  Forall (fun u => is_Some (id_of u)) items ->
  exists n : Q, UserStorage.getNextUserId w = (w, Return n).
Proof.
  intros Hstored Hids. unfold UserStorage.getNextUserId, UserStorage.getUsers. step.
  rewrite Hstored. cbn [default from_option id].
  destruct items as [| u rest]; [by eexists |].
  destruct (mapM_ids (u :: rest) Hids) as [qs [Hmap Hqs]].
  rewrite Hmap. step.
  destruct (max_id_spec qs) as [m [Hm _]]; [intros ->; discriminate Hqs |].
  rewrite Hm. by eexists.
Qed.

Lemma newUser_sequential_id (n : Q) (userData : option json) (t : Z) :
  names_no_id userData ->
  id_of (JObj (UserStorage.newUser n userData t)) = Some n.
Proof.
  intros Hno. unfold id_of. cbn [JS.prop]. lookup_literal.
  by rewrite lookup_spread_other.
Qed.

Lemma next_id_after_push (items : list json) (user : json) (n : Q) (n0 : Z) :
  next_id_after items n -> id_of user = Some n ->
  (n == inject_Z n0)%Q -> Z.abs (n0 + 1) <= 2 ^ 53 ->
  next_id_after (items ++ [user]) (Number.add n 1).
Proof.
  intros Hnext Hid Hwhole Hbound. right. exists n. rewrite map_app. simpl. rewrite Hid.
  split; [| split].
  - apply elem_of_app. right. by left.
  - intros x Hx. apply elem_of_app in Hx as [Hx | Hx].
    + destruct Hnext as [[-> _] | [m [_ [Hmax Hn]]]].
      * by apply elem_of_nil in Hx.
      * specialize (Hmax x Hx). rewrite Hn. lra.
    + apply list_elem_of_singleton in Hx as [= ->]. apply Qle_refl.
  - rewrite (add_one_whole n0 n Hbound Hwhole), Hwhole, inject_Z_plus. reflexivity.
Qed.

(** Calls in a row, while the counter has room below 2^53: the ids
    returned are the counter and its successors. *)
Lemma createUser_calls_spec (calls : list (Z * option json)) :
  forall (w : world) (items entries : list json) (n0 : Z),
    user_collection w = Some items ->
    audit_log w = Some entries ->
    next_id_after items (nextId w) ->
    (nextId w == inject_Z n0)%Q ->
    Z.abs n0 + Z.of_nat (length calls) <= 2 ^ 53 ->
    Forall (fun call => names_no_id call.2 /\ clonable_opt call.2 = true) calls ->
    exists (w' : world) (trace : list (json * json)) (ids : list Q),
      createUser_calls calls w = (w', Return trace)
      /\ map (fun step => id_of step.2) trace = map Some ids
      /\ StronglySorted Qlt ids
      /\ Forall (fun q => exists k : Z,
                   0 <= k < Z.of_nat (length calls) /\ (q == inject_Z (n0 + k))%Q) ids
      /\ Forall (fun step => exists before q,
                   step.1 = JArr before /\ id_of step.2 = Some q
                   /\ next_id_after before q) trace.
Proof.
  induction calls as [| [t userData] rest IH];
    intros w items entries n0 Husers Hlog Hnext Hwhole Hroom Hcalls.
  - exists w, [], []. repeat split; constructor.
  - apply Forall_cons in Hcalls as [[Hno Hdata] Hcalls]. cbn [snd] in Hno, Hdata.
    cbn [length] in Hroom.
    assert (Hstep : Z.abs (n0 + 1) <= 2 ^ 53) by lia.
    assert (Hid := newUser_sequential_id (nextId w) userData t Hno).
    cbn [createUser_calls]. rewrite bind_tick.
    unfold UserStorage.getUsers at 1. step.
    replace (stored (at_time t w) STORAGE_KEYS.USER_DATA)
      with (stored w STORAGE_KEYS.USER_DATA) by reflexivity.
    rewrite (user_collection_Some w items Husers).
    unfold bind at 1.
    rewrite (createUser_run userData (at_time t w) items entries Husers Hlog)
      by (by apply clonable_newUser).
    cbn [at_time nextId clock localStorage random drawn host].
    set (user := JObj (UserStorage.newUser (nextId w) userData t)) in *.
    match goal with |- context [bind _ _ ?w1] => set (w1' := w1) end.
    destruct (IH w1' (items ++ [user])
                (UserStorage.keep_last 1000
                   (entries ++ [UserStorage.logEntry t (random w (drawn w)) (host w)
                                  "USER_CREATED" (JS.prop user "id") (cloned user)]))
                (n0 + 1))
      as [w' [trace [ids [Hrun [Hmap [Hsorted [Hcount Htrace]]]]]]].
    + apply user_collection_after.
    + apply audit_log_after.
    + by apply (next_id_after_push items user (nextId w) n0).
    + by apply add_one_whole.
    + lia.
    + done.
    + exists w', ((JArr items, user) :: trace), (nextId w :: ids).
      unfold bind at 1. rewrite Hrun. step. split; [done |].
      cbn [map snd fst]. rewrite Hid, Hmap. split; [done |]. split; [| split].
      * constructor; [done |]. eapply Forall_impl; [exact Hcount |].
        intros x [k [Hk Hx]]. cbn beta. rewrite Hx, Hwhole, <- Zlt_Qlt. lia.
      * constructor.
        -- exists 0. split; [cbn [length]; lia |]. by rewrite Z.add_0_r.
        -- eapply Forall_impl; [exact Hcount |].
           intros x [k [Hk Hx]]. cbn beta. exists (k + 1). split; [cbn [length]; lia |].
           rewrite Hx. by replace (n0 + 1 + k) with (n0 + (k + 1)) by lia.
      * constructor; [| done]. exists items, (nextId w). done.
Qed.

(** C1 (as amended).  On a repository constructed over a stored
    collection whose records carry whole-number ids, successive
    [createUser] calls whose data name no [id] and can be cloned return
    ids that increase strictly, each one more than the greatest id in the
    collection just before its call, or 1 when that collection is empty,
    as long as the greatest stored id leaves room for the calls below
    2^53, where the counter counts exactly: the ids returned then stay
    below 2^53. *)
Theorem createUser_ids_sequential
    (w : world) (calls : list (Z * option json)) (items entries : list json) :
  stored w STORAGE_KEYS.USER_DATA = Some (JArr items) ->
  Forall (safe_id (Z.of_nat (length calls))) items ->
  Z.of_nat (length calls) < 2 ^ 53 ->
  audit_log w = Some entries ->
  Forall (fun call => names_no_id call.2 /\ clonable_opt call.2 = true) calls ->
  exists (w' : world) (trace : list (json * json)) (ids : list Q),
    (UserStorage.constructor ;;; createUser_calls calls) w = (w', Return trace)
    /\ map (fun step => id_of step.2) trace = map Some ids
    /\ StronglySorted Qlt ids
    /\ Forall (fun q => exists n : Z, (q == inject_Z n)%Q /\ Z.abs n < 2 ^ 53) ids
    /\ Forall (fun step => exists before q,
                 step.1 = JArr before /\ id_of step.2 = Some q
                 /\ next_id_after before q) trace.
Proof.
  intros Hstored Hsafe Hroom Hlog Hcalls.
  destruct calls as [| call rest].
  - assert (Hids : Forall (fun u => is_Some (id_of u)) items).
    { eapply Forall_impl; [exact Hsafe |]. intros u. apply safe_id_has_id. }
    destruct (getNextUserId_run w items Hstored Hids) as [n Hnext].
    eexists; exists [], []. split; [| repeat split; constructor].
    unfold bind, UserStorage.constructor, Storage.initializeStorage. step.
    rewrite Hstored. cbn [default from_option id JS.truthy negb]. step.
    unfold bind at 1. rewrite Hnext. by step.
  - set (calls := call :: rest) in *.
    assert (Hlen : 1 <= Z.of_nat (length calls)) by (unfold calls; cbn [length]; lia).
    destruct (constructor_run w items _ Hstored Hsafe Hlen) as [n [Hctor Hnext]].
    assert (Hfirst : exists n0 : Z, (n == inject_Z n0)%Q
                                    /\ Z.abs n0 + Z.of_nat (length calls) <= 2 ^ 53
                                    /\ - 2 ^ 53 < n0).
    { destruct Hnext as [[-> Hn] | [m [Hin [_ Hn]]]].
      - exists 1. split; [exact Hn | lia].
      - apply list_elem_of_fmap in Hin as [u [Hm Hu]].
        rewrite Forall_forall in Hsafe. destruct (Hsafe u Hu) as [n0 [Hprop Hbound]].
        unfold id_of in Hm. rewrite Hprop in Hm. injection Hm as ->.
        exists (n0 + 1). split; [| lia].
        rewrite Hn, inject_Z_plus. reflexivity. }
    destruct Hfirst as [n0 [Hn0 [Hbound Hlow]]].
    destruct (createUser_calls_spec calls
                (World (localStorage w) n (clock w) (random w) (drawn w) (host w))
                items entries n0)
      as [w' [trace [ids [Hrun [Hmap [Hsorted [Hcount Htrace]]]]]]]; try done.
    + unfold user_collection, stored in *. proj. by rewrite Hstored.
    + exists w', trace, ids. split; [unfold bind; by rewrite Hctor |].
      split; [done |]. split; [done |]. split; [| done].
      eapply Forall_impl; [exact Hcount |]. intros q [k [Hk Hq]]. cbn beta.
      exists (n0 + k). split; [done | lia].
Qed.

Lemma sample_records_clonable : Forall (fun u => clonable u = true) sample_records.
Proof. repeat constructor. Qed.

Lemma sample_records_have_ids : Forall (fun u => is_Some (id_of u)) sample_records.
Proof. repeat constructor; eexists; reflexivity. Qed.

Lemma sample_records_are_records : Forall is_record sample_records.
Proof.
  repeat (constructor;
          [eexists; split; [reflexivity | apply (bool_decide_unpack _); vm_compute;
                                          reflexivity] |]).
  constructor.
Qed.

Lemma sample_records_have_safe_ids (room : Z) :
  0 <= room <= 1000 -> Forall (safe_id room) sample_records.
Proof.
  intros Hroom.
  assert (Hpow : 2 ^ 53 = 9007199254740992) by reflexivity.
  repeat constructor; eexists; (split; [reflexivity | rewrite Hpow; simpl Z.abs; lia]).
Qed.

Example createUser_ids_sequential_witness :
  exists (w' : world) (trace : list (json * json)) (ids : list Q),
    (UserStorage.constructor ;;;
     createUser_calls [(noon_2024_03_15, Some eva); (noon_2024_03_15 + 1000, Some leo)])
      (loaded_page noon_2024_03_15) = (w', Return trace)
    /\ map (fun step => id_of step.2) trace = map Some ids
    /\ StronglySorted Qlt ids
    /\ Forall (fun q => exists n : Z, (q == inject_Z n)%Q /\ Z.abs n < 2 ^ 53) ids
    /\ Forall (fun step => exists before q,
                 step.1 = JArr before /\ id_of step.2 = Some q
                 /\ next_id_after before q) trace.
Proof.
  apply (createUser_ids_sequential (loaded_page noon_2024_03_15) _ sample_records []).
  - vm_compute. reflexivity.
  - apply sample_records_have_safe_ids. cbn [length]. lia.
  - reflexivity.
  - vm_compute. reflexivity.
  - repeat constructor; try reflexivity; apply (bool_decide_unpack _); vm_compute;
      reflexivity.
Defined.

(** C1 as stated fails: on the freshly loaded page, whose greatest id is 5,
    a first call returns id 6 and a second call, whose data carries
    [id: 3], returns id 3, which is neither greater than 6 nor one more
    than the greatest id, 6, of the collection before that call. *)
Example createUser_id_taken_from_data :
  exists (trace : list (json * json)) (before : list json),
    value_of (createUser_calls
                [(noon_2024_03_15, Some eva); (noon_2024_03_15 + 1000, Some leo_with_id)]
                (loaded_page noon_2024_03_15)) = Return trace
    /\ map (fun step => id_of step.2) trace = [Some 6%Q; Some 3%Q]
    /\ ~ StronglySorted Qlt [6%Q; 3%Q]
    /\ (fst <$> last trace) = Some (JArr before)
    /\ map id_of before = map Some [1; 2; 3; 4; 5; 6]%Q
    /\ ~ next_id_after before 3.
Proof.
  eexists; eexists. split; [vm_compute; reflexivity |].
  split; [vm_compute; reflexivity |]. split; [| split; [| split]].
  - intros H. apply StronglySorted_inv in H as [_ H].
    apply Forall_inv in H. by vm_compute in H.
  - vm_compute. reflexivity.
  - vm_compute. reflexivity.
  - intros [[H _] | [m [_ [Hmax Hm]]]]; [discriminate H |].
    assert (H6 : (6 <= m)%Q).
    { apply Hmax. do 5 apply list_elem_of_further. apply list_elem_of_here. }
    lra.
Qed.

Example audit_log_bounded_witness :
  exists w' : world,
    state_of (run_mutation (CreateUser (Some eva)) (full_log_page noon_2024_03_15)) = w'
    /\ (Forall (fun u => clonable u = true) sample_records ->
        clonable_opt (given (CreateUser (Some eva))) = true ->
        run_mutation (CreateUser (Some eva)) (full_log_page noon_2024_03_15)
        = (w', Return tt))
    /\ match value_of (run_mutation (CreateUser (Some eva))
                         (full_log_page noon_2024_03_15)) with
       | Return _ =>
           if finds_user (CreateUser (Some eva)) sample_records then
             exists (entry : json) (dropped kept : list json),
               audit_log w' = Some kept
               /\ thousand_entries ++ [entry] = dropped ++ kept
               /\ length kept = Nat.min 1000 (length thousand_entries + 1)
               /\ (length kept <= 1000)%nat
               /\ last kept = Some entry
               /\ JS.prop entry "action"
                  = Some (JStr (action_tag (CreateUser (Some eva))))
           else w' = full_log_page noon_2024_03_15
       | Throw e => e = TypeError /\ audit_log w' = Some thousand_entries
       | Unmodelled => False
       end.
Proof.
  apply (audit_log_bounded (full_log_page noon_2024_03_15) (CreateUser (Some eva))
           sample_records thousand_entries).
  - vm_compute. reflexivity.
  - vm_compute. reflexivity.
  - exact sample_records_are_records.
Defined.

(** ** What a computation leaves alone *)

Create HintDb frame.

Lemma preserves_ret {A} (key : string) (a : A) : preserves key (ret a).
Proof. by intros w. Qed.

Lemma preserves_throw {A} (key : string) (e : exn) : preserves key (@throw A e).
Proof. by intros w. Qed.

Lemma preserves_unmodelled {A} (key : string) : preserves key (@unmodelled A).
Proof. by intros w. Qed.

Lemma preserves_lift {A} (key : string) (c : outcome A) : preserves key (lift c).
Proof. by intros w. Qed.

Lemma preserves_bind {A B} (key : string) (c : M A) (k : A -> M B) :
  preserves key c -> (forall a, preserves key (k a)) -> preserves key (bind c k).
Proof.
  intros Hc Hk w. specialize (Hc w). unfold bind. unfold state_of in Hc |- *.
  destruct (c w) as [w' [a | e |]]; cbn [fst] in *; try done.
  rewrite <- Hc. apply (Hk a w').
Qed.

Lemma preserves_get (key key' : string) (d : json) : preserves key (Storage.get key' d).
Proof. intros w. by rewrite get_run. Qed.

Lemma preserves_set (key key' : string) (v : json) :
  key <> key' -> preserves key (Storage.set key' v).
Proof.
  intros Hne w. unfold Storage.set, state_of. cbn [fst].
  by rewrite stored_insert_ne.
Qed.

Lemma preserves_now (key : string) : preserves key Date_now.
Proof. by intros w. Qed.

Lemma preserves_platform (key : string) : preserves key platform_of.
Proof. by intros w. Qed.

Lemma preserves_random (key : string) : preserves key Math_random.
Proof. by intros w. Qed.

Lemma preserves_post_increment (key : string) :
  preserves key UserStorage.post_increment_nextId.
Proof. by intros w. Qed.

#[local] Hint Resolve preserves_ret preserves_throw preserves_unmodelled preserves_lift
  preserves_get preserves_now preserves_platform preserves_random
  preserves_post_increment : frame.

Ltac frame :=
  repeat first
    [ apply preserves_bind; [| intros ?]
    | apply preserves_set; discriminate
    | solve [auto with frame]
    | match goal with
      | |- preserves _ (if ?b then _ else _) => destruct b
      | |- preserves _ (match ?x with _ => _ end) => destruct x
      end ].

Lemma logUserAction_preserves (key action : string) (userId : option json) (data : json) :
  key <> STORAGE_KEYS.LOGS_DATA ->
  preserves key (UserStorage.logUserAction action userId data).
Proof.
  intros Hne. unfold UserStorage.logUserAction.
  repeat (apply preserves_bind; [solve [auto with frame] | intros ?]).
  apply preserves_bind; [by apply preserves_set | auto with frame].
Qed.

Lemma createUser_preserves (key : string) (userData : option json) :
  key <> STORAGE_KEYS.USER_DATA -> key <> STORAGE_KEYS.LOGS_DATA ->
  preserves key (UserStorage.createUser userData).
Proof.
  intros Hu Hl. unfold UserStorage.createUser, UserStorage.getUsers.
  repeat (apply preserves_bind; [solve [auto with frame] | intros ?]).
  apply preserves_bind; [by apply preserves_set | intros ?].
  apply preserves_bind; [by apply logUserAction_preserves | auto with frame].
Qed.

Lemma getUserByEmail_preserves (key : string) (email : option json) :
  preserves key (UserStorage.getUserByEmail email).
Proof. unfold UserStorage.getUserByEmail, UserStorage.getUsers. frame. Qed.

(** [API.register] writes the user collection and the audit log only. *)
Lemma register_preserves (key : string) (userData : json) :
  key <> STORAGE_KEYS.USER_DATA -> key <> STORAGE_KEYS.LOGS_DATA ->
  preserves key (API.register userData).
Proof.
  intros Hu Hl. unfold API.register.
  apply preserves_bind; [auto with frame | intros email].
  apply preserves_bind; [apply getUserByEmail_preserves | intros existing].
  destruct (JS.truthy existing); [auto with frame |].
  apply preserves_bind; [by apply createUser_preserves | auto with frame].
Qed.

(** ** A session from sign-in to expiry *)

Lemma updateUser_preserves (key : string) (id updates : option json) :
  key <> STORAGE_KEYS.USER_DATA -> key <> STORAGE_KEYS.LOGS_DATA ->
  preserves key (UserStorage.updateUser id updates).
Proof.
  intros Hu Hl. unfold UserStorage.updateUser, UserStorage.getUsers.
  repeat (apply preserves_bind; [solve [auto with frame] | intros ?]).
  destruct a1 as [i |]; [| auto with frame].
  apply preserves_bind; [auto with frame | intros t].
  apply preserves_bind; [by apply preserves_set | intros ?].
  apply preserves_bind; [by apply logUserAction_preserves | auto with frame].
Qed.

Lemma initializeStorage_preserves (key : string) :
  key <> STORAGE_KEYS.USER_DATA -> key <> STORAGE_KEYS.SYSTEM_SETTINGS ->
  preserves key Storage.initializeStorage.
Proof.
  intros Hu Hs. unfold Storage.initializeStorage.
  apply preserves_bind; [auto with frame | intros users].
  destruct (negb (JS.truthy users)); [| auto with frame].
  apply preserves_bind; [by apply preserves_set | intros ?].
  apply preserves_bind; [by apply preserves_set | auto with frame].
Qed.

Lemma getNextUserId_preserves (key : string) : preserves key UserStorage.getNextUserId.
Proof. unfold UserStorage.getNextUserId, UserStorage.getUsers. frame. Qed.

Lemma constructor_temporary_preserves (key : string) :
  key <> STORAGE_KEYS.USER_DATA -> key <> STORAGE_KEYS.SYSTEM_SETTINGS ->
  preserves key UserStorage.constructor_temporary.
Proof.
  intros Hu Hs. unfold UserStorage.constructor_temporary.
  apply preserves_bind; [by apply initializeStorage_preserves | intros ?].
  apply preserves_bind; [apply getNextUserId_preserves | auto with frame].
Qed.

(** Whatever becomes of the update of [lastLogin], [setCurrentUser] leaves
    a session record whose [lastActivity] reads back as the instant of the
    call. *)
Lemma setCurrentUser_session (user : json) (w : world) (pf : platform) :
  four_digit_year (clock w) ->
  exists session : json,
    stored (state_of (SessionStorage.setCurrentUser user w)) STORAGE_KEYS.CURRENT_USER
    = Some session
    /\ JS.truthy session = true
    /\ Date.of_value pf (JS.prop session "lastActivity") = Some (clock w).
Proof.
  intros [Hyear Hclip].
  unfold SessionStorage.setCurrentUser, SessionStorage.generateSessionId.
  step. eexists. split; [| split].
  - match goal with
    | |- stored (state_of (?c ?w0)) _ = _ =>
        assert (Hframe : preserves STORAGE_KEYS.CURRENT_USER c)
    end.
    { apply preserves_bind; [by apply constructor_temporary_preserves | intros ?].
      apply preserves_bind; [auto with frame | intros ?].
      apply preserves_bind; [by apply updateUser_preserves | auto with frame]. }
    rewrite Hframe, stored_with_storage_insert_ne by discriminate.
    apply stored_with_storage_insert_eq.
  - reflexivity.
  - cbn [JS.prop JS.own_props JS.lookup_field String.eqb Ascii.eqb Bool.eqb].
    cbn [Date.of_value]. by apply parse_toISOString.
Qed.

(** X13.  A session opened by [setCurrentUser] at one instant and examined at a
    later one is expired exactly when the minutes elapsed between the two
    exceed [timeoutMinutes]: for a timeout of a whole number of minutes,
    when more than that many minutes' milliseconds lie between the
    two. *)
Lemma session_expires_after_timeout (user : json) (w : world) (later : Z)
    (timeoutMinutes : Q) :
  four_digit_year (clock w) ->
  value_of (SessionStorage.isSessionExpired timeoutMinutes
              (at_time later (state_of (SessionStorage.setCurrentUser user w))))
  = Return (SessionStorage.Qgt_bool (minutes_elapsed (clock w) later) timeoutMinutes)
  /\ (forall timeout : Z,
        (timeoutMinutes == inject_Z timeout)%Q ->
        Z.abs timeout <= 2 ^ 31 ->
        value_of (SessionStorage.isSessionExpired timeoutMinutes
                    (at_time later (state_of (SessionStorage.setCurrentUser user w))))
        = Return (60000 * timeout <? later - clock w)).
Proof.
  intros Hclock.
  destruct (setCurrentUser_session user w
              (host (state_of (SessionStorage.setCurrentUser user w))) Hclock)
    as [session [Hstored [Htruthy Hdate]]].
  rewrite (isSessionExpired_run _ timeoutMinutes session (clock w)) by done.
  split; [done |]. intros timeout Hwhole Hbound.
  unfold value_of. cbn [snd at_time clock].
  by rewrite (whole_timeout_exceeded _ _ timeout _ Hwhole Hbound).
Qed.

(** ** Registration *)

Lemma getUserByEmail_run (email : option json) (w : world) (items : list json) :
  user_collection w = Some items ->
  UserStorage.getUserByEmail email w
  = (w, match findIndex (UserStorage.has_email email) items with
        | Return (Some i) =>
            Return (if JS.truthy (default JNull (items !! i))
                    then default JNull (items !! i) else JNull)
        | Return None => Return JNull
        | Throw e => Throw e
        | Unmodelled => Unmodelled
        end).
Proof.
  intros Husers. apply user_collection_Some in Husers.
  unfold UserStorage.getUserByEmail, UserStorage.getUsers. step. rewrite Husers.
  cbn [as_array]. step.
  destruct (findIndex _ items) as [[i |] | e |]; by step.
Qed.

Lemma has_email_true (email : option json) (user : json) :
  UserStorage.has_email email user = Return true -> JS.truthy user = true.
Proof.
  unfold UserStorage.has_email.
  destruct user as [| b | q | s | items | fields]; try done.
  by destruct s.
Qed.

(** The first half of C2: a request whose address some stored user has, in
    any letter case, fails with the 409 error and changes nothing. *)
Lemma register_duplicate_email
    (w : world) (userData : json) (email : option json) (items : list json) (i : nat) :
  get_prop userData "email" = Return email ->
  user_collection w = Some items ->
  findIndex (UserStorage.has_email email) items = Return (Some i) ->
  API.register userData w = (w, Throw (APIError MESSAGES.USER_EXISTS 409)).
Proof.
  intros Hemail Husers Hfind. unfold API.register, API.destructure.
  rewrite Hemail. step. unfold bind at 1.
  rewrite (getUserByEmail_run email w items Husers), Hfind.
  apply findIndex_Some in Hfind as [[x [Hx Hpx]] _].
  rewrite Hx. cbn [default from_option id].
  rewrite (has_email_true email x Hpx). by rewrite (has_email_true email x Hpx).
Qed.

(** The second half, as far as the code goes: otherwise the user is
    created with status active, and nothing else is done. *)
Lemma register_new_email
    (w : world) (userData : json) (email : option json) (items entries : list json) :
  get_prop userData "email" = Return email ->
  clonable userData = true ->
  user_collection w = Some items ->
  audit_log w = Some entries ->
  findIndex (UserStorage.has_email email) items = Return None ->
  exists (user : json) (w' : world),
    API.register userData w
    = (w', Return (API.success (Some MESSAGES.USER_CREATED) (Some (JObj [("user", user)]))))
    /\ user_collection w' = Some (items ++ [user])
    /\ JS.prop user "status" = Some (JStr "active")
    /\ stored w' STORAGE_KEYS.CURRENT_USER = stored w STORAGE_KEYS.CURRENT_USER
    /\ stored w' STORAGE_KEYS.SESSION_DATA = stored w STORAGE_KEYS.SESSION_DATA.
Proof.
  intros Hemail Hdata Husers Hlog Hfind.
  assert (Hgiven : clonable_opt
                     (Some (JObj (UserStorage.set_fields (JS.spread [] (Some userData))
                                    [("status", JStr "active")]))) = true).
  { apply (clonable_set_fields _ [("status", JStr "active")]); [by repeat constructor |].
    by apply clonable_spread. }
  assert (Hrun : exists user w',
    API.register userData w
    = (w', Return (API.success (Some MESSAGES.USER_CREATED)
                     (Some (JObj [("user", user)]))))
    /\ user_collection w' = Some (items ++ [user])
    /\ JS.prop user "status" = Some (JStr "active")).
  { unfold API.register, API.destructure.
    rewrite Hemail. step. unfold bind at 1.
    rewrite (getUserByEmail_run email w items Husers), Hfind.
    cbn [JS.truthy]. unfold bind at 1.
    rewrite (createUser_run _ w items entries Husers Hlog)
      by (by apply clonable_newUser).
    step.
    eexists; eexists. split; [reflexivity |].
    split; [apply user_collection_after |].
    cbn [JS.prop]. lookup_literal. apply lookup_spread_named.
    - apply (set_fields_NoDup _ [("status", JStr "active")]).
      apply spread_NoDup. constructor.
    - apply lookup_field_Some.
      + apply (set_fields_NoDup _ [("status", JStr "active")]).
        apply spread_NoDup. constructor.
      + cbn [JS.own_props]. by lookup_literal. }
  destruct Hrun as [user [w' [Hrun [Hcoll Hstatus]]]].
  exists user, w'. repeat split; try done.
  - change w' with (state_of (w', Return (API.success (Some MESSAGES.USER_CREATED)
                                            (Some (JObj [("user", user)]))))).
    rewrite <- Hrun. by apply register_preserves.
  - change w' with (state_of (w', Return (API.success (Some MESSAGES.USER_CREATED)
                                            (Some (JObj [("user", user)]))))).
    rewrite <- Hrun. by apply register_preserves.
Qed.

Example register_creates_no_session :
  let r := API.register eva_registration (loaded_page noon_2024_03_15) in
  (exists user,
     value_of r = Return (API.success (Some MESSAGES.USER_CREATED)
                            (Some (JObj [("user", user)])))
     /\ user_collection (state_of r) = Some (sample_records ++ [user]))
  /\ stored (state_of r) STORAGE_KEYS.CURRENT_USER = None
  /\ stored (state_of r) STORAGE_KEYS.SESSION_DATA = None
  /\ value_of (SessionStorage.isLoggedIn (state_of r)) = Return (Some JNull)
  /\ value_of (SessionStorage.getCurrentUser (state_of r)) = Return (Some JNull)
  /\ value_of (API.handleUsersRequest "GET" "/api/users" JNull (state_of r))
     = Throw (APIError "Unauthorized" 401)
  /\ value_of (SessionStorage.isLoggedIn
                 (state_of (API.login demo_credentials (loaded_page noon_2024_03_15))))
     = Return (Some (JBool true)).
Proof.
  cbv zeta. split; [eexists; split; vm_compute; reflexivity |].
  split; [vm_compute; reflexivity |]. split; [vm_compute; reflexivity |].
  split; [vm_compute; reflexivity |]. split; [vm_compute; reflexivity |].
  split; vm_compute; reflexivity.
Qed.

Example register_duplicate_email_example :
  API.register juan_again (loaded_page noon_2024_03_15)
  = (loaded_page noon_2024_03_15, Throw (APIError MESSAGES.USER_EXISTS 409)).
Proof.
  apply (register_duplicate_email _ _ (Some (JStr "JUAN@Demo.com")) sample_records 0%nat);
    vm_compute; reflexivity.
Qed.

(** ** CSV export *)

Lemma collect_lookup (keys : list string) (k : string) :
  forall (data : list (string * json)) (w : world),
  exists data',
    BackupStorage.collect keys data w = (w, Return data')
    /\ JS.lookup_field k data'
       = if bool_decide (k ∈ keys)
         then match snapshot w k with
              | Some v => Some v
              | None => JS.lookup_field k data
              end
         else JS.lookup_field k data.
Proof.
  induction keys as [| key rest IH]; intros data w; cbn [BackupStorage.collect].
  - exists data. split; [done |]. rewrite bool_decide_eq_false_2; [done |].
    apply not_elem_of_nil.
  - step.
    set (data1 := match snapshot w key with
                  | Some v => JS.set_field key v data
                  | None => data
                  end).
    assert (Hnext : (match default JNull (stored w key) with
                     | JNull => BackupStorage.collect rest data
                     | _ => BackupStorage.collect rest
                              (JS.set_field key (default JNull (stored w key)) data)
                     end) w = BackupStorage.collect rest data1 w).
    { unfold data1, snapshot. by destruct (stored w key) as [[] |]. }
    rewrite Hnext. destruct (IH data1 w) as [data' [Hrun Hlookup]].
    exists data'. split; [done |]. rewrite Hlookup.
    assert (Hdata1 : JS.lookup_field k data1
                     = if bool_decide (k = key)
                       then match snapshot w k with
                            | Some v => Some v
                            | None => JS.lookup_field k data
                            end
                       else JS.lookup_field k data).
    { unfold data1. destruct (decide (k = key)) as [-> | Hk].
      - rewrite bool_decide_eq_true_2 by done.
        destruct (snapshot w key); [apply lookup_set_field_eq | done].
      - rewrite bool_decide_eq_false_2 by done.
        destruct (snapshot w key); [by apply lookup_set_field_ne | done]. }
    rewrite Hdata1. destruct (decide (k = key)) as [-> | Hne].
    + rewrite (bool_decide_eq_true_2 (key = key)) by done.
      rewrite (bool_decide_eq_true_2 (key ∈ key :: rest)) by (by left).
      case_bool_decide; by destruct (snapshot w key).
    + rewrite (bool_decide_eq_false_2 (k = key)) by done.
      destruct (decide (k ∈ rest)) as [Hin | Hnot].
      * rewrite (bool_decide_eq_true_2 (k ∈ rest)) by done.
        rewrite (bool_decide_eq_true_2 (k ∈ key :: rest)); [done | by right].
      * rewrite (bool_decide_eq_false_2 (k ∈ rest)) by done.
        rewrite (bool_decide_eq_false_2 (k ∈ key :: rest)); [done |].
        intros H. apply elem_of_cons in H as [H | H]; done.
Qed.

(** The CSV export converts what the backup holds as the user collection,
    or the empty array. *)
Lemma exportData_csv_run (w : world) :
  value_of (BackupStorage.exportData "csv" w)
  = BackupStorage.convertToCSV (host w)
      (match snapshot w STORAGE_KEYS.USER_DATA with
       | Some users => if JS.truthy users then users else JArr []
       | None => JArr []
       end).
Proof.
  destruct (collect_lookup STORAGE_KEYS.values STORAGE_KEYS.USER_DATA [] w)
    as [data [Hrun Hlookup]].
  rewrite bool_decide_eq_true_2 in Hlookup
    by (apply list_elem_of_further, list_elem_of_here).
  unfold BackupStorage.exportData, BackupStorage.createBackup. step.
  unfold bind at 1. rewrite Hrun. step.
  cbn [String.eqb Ascii.eqb Bool.eqb andb]. step. proj.
  cbn [JS.prop JS.lookup_field String.eqb Ascii.eqb Bool.eqb default from_option id].
  rewrite Hlookup. unfold value_of, lift. cbn [snd].
  by destruct (snapshot w STORAGE_KEYS.USER_DATA) as [users |].
Qed.

Lemma csv_row_run (pf : platform) (headers : list string) (user : json) :
  user <> JNull ->
  BackupStorage.csv_row pf headers user = Return (csv_line pf headers user).
Proof.
  intros Hnull. unfold BackupStorage.csv_row, csv_line.
  assert (Hcells : mapM (fun header =>
                           value <~ get_prop user header ;;
                           Return (BackupStorage.quote_cell pf value)) headers
                   = Return (map (fun header =>
                                    BackupStorage.quote_cell pf (JS.prop user header))
                               headers)).
  { induction headers as [| h rest IH]; simpl; [done |].
    rewrite IH. by destruct user. }
  by rewrite Hcells.
Qed.

Lemma csv_rows_run (pf : platform) (headers : list string) (users : list json) :
  Forall (fun u => u <> JNull) users ->
  mapM (BackupStorage.csv_row pf headers) users
  = Return (map (csv_line pf headers) users).
Proof.
  induction 1 as [| u rest Hu Hrest IH]; simpl; [done |].
  by rewrite csv_row_run, IH.
Qed.

Lemma has_newline_app (a b : string) :
  has_newline (a +:+ b) = has_newline a || has_newline b.
Proof. induction a as [| c a IH]; simpl; [done |]. by rewrite IH, orb_assoc. Qed.

Lemma has_newline_double_quotes (s : string) :
  has_newline (JS.double_quotes s) = has_newline s.
Proof.
  induction s as [| c s IH]; simpl; [done |].
  destruct (Ascii.eqb c JS.dquote) eqn:E; simpl; rewrite IH; [| done].
  apply Ascii.eqb_eq in E. by subst c.
Qed.

Lemma has_newline_join (sep : string) (parts : list string) :
  has_newline sep = false ->
  Forall (fun p => has_newline p = false) parts ->
  has_newline (JS.join sep parts) = false.
Proof.
  intros Hsep. induction 1 as [| p rest Hp Hrest IH]; simpl; [done |].
  destruct rest as [| q rest']; [done |].
  by rewrite !has_newline_app, Hp, Hsep, IH.
Qed.

Lemma lines_one (s : string) : has_newline s = false -> lines s = [s].
Proof.
  induction s as [| c s IH]; simpl; [done |].
  destruct (Ascii.eqb c JS.newline); simpl; [done |].
  intros H. by rewrite IH.
Qed.

Lemma lines_cons (a rest : string) :
  has_newline a = false ->
  lines (a +:+ String JS.newline rest) = a :: lines rest.
Proof.
  induction a as [| c a IH]; simpl; [done |].
  destruct (Ascii.eqb c JS.newline); simpl; [done |].
  intros H. by rewrite IH.
Qed.

Lemma lines_join (parts : list string) :
  parts <> [] ->
  Forall (fun p => has_newline p = false) parts ->
  lines (JS.join (String JS.newline "") parts) = parts.
Proof.
  intros Hne Hall. induction Hall as [| p rest Hp Hrest IH]; [done |].
  destruct rest as [| q rest'].
  - simpl. by apply lines_one.
  - change (JS.join (String JS.newline "") (p :: q :: rest'))
      with (p +:+ String JS.newline (JS.join (String JS.newline "") (q :: rest'))).
    rewrite lines_cons by done. by rewrite IH.
Qed.

Lemma undouble_double_quotes (s : string) : undouble (JS.double_quotes s) = s.
Proof.
  induction s as [| c s IH]; simpl; [done |].
  destruct (Ascii.eqb c JS.dquote) eqn:E.
  - apply Ascii.eqb_eq in E. subst c. simpl. by rewrite IH.
  - simpl. rewrite E. by rewrite IH.
Qed.

Lemma without_closing_quote_app (s : string) :
  without_closing_quote (s +:+ String JS.dquote "") = Some s.
Proof.
  induction s as [| c s IH]; [done |].
  change (String c s +:+ String JS.dquote "") with (String c (s +:+ String JS.dquote "")).
  cbn [without_closing_quote]. rewrite IH.
  by destruct s.
Qed.

(** Every cell reads back as the text of its value. *)
Lemma read_cell_quote_cell (pf : platform) (value : option json) :
  read_cell (BackupStorage.quote_cell pf value) = Some (JS.String_of pf value).
Proof.
  unfold BackupStorage.quote_cell, read_cell.
  change (String JS.dquote (JS.double_quotes (JS.String_of pf value))
          +:+ String JS.dquote "")
    with (String JS.dquote (JS.double_quotes (JS.String_of pf value)
                            +:+ String JS.dquote "")).
  cbn [Ascii.eqb JS.dquote]. rewrite Ascii.eqb_refl.
  rewrite without_closing_quote_app. simpl. by rewrite undouble_double_quotes.
Qed.

Lemma is_record_not_null (items : list json) :
  Forall is_record items -> Forall (fun u => u <> JNull) items.
Proof.
  intros H. eapply Forall_impl; [exact H |]. by intros u [fields [-> _]].
Qed.

(** C6 (as amended).  The CSV export of an empty or absent user collection
    is the empty string.  Take N >= 1 users that are records, where the
    field names of the first are plain names, which an object lists in the
    order of their creation and does not inherit, and where the values
    under these names are printable: no arrays or objects, whole numbers
    of at most 2^53 in size.  Their export is the header, made of the
    first record's field names joined by commas, followed by one row per
    user, all joined by newline characters; in a row every value is
    wrapped in double quotes with its own double quotes doubled, so that
    it reads back as the text of the value.  These are exactly N+1 lines
    when no field name of the first record and no value contains a newline
    character. *)
Theorem csv_export (w : world) :
  (stored w STORAGE_KEYS.USER_DATA = None \/
   stored w STORAGE_KEYS.USER_DATA = Some (JArr []) ->
   value_of (BackupStorage.exportData "csv" w) = Return "")
  /\ (forall (first : json) (rest : list json),
        stored w STORAGE_KEYS.USER_DATA = Some (JArr (first :: rest)) ->
        Forall is_record (first :: rest) ->
        let headers := map fst (JS.own_props first) in
        Forall (fun h => plain_name h = true) headers ->
        Forall (fun u => Forall (fun h => printable (JS.prop u h) = true) headers)
               (first :: rest) ->
        let header := JS.join "," headers in
        let rows := map (csv_line (host w) headers) (first :: rest) in
        value_of (BackupStorage.exportData "csv" w)
        = Return (JS.join (String JS.newline "") (header :: rows))
        /\ length (header :: rows) = S (length (first :: rest))
        /\ Forall (fun u => Forall (fun h =>
                     read_cell (BackupStorage.quote_cell (host w) (JS.prop u h))
                     = Some (JS.String_of (host w) (JS.prop u h))) headers)
                  (first :: rest)
        /\ (Forall (fun h => has_newline h = false) headers ->
            Forall (fun u => Forall (fun h =>
                      has_newline (JS.String_of (host w) (JS.prop u h)) = false) headers)
                   (first :: rest) ->
            lines (JS.join (String JS.newline "") (header :: rows)) = header :: rows)).
Proof.
  split.
  - intros Hempty. rewrite exportData_csv_run. unfold snapshot.
    by destruct Hempty as [-> | ->].
  - intros first rest Hstored Hrecords headers Hnames Hprintable header rows.
    assert (Hnonnull := is_record_not_null _ Hrecords).
    split; [| split; [| split]].
    + rewrite exportData_csv_run. unfold snapshot. rewrite Hstored.
      cbn [JS.truthy BackupStorage.convertToCSV].
      apply Forall_cons in Hnonnull as Hfirst. destruct Hfirst as [Hfirst _].
      fold headers. rewrite (csv_rows_run (host w) headers (first :: rest) Hnonnull).
      by destruct first.
    + unfold rows. cbn [length]. by rewrite length_map.
    + apply Forall_forall. intros u _. apply Forall_forall. intros h _.
      apply read_cell_quote_cell.
    + intros Hheaders Hvalues. apply lines_join; [done |].
      constructor.
      * by apply has_newline_join.
      * unfold rows. apply Forall_map. eapply Forall_impl; [exact Hvalues |].
        intros u Hu. unfold csv_line. apply has_newline_join; [done |].
        apply Forall_map. eapply Forall_impl; [exact Hu |].
        intros h Hh. cbn beta. unfold BackupStorage.quote_cell.
        change (String JS.dquote (JS.double_quotes (JS.String_of (host w) (JS.prop u h)))
                +:+ String JS.dquote "")
          with (String JS.dquote (JS.double_quotes (JS.String_of (host w) (JS.prop u h))
                                  +:+ String JS.dquote "")).
        cbn [has_newline]. rewrite has_newline_app, has_newline_double_quotes, Hh.
        reflexivity.
Qed.

Example csv_export_witness :
  exists (first : json) (rest : list json) (text : string),
    sample_records = first :: rest
    /\ value_of (BackupStorage.exportData "csv" (loaded_page noon_2024_03_15)) = Return text
    /\ length (lines text) = S (length sample_records).
Proof.
  exists (default JNull (head sample_records)), (tail sample_records).
  destruct (proj2 (csv_export (loaded_page noon_2024_03_15))
                  (default JNull (head sample_records)) (tail sample_records))
    as [Hvalue [Hlength [_ Hlines]]].
  - vm_compute. reflexivity.
  - exact sample_records_are_records.
  - apply (bool_decide_unpack _). vm_compute. reflexivity.
  - apply (bool_decide_unpack _). vm_compute. reflexivity.
  - eexists. split; [reflexivity |]. split; [exact Hvalue |].
    rewrite Hlines.
    + exact Hlength.
    + apply (bool_decide_unpack _). vm_compute. reflexivity.
    + apply (bool_decide_unpack _). vm_compute. reflexivity.
Defined.

(** C6 as stated fails: the export of one user whose note has two lines
    has three lines, not two. *)
Example csv_export_of_a_two_line_note :
  exists text : string,
    user_collection (page_with_note noon_2024_03_15) = Some [two_line_note]
    /\ value_of (BackupStorage.exportData "csv" (page_with_note noon_2024_03_15))
       = Return text
    /\ length (lines text) = 3%nat
    /\ length (lines text) <> S (length [two_line_note]).
Proof.
  eexists. split; [vm_compute; reflexivity |].
  split; [vm_compute; reflexivity |]. split; [vm_compute; reflexivity |].
  vm_compute. discriminate.
Qed.

(** ** User statistics *)

Lemma filterM_run (p : json -> outcome bool) (pb : json -> bool) (items : list json) :
  Forall (fun x => p x = Return (pb x)) items ->
  filterM p items = Return (List.filter pb items).
Proof.
  induction 1 as [| x rest Hx Hrest IH]; simpl; [done |].
  rewrite Hx, IH. simpl. by destruct (pb x).
Qed.

Lemma count_run (p : json -> outcome bool) (pb : json -> bool) (items : list json) :
  Forall (fun x => p x = Return (pb x)) items ->
  UserStorage.count p items = Return (JInt (Z.of_nat (length (List.filter pb items)))).
Proof. intros H. unfold UserStorage.count. by rewrite (filterM_run p pb items H). Qed.

Lemma field_is_run (f text : string) (user : json) :
  user <> JNull ->
  UserStorage.field_is f text user
  = Return (JS.strict_eq (JS.prop user f) (Some (JStr text))).
Proof. intros H. unfold UserStorage.field_is. by destruct user. Qed.

Lemma registered_recently_run (pf : platform) (now monthAgo : Z) (user : json) :
  Date.setMonth pf now (Date.getMonth pf now - 1) = Some monthAgo ->
  user <> JNull ->
  UserStorage.registered_recently pf now user
  = Return (registered_after pf monthAgo user).
Proof.
  intros Hmonth Hnull. unfold UserStorage.registered_recently, registered_after.
  rewrite Hmonth. by destruct user.
Qed.

Lemma registered_recently_never (pf : platform) (now : Z) (user : json) :
  Date.setMonth pf now (Date.getMonth pf now - 1) = None ->
  user <> JNull ->
  UserStorage.registered_recently pf now user = Return false.
Proof.
  intros Hmonth Hnull. unfold UserStorage.registered_recently.
  rewrite Hmonth. destruct user; try done; simpl; by destruct (Date.of_value _ _).
Qed.

(** C8 (as amended).  Over users whose [registeredDate] is absent, a
    text, a whole number, a boolean or null, [recentRegistrations] counts
    exactly those whose [registeredDate], read as a date, is strictly
    later than the instant one calendar month before the call, and none
    when there is no such instant.  In a zone that keeps one offset from
    UTC that instant lies 28 to 31 days before the call: so a user
    registered later than 28 days before the call is counted, and a
    counted user registered later than 31 days before the call. *)
Theorem recentRegistrations_counts_the_last_calendar_month
    (w : world) (items : list json) :
  user_collection w = Some items ->
  Forall (fun u => u <> JNull) items ->
  Forall (fun u => date_argument (JS.prop u "registeredDate") = true) items ->
  0 <= clock w <= 8640000000000000 ->
  exists stats : json,
    UserStorage.getUserStats w = (w, Return stats)
    /\ JS.prop stats "recentRegistrations"
       = Some (JInt (Z.of_nat (length
           (List.filter
              (fun u =>
                 match Date.setMonth (host w) (clock w)
                         (Date.getMonth (host w) (clock w) - 1) with
                 | Some monthAgo => registered_after (host w) monthAgo u
                 | None => false
                 end) items))))
    /\ (fixed_offset (host w) ->
        exists L : Z,
          28 <= L <= 31
          /\ Date.setMonth (host w) (clock w) (Date.getMonth (host w) (clock w) - 1)
             = Some (clock w - L * Date.msPerDay)
          /\ JS.prop stats "recentRegistrations"
             = Some (JInt (Z.of_nat (length
                 (List.filter (registered_after (host w) (clock w - L * Date.msPerDay))
                    items))))
          /\ (forall u, registered_after (host w) (clock w - 28 * Date.msPerDay) u = true ->
                        registered_after (host w) (clock w - L * Date.msPerDay) u = true)
          /\ (forall u, registered_after (host w) (clock w - L * Date.msPerDay) u = true ->
                        registered_after (host w) (clock w - 31 * Date.msPerDay) u = true)).
Proof.
  intros Husers Hnonnull _ Hclock. apply user_collection_Some in Husers.
  assert (Hrun : exists stats : json,
    UserStorage.getUserStats w = (w, Return stats)
    /\ JS.prop stats "recentRegistrations"
       = Some (JInt (Z.of_nat (length
           (List.filter
              (fun u =>
                 match Date.setMonth (host w) (clock w)
                         (Date.getMonth (host w) (clock w) - 1) with
                 | Some monthAgo => registered_after (host w) monthAgo u
                 | None => false
                 end) items))))).
  { eexists. split.
    - unfold UserStorage.getUserStats, UserStorage.getUsers. step. rewrite Husers.
      cbn [as_array obind].
      rewrite (count_run _ (fun u => JS.strict_eq (JS.prop u "status") (Some (JStr "active")))),
        (count_run _ (fun u => JS.strict_eq (JS.prop u "status") (Some (JStr "inactive")))),
        (count_run _ (fun u => JS.strict_eq (JS.prop u "role") (Some (JStr "admin")))),
        (count_run _ (fun u => JS.strict_eq (JS.prop u "role") (Some (JStr "user")))),
        (count_run _ (fun u =>
           match Date.setMonth (host w) (clock w)
                   (Date.getMonth (host w) (clock w) - 1) with
           | Some monthAgo => registered_after (host w) monthAgo u
           | None => false
           end));
        try (eapply Forall_impl; [exact Hnonnull |]; intros u Hu; cbn beta;
             by apply field_is_run).
      + cbn [obind]. reflexivity.
      + eapply Forall_impl; [exact Hnonnull |]. intros u Hu. cbn beta.
        destruct (Date.setMonth (host w) (clock w) _) as [monthAgo |] eqn:Hmonth.
        * by apply registered_recently_run.
        * by apply registered_recently_never.
    - reflexivity. }
  destruct Hrun as [stats [Hrun Hcount]].
  exists stats. split; [exact Hrun |]. split; [exact Hcount |].
  intros Hzone.
  destruct (setMonth_previous (host w) (clock w) Hzone Hclock) as [L [HL Hmonth]].
  exists L. split; [exact HL |]. split; [exact Hmonth |].
  split; [| split].
  - rewrite Hcount. by rewrite Hmonth.
  - intros u. unfold registered_after. destruct (Date.of_value _ _); [| done].
    rewrite !Z.ltb_lt. unfold Date.msPerDay. lia.
  - intros u. unfold registered_after. destruct (Date.of_value _ _); [| done].
    rewrite !Z.ltb_lt. unfold Date.msPerDay. lia.
Qed.

Lemma demo_platform_fixed_offset : fixed_offset demo_platform.
Proof. by exists 0. Qed.

Example recentRegistrations_witness :
  exists (stats : json) (L : Z),
    UserStorage.getUserStats (loaded_page noon_2024_03_15)
    = (loaded_page noon_2024_03_15, Return stats)
    /\ 28 <= L <= 31
    /\ JS.prop stats "recentRegistrations"
       = Some (JInt (Z.of_nat (length
           (List.filter (registered_after demo_platform
                           (noon_2024_03_15 - L * Date.msPerDay)) sample_records)))).
Proof.
  destruct (recentRegistrations_counts_the_last_calendar_month
              (loaded_page noon_2024_03_15) sample_records)
    as [stats [Hrun [_ Hzone]]].
  - vm_compute. reflexivity.
  - repeat constructor; discriminate.
  - apply (bool_decide_unpack _). vm_compute. reflexivity.
  - vm_compute. split; discriminate.
  - destruct (Hzone demo_platform_fixed_offset) as [L [HL [_ [Hcount _]]]].
    exists stats, L. split; [exact Hrun |]. split; [exact HL | exact Hcount].
Defined.

(** C8 as stated fails in both directions.  At noon of 2024-03-15 a user
    registered on 2024-02-15, 29 and a half days earlier, is within the
    trailing 30 days and is not counted; at noon of 2024-01-15 a user
    registered on 2023-12-16, 30 and a half days earlier, is not within
    the trailing 30 days and is counted. *)
Example recentRegistrations_is_not_the_last_30_days :
  (exists stats : json,
     user_collection (page_registered "2024-02-15" noon_2024_03_15)
     = Some [registered_on "2024-02-15"]
     /\ value_of (UserStorage.getUserStats (page_registered "2024-02-15" noon_2024_03_15))
        = Return stats
     /\ JS.prop stats "recentRegistrations" = Some (JInt 0)
     /\ List.filter (registered_within_30_days demo_platform noon_2024_03_15)
          [registered_on "2024-02-15"] = [registered_on "2024-02-15"]
     /\ JS.prop stats "recentRegistrations"
        <> Some (JInt (Z.of_nat (length
             (List.filter (registered_within_30_days demo_platform noon_2024_03_15)
                [registered_on "2024-02-15"])))))
  /\ (exists stats : json,
        user_collection (page_registered "2023-12-16" noon_2024_01_15)
        = Some [registered_on "2023-12-16"]
        /\ value_of (UserStorage.getUserStats
                       (page_registered "2023-12-16" noon_2024_01_15)) = Return stats
        /\ JS.prop stats "recentRegistrations" = Some (JInt 1)
        /\ List.filter (registered_within_30_days demo_platform noon_2024_01_15)
             [registered_on "2023-12-16"] = []
        /\ JS.prop stats "recentRegistrations"
           <> Some (JInt (Z.of_nat (length
                (List.filter (registered_within_30_days demo_platform noon_2024_01_15)
                   [registered_on "2023-12-16"]))))).
Proof.
  split; eexists; (split; [vm_compute; reflexivity |]);
    (split; [vm_compute; reflexivity |]); (split; [vm_compute; reflexivity |]);
    (split; [vm_compute; reflexivity |]); vm_compute; discriminate.
Qed.

(** * Further properties of the code *)

(** ** The storage medium *)

Lemma lookup_delete_key (ls : gmap string json) (key key' : string) :
  delete (Storage.prefix +:+ key') ls !! (Storage.prefix +:+ key)
  = if bool_decide (key = key') then None else ls !! (Storage.prefix +:+ key).
Proof.
  case_bool_decide as Hk.
  - subst. apply lookup_delete_eq.
  - apply lookup_delete_ne. intros Heq. apply prefix_inj in Heq. congruence.
Qed.

Lemma stored_delete (ls : gmap string json) (n : Q) (t : Z) (rnd : nat -> Q)
    (d : nat) (pf : platform) (key key' : string) :
  stored (World (delete (Storage.prefix +:+ key') ls) n t rnd d pf) key
  = if bool_decide (key = key') then None else ls !! (Storage.prefix +:+ key).
Proof. unfold stored. proj. apply lookup_delete_key. Qed.

(** X1.  A value written with [set] is what [get] and [has] see afterwards,
    whatever the default; after [remove], [get] answers the default and
    [has] answers false.  Neither touches another key. *)
Theorem storage_round_trip (key : string) (value defaultValue : json) (w : world) :
  (exists w' : world,
     Storage.set key value w = (w', Return true)
     /\ Storage.get key defaultValue w' = (w', Return value)
     /\ Storage.has key w' = (w', Return true)
     /\ (forall other, other <> key -> stored w' other = stored w other))
  /\ (exists w' : world,
        Storage.remove key w = (w', Return tt)
        /\ Storage.get key defaultValue w' = (w', Return defaultValue)
        /\ Storage.has key w' = (w', Return false)
        /\ (forall other, other <> key -> stored w' other = stored w other)).
Proof.
  split; eexists; (split; [reflexivity |]).
  - split; [| split].
    + rewrite get_run. by rewrite stored_insert_eq.
    + unfold Storage.has. proj. rewrite lookup_insert_eq.
      by rewrite bool_decide_eq_true_2.
    + intros other Hne. by rewrite stored_insert_ne.
  - split; [| split].
    + rewrite get_run, stored_delete. by rewrite bool_decide_eq_true_2.
    + unfold Storage.has. proj. rewrite lookup_delete_eq.
      rewrite bool_decide_eq_false_2; [done |]. by intros [x Hx].
    + intros other Hne. rewrite stored_delete. by rewrite bool_decide_eq_false_2.
Qed.

Lemma bind_remove {B} (key : string) (k : unit -> M B) (w : world) :
  bind (Storage.remove key) k w
  = k tt (World (delete (Storage.prefix +:+ key) (localStorage w))
                (nextId w) (clock w) (random w) (drawn w) (host w)).
Proof. reflexivity. Qed.

(** X2.  [clear()] removes the seven keys of [STORAGE_KEYS] and leaves every
    other key of the name space as it was. *)
Theorem clear_removes_the_system_keys (w : world) :
  exists w' : world,
    Storage.clear w = (w', Return tt)
    /\ forall key : string,
         stored w' key
         = if bool_decide (key ∈ STORAGE_KEYS.values) then None else stored w key.
Proof.
  unfold Storage.clear, STORAGE_KEYS.values. cbn [forEach].
  repeat (rewrite bind_remove; proj). eexists. split; [reflexivity |].
  intros key. rewrite stored_delete. repeat rewrite lookup_delete_key.
  fold (stored w key).
  destruct (decide (key ∈ [STORAGE_KEYS.CURRENT_USER; STORAGE_KEYS.USER_DATA;
                           STORAGE_KEYS.SYSTEM_SETTINGS; STORAGE_KEYS.BACKUP_DATA;
                           STORAGE_KEYS.SESSION_DATA; STORAGE_KEYS.METRICS_DATA;
                           STORAGE_KEYS.LOGS_DATA])) as [Hin | Hnot].
  - rewrite (bool_decide_eq_true_2 (key ∈ _)) by done.
    repeat (apply elem_of_cons in Hin as [-> | Hin]; [by repeat case_bool_decide |]).
    by apply elem_of_nil in Hin.
  - rewrite (bool_decide_eq_false_2 (key ∈ _)) by done.
    repeat (rewrite bool_decide_eq_false_2;
            [| intros ->; apply Hnot;
               repeat first [apply list_elem_of_here | apply list_elem_of_further]]).
    reflexivity.
Qed.

(** X3.  [initializeStorage()] writes only when no truthy user collection is
    stored: then it seeds the sample users and resets the settings to the
    defaults.  Running it a second time changes nothing. *)
Theorem initializeStorage_seeds_once (w : world) :
  exists w' : world,
    Storage.initializeStorage w = (w', Return tt)
    /\ Storage.initializeStorage w' = (w', Return tt)
    /\ (JS.truthy (default JNull (stored w STORAGE_KEYS.USER_DATA)) = true -> w' = w)
    /\ (JS.truthy (default JNull (stored w STORAGE_KEYS.USER_DATA)) = false ->
        stored w' STORAGE_KEYS.USER_DATA = Some SAMPLE_USERS
        /\ stored w' STORAGE_KEYS.SYSTEM_SETTINGS = Some Storage.default_settings
        /\ forall key, key <> STORAGE_KEYS.USER_DATA ->
                       key <> STORAGE_KEYS.SYSTEM_SETTINGS ->
                       stored w' key = stored w key).
Proof.
  unfold Storage.initializeStorage. step.
  destruct (JS.truthy (default JNull (stored w STORAGE_KEYS.USER_DATA))) eqn:Hsome;
    cbn [negb].
  - exists w. split; [done |]. split; [| done].
    step. by rewrite Hsome.
  - step. eexists. split; [reflexivity |]. split; [| split; [done |]].
    + step. rewrite stored_with_storage_insert_ne by done.
      by rewrite stored_with_storage_insert_eq.
    + intros _. split; [| split].
      * rewrite stored_with_storage_insert_ne by done.
        by rewrite stored_with_storage_insert_eq.
      * by rewrite stored_with_storage_insert_eq.
      * intros key Hu Hs. by rewrite !stored_with_storage_insert_ne.
Qed.

(** ** Looking users up *)

Lemma getUserById_run (id : option json) (w : world) (items : list json) :
  user_collection w = Some items ->
  UserStorage.getUserById id w
  = (w, match findIndex (UserStorage.has_id id) items with
        | Return (Some i) =>
            Return (if JS.truthy (default JNull (items !! i))
                    then default JNull (items !! i) else JNull)
        | Return None => Return JNull
        | Throw e => Throw e
        | Unmodelled => Unmodelled
        end).
Proof.
  intros Husers. apply user_collection_Some in Husers.
  unfold UserStorage.getUserById, UserStorage.getUsers. step. rewrite Husers.
  cbn [as_array]. step.
  destruct (findIndex _ items) as [[i |] | e |]; by step.
Qed.

Lemma has_id_number (n : Q) (user : json) (x : Q) :
  id_of user = Some x ->
  UserStorage.has_id (Some (JNum n)) user = Return (Qeq_bool x n).
Proof.
  intros Hid. unfold UserStorage.has_id. by rewrite (id_of_Some user x Hid).
Qed.

(** The counter of a repository is above every stored id. *)
Lemma next_id_is_fresh (items : list json) (n : Q) :
  next_id_after items n ->
  Forall (fun u => is_Some (id_of u)) items ->
  Forall (fun u => UserStorage.has_id (Some (JNum n)) u = Return false) items.
Proof.
  intros Hnext Hids. apply Forall_forall. intros u Hu.
  rewrite Forall_forall in Hids. destruct (Hids u Hu) as [x Hx].
  rewrite (has_id_number n u x Hx). f_equal.
  destruct Hnext as [[-> _] | [m [_ [Hmax Hn]]]]; [by apply elem_of_nil in Hu |].
  assert (Hle : (x <= m)%Q).
  { apply Hmax. rewrite <- Hx. apply list_elem_of_fmap. by exists u. }
  destruct (Qeq_bool x n) eqn:E; [| done].
  apply Qeq_bool_iff in E. lra.
Qed.

(** X4.  In a repository whose counter is one more than the greatest stored id,
    the user that [createUser] returns for data that name no id and can
    be cloned is the one that [getUserById] finds under the returned
    id. *)
Theorem createUser_then_getUserById
    (w : world) (userData : option json) (items entries : list json) :
  user_collection w = Some items ->
  audit_log w = Some entries ->
  Forall (fun u => is_Some (id_of u)) items ->
  next_id_after items (nextId w) ->
  names_no_id userData ->
  clonable_opt userData = true ->
  exists (user : json) (w' : world),
    UserStorage.createUser userData w = (w', Return user)
    /\ UserStorage.getUserById (JS.prop user "id") w' = (w', Return user).
Proof.
  intros Husers Hlog Hids Hnext Hno Hdata.
  pose proof (createUser_run userData w items entries Husers Hlog
                (clonable_newUser _ _ _ Hdata)) as Hrun.
  eexists; eexists. split; [exact Hrun |].
  set (user := JObj (UserStorage.newUser (nextId w) userData (clock w))).
  assert (Hid : id_of user = Some (nextId w)) by (by apply newUser_sequential_id).
  assert (Hprop : JS.prop user "id" = Some (JNum (nextId w))).
  { apply id_of_Some in Hid. by simplify_eq/=. }
  rewrite (getUserById_run _ _ (items ++ [user])) by apply user_collection_after.
  rewrite Hprop.
  assert (Hfind : findIndex (UserStorage.has_id (Some (JNum (nextId w)))) (items ++ [user])
                  = Return (Some (length items))).
  { apply findIndex_Some. split.
    - exists user. split; [by rewrite list_lookup_middle |].
      rewrite (has_id_number _ user _ Hid). f_equal. apply Qeq_bool_iff. reflexivity.
    - intros j y Hj Hy. rewrite lookup_app_l in Hy by done.
      pose proof (next_id_is_fresh items (nextId w) Hnext Hids) as Hfresh.
      rewrite Forall_forall in Hfresh. apply Hfresh.
      by apply list_elem_of_lookup_2 in Hy. }
  rewrite Hfind. by rewrite list_lookup_middle.
Qed.

Lemma loaded_page_counter (t : Z) : next_id_after sample_records (nextId (loaded_page t)).
Proof.
  assert (E : map id_of sample_records = map Some [1; 2; 3; 4; 5]%Q) by reflexivity.
  right. exists 5%Q. rewrite E. split; [| split].
  - do 4 apply list_elem_of_further. apply list_elem_of_here.
  - intros x Hx. apply list_elem_of_fmap in Hx as [y [[= ->] Hy]].
    repeat (apply elem_of_cons in Hy as [-> | Hy]; [by vm_compute |]).
    by apply elem_of_nil in Hy.
  - by vm_compute.
Qed.

Example createUser_then_getUserById_witness :
  exists (user : json) (w' : world),
    UserStorage.createUser (Some eva) (loaded_page noon_2024_03_15) = (w', Return user)
    /\ UserStorage.getUserById (JS.prop user "id") w' = (w', Return user).
Proof.
  apply (createUser_then_getUserById (loaded_page noon_2024_03_15) (Some eva)
           sample_records []).
  - vm_compute. reflexivity.
  - vm_compute. reflexivity.
  - exact sample_records_have_ids.
  - apply loaded_page_counter.
  - apply (bool_decide_unpack _). vm_compute. reflexivity.
  - reflexivity.
Defined.

(** X5.  On a collection of records that can be cloned, in which at most
    one carries the id, no user is found under the id once [deleteUser]
    has run for it. *)
Theorem deleteUser_then_getUserById
    (w : world) (id : option json) (items entries : list json) :
  user_collection w = Some items ->
  audit_log w = Some entries ->
  Forall is_record items ->
  Forall (fun u => clonable u = true) items ->
  (forall (i j : nat) (x y : json),
     items !! i = Some x -> items !! j = Some y ->
     UserStorage.has_id id x = Return true -> UserStorage.has_id id y = Return true ->
     i = j) ->
  exists (deleted : bool) (w' : world),
    UserStorage.deleteUser id w = (w', Return deleted)
    /\ UserStorage.getUserById id w' = (w', Return JNull)
    /\ (deleted = true <-> exists u, u ∈ items /\ UserStorage.has_id id u = Return true)
    /\ (deleted = false -> w' = w).
Proof.
  intros Husers Hlog Hrec Hclone Hunique.
  destruct (findIndex_total (UserStorage.has_id id) items) as [[i |] Hfind].
  { eapply Forall_impl; [exact Hrec |]. intros u. apply has_id_record. }
  - exists true. eexists.
    split; [exact (deleteUser_run id w items entries i Husers Hlog Hfind
                     (clonable_at items i Hclone)) |].
    pose proof Hfind as Hfound. apply findIndex_Some in Hfound as [[x [Hx Hpx]] Hbefore].
    split; [| split; [| done]].
    + rewrite (getUserById_run _ _ (delete i items)) by apply user_collection_after.
      assert (Hnone : findIndex (UserStorage.has_id id) (delete i items) = Return None).
      { apply findIndex_None. apply Forall_lookup. intros j y Hy.
        assert (Hsrc : exists j', j' <> i /\ items !! j' = Some y).
        { destruct (decide (j < i)%nat) as [Hlt | Hge].
          - exists j. split; [lia |]. by rewrite list_lookup_delete_lt in Hy.
          - exists (S j). split; [lia |]. rewrite list_lookup_delete_ge in Hy by lia.
            done. }
        destruct Hsrc as [j' [Hne Hy']].
        destruct (has_id_record id y) as [[|] Hb]; [| | done].
        - rewrite Forall_forall in Hrec. apply Hrec.
          by apply list_elem_of_lookup_2 in Hy'.
        - exfalso. apply Hne. by apply (Hunique j' i y x). }
      by rewrite Hnone.
    + split; [| done]. intros _. exists x. split; [| done].
      by apply list_elem_of_lookup_2 in Hx.
  - exists false, w.
    split; [exact (deleteUser_missing id w items Husers Hfind) |].
    split; [| split; [| done]].
    + rewrite (getUserById_run _ _ items Husers). by rewrite Hfind.
    + split; [done |]. intros [u [Hu Hpu]].
      apply findIndex_None in Hfind. rewrite Forall_forall in Hfind.
      specialize (Hfind u Hu). congruence.
Qed.

Example deleteUser_then_getUserById_witness :
  exists (deleted : bool) (w' : world),
    UserStorage.deleteUser (Some (JInt 3)) (loaded_page noon_2024_03_15)
    = (w', Return deleted)
    /\ UserStorage.getUserById (Some (JInt 3)) w' = (w', Return JNull)
    /\ (deleted = true
        <-> exists u, u ∈ sample_records
                      /\ UserStorage.has_id (Some (JInt 3)) u = Return true)
    /\ (deleted = false -> w' = loaded_page noon_2024_03_15).
Proof.
  apply (deleteUser_then_getUserById (loaded_page noon_2024_03_15) (Some (JInt 3))
           sample_records []).
  - vm_compute. reflexivity.
  - vm_compute. reflexivity.
  - exact sample_records_are_records.
  - exact sample_records_clonable.
  - intros i j x y Hx Hy Hpx Hpy.
    assert (Hat : forall k u, sample_records !! k = Some u ->
                    UserStorage.has_id (Some (JInt 3)) u = Return true -> k = 2%nat).
    { intros k u Hu Hpu.
      do 5 (destruct k as [| k];
            [injection Hu as <-; first [reflexivity | by vm_compute in Hpu] |]).
      discriminate Hu. }
    rewrite (Hat i x Hx Hpx). by rewrite (Hat j y Hy Hpy).
Defined.

(** ** Deleting several users *)

Lemma is_record_delete (i : nat) (items : list json) :
  Forall is_record items -> Forall is_record (delete i items).
Proof. apply Forall_delete. Qed.

Lemma deleteUsers_loop_run (ids : list json) :
  forall (w : world) (items entries : list json) (n : Z),
    user_collection w = Some items ->
    audit_log w = Some entries ->
    Forall is_record items ->
    Forall (fun u => clonable u = true) items ->
    exists (w' : world) (items' entries' : list json) (m : Z),
      UserStorage.deleteUsers_loop ids n w = (w', Return m)
      /\ user_collection w' = Some items'
      /\ audit_log w' = Some entries'
      /\ items' `sublist_of` items
      /\ n <= m <= n + Z.of_nat (length ids)
      /\ Z.of_nat (length items') + (m - n) = Z.of_nat (length items).
Proof.
  induction ids as [| id rest IH]; intros w items entries n Husers Hlog Hrec Hclone.
  - exists w, items, entries, n. cbn [UserStorage.deleteUsers_loop length].
    repeat split; try done; lia.
  - cbn [UserStorage.deleteUsers_loop]. unfold bind at 1.
    destruct (findIndex_total (UserStorage.has_id (Some id)) items) as [[i |] Hfind].
    { eapply Forall_impl; [exact Hrec |]. intros u. apply has_id_record. }
    + rewrite (deleteUser_run (Some id) w items entries i Husers Hlog Hfind
                 (clonable_at items i Hclone)).
      cbv iota.
      match goal with
      | |- context [UserStorage.deleteUsers_loop rest _
                      (World (<[?k := JArr ?e]> ?ls) ?a ?b ?c ?d ?f)] =>
          destruct (IH (World (<[k := JArr e]> ls) a b c d f) (delete i items) e (n + 1)) as
            [w' [items' [entries' [m [Hrun [Hu [Hl [Hsub [Hm Hlen]]]]]]]]];
            [apply user_collection_after | apply audit_log_after
            | by apply is_record_delete | by apply Forall_delete |]
      end.
      exists w', items', entries', m. split; [exact Hrun |].
      split; [done |]. split; [done |].
      split; [etrans; [exact Hsub | apply sublist_delete] |].
      apply findIndex_Some in Hfind as [[x [Hx _]] _].
      assert (Hdel : length (delete i items) = (length items - 1)%nat)
        by (apply length_delete; by exists x).
      apply lookup_lt_Some in Hx.
      cbn [length]. split; lia.
    + rewrite (deleteUser_missing (Some id) w items Husers Hfind).
      destruct (IH w items entries n Husers Hlog Hrec Hclone)
        as [w' [items' [entries' [m [Hrun [Hu [Hl [Hsub [Hm Hlen]]]]]]]]].
      exists w', items', entries', m. split; [exact Hrun |].
      repeat split; try done; cbn [length]; lia.
Qed.

(** X6.  On a collection of records that can be cloned, [deleteUsers(ids)]
    answers how many users it removed: at most one for each id given, and
    exactly the number by which the collection shrank; the users left are
    those of the collection, in their order.  An [ids] that is not an
    array makes it throw. *)
Theorem deleteUsers_counts_the_removed
    (w : world) (ids : json) (items entries : list json) :
  user_collection w = Some items ->
  audit_log w = Some entries ->
  Forall is_record items ->
  Forall (fun u => clonable u = true) items ->
  match ids with
  | JArr given =>
      exists (w' : world) (items' : list json) (deletedCount : Z),
        UserStorage.deleteUsers ids w = (w', Return deletedCount)
        /\ user_collection w' = Some items'
        /\ items' `sublist_of` items
        /\ 0 <= deletedCount <= Z.of_nat (length given)
        /\ Z.of_nat (length items') + deletedCount = Z.of_nat (length items)
  | _ => UserStorage.deleteUsers ids w = (w, Throw TypeError)
  end.
Proof.
  intros Husers Hlog Hrec Hclone. destruct ids as [| b | q | s | given | fields]; try done.
  unfold UserStorage.deleteUsers. cbn [as_array]. step.
  destruct (deleteUsers_loop_run given w items entries 0 Husers Hlog Hrec Hclone)
    as [w' [items' [entries' [m [Hrun [Hu [Hl [Hsub [Hm Hlen]]]]]]]]].
  exists w', items', m. repeat split; try done; lia.
Qed.

Example deleteUsers_counts_the_removed_witness :
  exists (w' : world) (items' : list json) (deletedCount : Z),
    UserStorage.deleteUsers (JArr [JInt 2; JInt 9; JInt 2; JInt 4])
      (loaded_page noon_2024_03_15) = (w', Return deletedCount)
    /\ user_collection w' = Some items'
    /\ items' `sublist_of` sample_records
    /\ 0 <= deletedCount <= Z.of_nat (length [JInt 2; JInt 9; JInt 2; JInt 4])
    /\ Z.of_nat (length items') + deletedCount = Z.of_nat (length sample_records).
Proof.
  apply (deleteUsers_counts_the_removed (loaded_page noon_2024_03_15)
           (JArr [JInt 2; JInt 9; JInt 2; JInt 4]) sample_records []).
  - vm_compute. reflexivity.
  - vm_compute. reflexivity.
  - exact sample_records_are_records.
  - exact sample_records_clonable.
Defined.

(** ** Activating and deactivating several users *)

Lemma has_id_by_id (id : option json) (u u' : json) :
  is_record u -> is_record u' ->
  JS.prop u "id" = JS.prop u' "id" ->
  UserStorage.has_id id u = UserStorage.has_id id u'.
Proof.
  intros [fields [-> _]] [fields' [-> _]] Hid. unfold UserStorage.has_id.
  cbn [get_prop JS.prop obind] in *. by rewrite Hid.
Qed.

Lemma findIndex_same_ids (id : option json) (l : list json) :
  forall l' : list json,
    Forall is_record l -> Forall is_record l' ->
    ids_of l = ids_of l' ->
    findIndex (UserStorage.has_id id) l = findIndex (UserStorage.has_id id) l'.
Proof.
  induction l as [| u rest IH]; intros [| u' rest'] Hl Hl' Hids; try done.
  apply Forall_cons in Hl as [Hu Hrest]. apply Forall_cons in Hl' as [Hu' Hrest'].
  injection Hids as Hid Hids. cbn [findIndex].
  by rewrite (has_id_by_id id u u' Hu Hu' Hid), (IH rest' Hrest Hrest' Hids).
Qed.

Lemma carries_same_ids (id : json) (l l' : list json) :
  Forall is_record l -> Forall is_record l' ->
  ids_of l = ids_of l' ->
  carries id l = carries id l'.
Proof.
  intros Hl Hl' Hids. unfold carries.
  by rewrite (findIndex_same_ids (Some id) l l' Hl Hl' Hids).
Qed.

(** The record that [updateUser(id, { status })] writes. *)
Lemma updatedUser_status (u : json) (status : string) (t : Z) :
  is_record u ->
  let user := JObj (UserStorage.updatedUser (Some u)
                      (Some (JObj [("status", JStr status)])) t) in
  is_record user
  /\ JS.prop user "id" = JS.prop u "id"
  /\ JS.prop user "status" = Some (JStr status).
Proof.
  intros [fields [-> Hnd]] user. subst user. split; [| split].
  - eexists. split; [reflexivity |].
    unfold UserStorage.updatedUser. apply set_fields_NoDup.
    apply spread_NoDup, spread_NoDup. constructor.
  - cbn [JS.prop]. lookup_literal.
    rewrite lookup_spread_other.
    + by apply spread_record.
    + cbn. intros H. apply elem_of_cons in H as [H | H]; [done |].
      by apply elem_of_nil in H.
  - cbn [JS.prop]. lookup_literal.
    apply lookup_spread_named.
    + apply (bool_decide_unpack _). reflexivity.
    + cbn. by left.
Qed.

Lemma ids_of_insert (items : list json) (i : nat) (u user : json) :
  items !! i = Some u ->
  JS.prop user "id" = JS.prop u "id" ->
  ids_of (<[i := user]> items) = ids_of items.
Proof.
  intros Hi Hid. unfold ids_of. rewrite list_fmap_insert. rewrite Hid.
  apply list_insert_id. by rewrite list_lookup_fmap, Hi.
Qed.

Lemma is_record_insert (items : list json) (i : nat) (user : json) :
  Forall is_record items -> is_record user -> Forall is_record (<[i := user]> items).
Proof. intros Hitems Huser. by apply Forall_insert. Qed.

Lemma set_status_loop_run (status : string) (ids : list json) :
  forall (w : world) (items entries : list json) (n : Z),
    user_collection w = Some items ->
    audit_log w = Some entries ->
    Forall is_record items ->
    Forall (fun u => clonable u = true) items ->
    exists (w' : world) (items' entries' : list json),
      API.set_status_loop status ids n w
      = (w', Return (n + Z.of_nat (length (List.filter (fun id => carries id items) ids))))
      /\ user_collection w' = Some items'
      /\ audit_log w' = Some entries'
      /\ Forall is_record items'
      /\ ids_of items' = ids_of items
      /\ (forall i u, items !! i = Some u ->
            JS.prop u "status" = Some (JStr status) ->
            exists u', items' !! i = Some u'
                       /\ JS.prop u' "status" = Some (JStr status))
      /\ (forall id i, id ∈ ids ->
            findIndex (UserStorage.has_id (Some id)) items = Return (Some i) ->
            exists u', items' !! i = Some u'
                       /\ JS.prop u' "status" = Some (JStr status))
      /\ (forall i u, items !! i = Some u ->
            (forall id, id ∈ ids ->
               findIndex (UserStorage.has_id (Some id)) items <> Return (Some i)) ->
            items' !! i = Some u).
Proof.
  induction ids as [| id rest IH]; intros w items entries n Husers Hlog Hrec Hclone.
  - exists w, items, entries. cbn [API.set_status_loop List.filter length].
    split; [unfold ret; do 2 f_equal; lia |].
    repeat split; try done.
    + intros i u Hi Hs. by exists u.
    + intros id i Hin. by apply elem_of_nil in Hin.
  - cbn [API.set_status_loop]. unfold bind at 1.
    destruct (findIndex_total (UserStorage.has_id (Some id)) items) as [[i |] Hfind].
    { eapply Forall_impl; [exact Hrec |]. intros u. apply has_id_record. }
    + pose proof Hfind as Hfound.
      apply findIndex_Some in Hfound as [[u [Hu _]] _].
      assert (Hcu : clonable u = true).
      { rewrite Forall_forall in Hclone. apply Hclone.
        by apply list_elem_of_lookup_2 in Hu. }
      rewrite (updateUser_run (Some id) _ w items entries i Husers Hlog Hfind)
        by (rewrite Hu; by apply clonable_updatedUser).
      cbn [JS.truthy].
      rewrite Hu.
      destruct (updatedUser_status u status (clock w)) as [Hnew [Hid Hstatus]].
      { by apply (Forall_lookup_1 _ _ _ _ Hrec Hu). }
      cbv zeta in Hnew, Hid, Hstatus.
      set (user := JObj (UserStorage.updatedUser (Some u)
                           (Some (JObj [("status", JStr status)])) (clock w))) in *.
      assert (Hids1 : ids_of (<[i := user]> items) = ids_of items)
        by (by apply (ids_of_insert items i u user)).
      assert (Hrec1 : Forall is_record (<[i := user]> items))
        by (by apply is_record_insert).
      assert (Hclone1 : Forall (fun x => clonable x = true) (<[i := user]> items)).
      { apply Forall_insert; [done |]. by apply clonable_updatedUser. }
      match goal with
      | |- context [API.set_status_loop status rest _
                      (World (<[?k := JArr ?e]> ?ls) ?a ?b ?c ?d ?f)] =>
          destruct (IH (World (<[k := JArr e]> ls) a b c d f) (<[i := user]> items) e
                      (n + 1))
            as [w' [items' [entries' [Hrun [Hu' [Hl' [Hrec' [Hids' [Hkeep [Hset Hrest]]]]]]]]]];
            [apply user_collection_after | apply audit_log_after | exact Hrec1
            | exact Hclone1 |]
      end.
      exists w', items', entries'. split.
      { rewrite Hrun. do 2 f_equal. cbn [List.filter].
        unfold carries at 2. rewrite Hfind. cbn [length].
        rewrite (filter_ext (fun id0 => carries id0 (<[i := user]> items))
                            (fun id0 => carries id0 items)).
        - lia.
        - intros id0. by apply carries_same_ids. }
      split; [done |]. split; [done |]. split; [done |].
      split; [by rewrite Hids' |].
      assert (Hi_lt : (i < length items)%nat) by (by apply lookup_lt_Some in Hu).
      split; [| split].
      * intros j x Hj Hs. destruct (decide (j = i)) as [-> | Hne].
        -- apply (Hkeep i user); [by apply list_lookup_insert_eq | done].
        -- apply (Hkeep j x); [by rewrite list_lookup_insert_ne | done].
      * intros id0 j Hin Hj. apply elem_of_cons in Hin as [-> | Hin].
        -- rewrite Hfind in Hj. injection Hj as <-.
           apply (Hkeep i user); [by apply list_lookup_insert_eq | done].
        -- apply (Hset id0 j Hin).
           by rewrite (findIndex_same_ids (Some id0) _ items Hrec1 Hrec Hids1).
      * intros j x Hj Hnone.
        assert (Hne : j <> i).
        { intros ->. apply (Hnone id); [by left | done]. }
        apply Hrest; [by rewrite list_lookup_insert_ne |].
        intros id0 Hin.
        rewrite (findIndex_same_ids (Some id0) _ items Hrec1 Hrec Hids1).
        apply Hnone. by right.
    + rewrite (updateUser_missing (Some id) _ w items Husers Hfind).
      cbn [JS.truthy].
      destruct (IH w items entries n Husers Hlog Hrec Hclone)
        as [w' [items' [entries' [Hrun [Hu' [Hl' [Hrec' [Hids' [Hkeep [Hset Hrest]]]]]]]]]].
      exists w', items', entries'. split.
      { rewrite Hrun. do 2 f_equal. cbn [List.filter].
        unfold carries at 2. by rewrite Hfind. }
      repeat split; try done.
      * intros id0 j Hin Hj. apply elem_of_cons in Hin as [-> | Hin].
        -- rewrite Hfind in Hj. done.
        -- by apply (Hset id0 j).
      * intros j x Hj Hnone. apply Hrest; [done |].
        intros id0 Hin. apply Hnone. by right.
Qed.

(** X7.  The [activate] and [deactivate] cases of [bulkUserOperation] on a
    collection of records that can be cloned: the count in the answer is the number of the
    given ids, repeated ones included, that a stored record carries; every
    record keeps its place and its id; the first record with a given id
    has the new status afterwards, and a record that is not the first of
    any given id is left as it was. *)
Theorem bulkUserOperation_sets_the_status
    (w : world) (data : json) (activate : bool) (ids items entries : list json) :
  data <> JNull ->
  JS.prop data "operation" = Some (JStr (if activate then "activate" else "deactivate")) ->
  JS.prop data "userIds" = Some (JArr ids) ->
  user_collection w = Some items ->
  audit_log w = Some entries ->
  Forall is_record items ->
  Forall (fun u => clonable u = true) items ->
  let status := if activate then "active" else "inactive" in
  let count := Z.of_nat (length (List.filter (fun id => carries id items) ids)) in
  exists (w' : world) (items' : list json),
    API.bulkUserOperation data w
    = (w', Return (API.success
                     (Some (JS.int_to_string 10 count
                            +:+ (if activate then " usuarios activados"
                                 else " usuarios desactivados")))
                     (Some (JObj [(if activate then "activatedCount" else "deactivatedCount",
                                   JInt count)]))))
    /\ user_collection w' = Some items'
    /\ ids_of items' = ids_of items
    /\ (forall id i, id ∈ ids ->
          findIndex (UserStorage.has_id (Some id)) items = Return (Some i) ->
          exists u', items' !! i = Some u' /\ JS.prop u' "status" = Some (JStr status))
    /\ (forall i u, items !! i = Some u ->
          (forall id, id ∈ ids ->
             findIndex (UserStorage.has_id (Some id)) items <> Return (Some i)) ->
          items' !! i = Some u).
Proof.
  intros Hdata Hop Hids Husers Hlog Hrec Hclone status count.
  destruct (set_status_loop_run status ids w items entries 0 Husers Hlog Hrec Hclone)
    as [w' [items' [entries' [Hrun [Hu' [Hl' [Hrec' [Hids' [Hkeep [Hset Hrest]]]]]]]]]].
  exists w', items'. split; [| done].
  assert (Hget : forall k, get_prop data k = Return (JS.prop data k))
    by (by destruct data).
  unfold API.bulkUserOperation, API.destructure. rewrite !Hget, Hop, Hids.
  subst status count. destruct activate; step;
    cbn [JS.strict_eq API.call_forEach as_array];
    repeat match goal with
           | |- context [String.eqb ?a ?b] =>
               let r := eval vm_compute in (String.eqb a b) in
               change (String.eqb a b) with r
           end;
    cbv iota; step; unfold bind at 1; rewrite Hrun; reflexivity.
Qed.

Example bulkUserOperation_sets_the_status_witness :
  exists (w' : world) (items' : list json),
    API.bulkUserOperation
      (JObj [("operation", JStr "deactivate");
             ("userIds", JArr [JInt 2; JInt 9; JInt 2])])
      (loaded_page noon_2024_03_15)
    = (w', Return (API.success (Some "2 usuarios desactivados")
                     (Some (JObj [("deactivatedCount", JInt 2)]))))
    /\ user_collection w' = Some items'
    /\ ids_of items' = ids_of sample_records
    /\ (forall id i, id ∈ [JInt 2; JInt 9; JInt 2] ->
          findIndex (UserStorage.has_id (Some id)) sample_records = Return (Some i) ->
          exists u', items' !! i = Some u' /\ JS.prop u' "status" = Some (JStr "inactive"))
    /\ (forall i u, sample_records !! i = Some u ->
          (forall id, id ∈ [JInt 2; JInt 9; JInt 2] ->
             findIndex (UserStorage.has_id (Some id)) sample_records <> Return (Some i)) ->
          items' !! i = Some u).
Proof.
  apply (bulkUserOperation_sets_the_status (loaded_page noon_2024_03_15)
           (JObj [("operation", JStr "deactivate");
                  ("userIds", JArr [JInt 2; JInt 9; JInt 2])])
           false [JInt 2; JInt 9; JInt 2] sample_records []).
  - done.
  - reflexivity.
  - reflexivity.
  - vm_compute. reflexivity.
  - vm_compute. reflexivity.
  - exact sample_records_are_records.
  - exact sample_records_clonable.
Defined.

(** ** Searching *)

Lemma lower_ascii_idempotent (c : ascii) : JS.lower_ascii (JS.lower_ascii c) = JS.lower_ascii c.
Proof.
  unfold JS.lower_ascii.
  destruct ((65 <=? nat_of_ascii c)%nat && (nat_of_ascii c <=? 90)%nat) eqn:E.
  - apply andb_true_iff in E as [Hlo Hhi].
    apply Nat.leb_le in Hlo, Hhi.
    rewrite nat_ascii_embedding by lia.
    replace ((65 <=? nat_of_ascii c + 32)%nat && (nat_of_ascii c + 32 <=? 90)%nat)
      with false; [done |].
    symmetry. apply andb_false_iff. right. apply Nat.leb_gt. lia.
  - by rewrite E.
Qed.

Lemma toLowerCase_idempotent (s : string) :
  JS.toLowerCase (JS.toLowerCase s) = JS.toLowerCase s.
Proof. induction s as [| c s IH]; simpl; [done |]. by rewrite lower_ascii_idempotent, IH. Qed.

Lemma toLowerCase_empty (s : string) :
  String.eqb (JS.toLowerCase s) "" = String.eqb s "".
Proof. by destruct s. Qed.

(** The text search does not depend on the letter case of the query. *)
Theorem searchUsers_ignores_the_case_of_the_query
    (query : string) (filters : option json) (w : world) :
  UserStorage.searchUsers (JS.toLowerCase query) filters w
  = UserStorage.searchUsers query filters w.
Proof.
  unfold UserStorage.searchUsers.
  by rewrite toLowerCase_empty, toLowerCase_idempotent.
Qed.

Lemma filter_filter {A} (p q : A -> bool) (l : list A) :
  List.filter q (List.filter p l) = List.filter (fun x => p x && q x) l.
Proof.
  induction l as [| x rest IH]; simpl; [done |].
  destruct (p x); simpl; [destruct (q x) |]; by rewrite IH.
Qed.

Lemma filter_all {A} (p : A -> bool) (l : list A) :
  (forall x, p x = true) -> List.filter p l = l.
Proof.
  intros Hp. induction l as [| x rest IH]; simpl; [done |]. by rewrite Hp, IH.
Qed.

Lemma Forall_filter_bool {A} (P : A -> Prop) (p : A -> bool) (l : list A) :
  Forall P l -> Forall P (List.filter p l).
Proof.
  induction 1 as [| x rest Hx Hrest IH]; simpl; [done |].
  destruct (p x); [by constructor | done].
Qed.

Lemma apply_filters_run (filters : list (string * json)) :
  forall items : list json,
    Forall (fun u => u <> JNull) items ->
    UserStorage.apply_filters filters (JArr items)
    = Return (JArr (List.filter (passes filters) items)).
Proof.
  induction filters as [| [key value] rest IH]; intros items Hitems.
  - cbn [UserStorage.apply_filters]. unfold passes. cbn [forallb].
    by rewrite filter_all.
  - cbn [UserStorage.apply_filters]. destruct (JS.truthy value) eqn:Hvalue.
    + cbn [as_array obind].
      rewrite (filterM_run _ (fun u => JS.strict_eq (JS.prop u key) (Some value)) items).
      * cbn [obind]. rewrite IH by (by apply Forall_filter_bool).
        rewrite filter_filter. do 2 f_equal. apply filter_ext. intros u.
        unfold passes. cbn [forallb fst snd]. by rewrite Hvalue.
      * eapply Forall_impl; [exact Hitems |]. intros u Hu. cbn beta. by destruct u.
    + rewrite IH by done. do 2 f_equal. apply filter_ext. intros u.
      unfold passes. cbn [forallb fst snd]. by rewrite Hvalue.
Qed.

Lemma matches_query_run (searchTerm : string) (user : json) :
  searchable user ->
  UserStorage.matches_query searchTerm user = Return (text_matches searchTerm user).
Proof.
  intros [fields [name [email [-> [Hname [Hemail Hnotes]]]]]].
  unfold UserStorage.matches_query, text_matches. cbn [get_prop JS.prop obind].
  rewrite Hname, Hemail. cbn [call_toLowerCase obind].
  destruct (JS.includes searchTerm (JS.toLowerCase name)); [done |].
  destruct (JS.includes searchTerm (JS.toLowerCase email)); [done |].
  cbn [orb]. destruct (JS.lookup_field "notes" fields) as [[| b | q | s | l | f] |];
    cbn [JS.truthy_opt] in *; try (by rewrite Hnotes); try done.
  destruct (JS.truthy (JStr s)); done.
Qed.

(** X8.  On a collection of records whose names and addresses are strings,
    for a query and for names, addresses and notes of ASCII characters,
    [searchUsers] throws nothing, writes nothing and answers, in their
    stored order, exactly the users that match the query in their name,
    address or notes and that carry the value of every truthy filter. *)
Theorem searchUsers_selects
    (w : world) (query : string) (filters : list (string * json)) (items : list json) :
  user_collection w = Some items ->
  Forall searchable items ->
  ascii_text query = true ->
  Forall (fun u => ascii_value (JS.prop u "name") /\ ascii_value (JS.prop u "email")
                   /\ ascii_value (JS.prop u "notes")) items ->
  UserStorage.searchUsers query (Some (JObj filters)) w
  = (w, Return (JArr (List.filter (wanted query filters) items)))
  /\ UserStorage.searchUsers query None w
     = (w, Return (JArr (List.filter (wanted query []) items))).
Proof.
  intros Husers Hitems _ _. apply user_collection_Some in Husers.
  assert (Hnonnull : Forall (fun u => u <> JNull) items).
  { eapply Forall_impl; [exact Hitems |]. by intros u [fields [? [? [-> _]]]]. }
  assert (Htext : (if negb (String.eqb query "") then
                     items0 <~ as_array (JArr items) ;;
                     kept <~ filterM (UserStorage.matches_query (JS.toLowerCase query))
                               items0 ;;
                     Return (JArr kept)
                   else Return (JArr items))
                  = Return (JArr (List.filter
                                    (fun u => String.eqb query ""
                                              || text_matches (JS.toLowerCase query) u)
                                    items))).
  { destruct (String.eqb query ""); cbn [negb orb].
    - by rewrite filter_all.
    - cbn [as_array obind].
      rewrite (filterM_run _ (text_matches (JS.toLowerCase query)) items); [done |].
      eapply Forall_impl; [exact Hitems |]. intros u Hu. by apply matches_query_run. }
  unfold UserStorage.searchUsers, UserStorage.getUsers. step. rewrite Husers.
  unfold lift. rewrite Htext. cbn [obind JS.own_props]. split.
  - rewrite apply_filters_run by (by apply Forall_filter_bool).
    by rewrite filter_filter.
  - do 3 f_equal. apply filter_ext. intros u. unfold wanted, passes. cbn [forallb].
    by rewrite andb_true_r.
Qed.

Lemma office_searchable : Forall searchable office.
Proof. repeat constructor; do 3 eexists; repeat split; reflexivity. Qed.

Example searchUsers_selects_witness :
  UserStorage.searchUsers "DEMO" (Some (JObj [("role", JStr "admin"); ("status", JNull)]))
    (office_page noon_2024_03_15)
  = (office_page noon_2024_03_15,
     Return (JArr (List.filter
                     (wanted "DEMO" [("role", JStr "admin"); ("status", JNull)])
                     office)))
  /\ UserStorage.searchUsers "DEMO" None (office_page noon_2024_03_15)
     = (office_page noon_2024_03_15,
        Return (JArr (List.filter (wanted "DEMO" []) office))).
Proof.
  apply (searchUsers_selects (office_page noon_2024_03_15) "DEMO"
           [("role", JStr "admin"); ("status", JNull)] office).
  - vm_compute. reflexivity.
  - exact office_searchable.
  - reflexivity.
  - repeat constructor.
Defined.

(** ** Exporting through the service *)

Lemma searchUsers_by_filters (w : world) (filters : json) (items : list json) :
  user_collection w = Some items ->
  Forall (fun u => u <> JNull) items ->
  filters <> JNull ->
  UserStorage.searchUsers "" (Some filters) w
  = (w, Return (JArr (List.filter (passes (JS.own_props filters)) items))).
Proof.
  intros Husers Hitems Hfilters. apply user_collection_Some in Husers.
  unfold UserStorage.searchUsers, UserStorage.getUsers. step. rewrite Husers.
  unfold lift. change (String.eqb "" "") with true. cbn [negb obind].
  rewrite <- (apply_filters_run (JS.own_props filters) items Hitems).
  by destruct filters.
Qed.

(** X18.  [API.exportData({ format, filters })] for a request that is a
    record and whose [filters], when truthy, are a record, on a stored
    collection of records: it writes nothing and answers the envelope
    whose [data] are the stored users that carry the value of every truthy
    filter, all of them when [filters] is falsy or absent; [recordCount]
    is their number and [generatedAt] the instant of the call. *)
Theorem API_exportData_applies_the_filters
    (w : world) (data : json) (items : list json) :
  is_record data ->
  (forall filters : json,
     JS.prop data "filters" = Some filters -> JS.truthy filters = true ->
     is_record filters) ->
  user_collection w = Some items ->
  Forall is_record items ->
  let users :=
    match JS.prop data "filters" with
    | Some filters =>
        if JS.truthy filters then List.filter (passes (JS.own_props filters)) items
        else items
    | None => items
    end in
  API.exportData data w
  = (w, Return (API.success (Some MESSAGES.DATA_EXPORTED)
                  (Some (JObj (API.literal
                     [("format", JS.prop data "format");
                      ("recordCount", Some (JInt (Z.of_nat (length users))));
                      ("generatedAt", Some (JStr (Date.toISOString (clock w))));
                      ("data", Some (JArr users))]))))).
Proof.
  intros [fields [-> _]] _ Husers Hrecords users.
  set (data := JObj fields) in *.
  assert (Hitems := is_record_not_null _ Hrecords).
  assert (Hget : forall k, get_prop data k = Return (JS.prop data k)) by done.
  assert (Hstored : UserStorage.getUsers w = (w, Return (JArr items))).
  { pose proof (user_collection_Some w items Husers) as Hdefault.
    unfold UserStorage.getUsers, Storage.get. by rewrite <- Hdefault. }
  unfold API.exportData, API.destructure. rewrite !Hget. step.
  unfold bind at 1. rewrite Hstored. cbv iota.
  subst users. destruct (JS.prop data "filters") as [filters |] eqn:Hfilters;
    cbn [JS.truthy_opt].
  - destruct (JS.truthy filters) eqn:Htruthy.
    + unfold bind at 1. rewrite (searchUsers_by_filters w filters items Husers Hitems).
      * cbv iota. cbn [get_prop JS.prop]. by step.
      * intros ->. done.
    + by step.
  - by step.
Qed.

Example API_exportData_applies_the_filters_witness :
  API.exportData (JObj [("format", JStr "csv");
                        ("filters", JObj [("role", JStr "admin"); ("status", JStr "")])])
    (loaded_page noon_2024_03_15)
  = (loaded_page noon_2024_03_15,
     Return (API.success (Some MESSAGES.DATA_EXPORTED)
               (Some (JObj [("format", JStr "csv");
                            ("recordCount", JInt 2);
                            ("generatedAt", JStr "2024-03-15T12:00:00.000Z");
                            ("data",
                             JArr (List.filter
                                     (fun u => JS.strict_eq (JS.prop u "role")
                                                 (Some (JStr "admin")))
                                     sample_records))])))).
Proof.
  refine (eq_trans
            (API_exportData_applies_the_filters (loaded_page noon_2024_03_15)
               (JObj [("format", JStr "csv");
                      ("filters", JObj [("role", JStr "admin"); ("status", JStr "")])])
               sample_records _ _ _ _) _).
  - eexists. split; [reflexivity |]. apply (bool_decide_unpack _). vm_compute. reflexivity.
  - intros filters [= <-] _. eexists. split; [reflexivity |].
    apply (bool_decide_unpack _). vm_compute. reflexivity.
  - vm_compute. reflexivity.
  - exact sample_records_are_records.
  - vm_compute. reflexivity.
Defined.

(** ** Statistics *)

Lemma filter_disjoint_length {A} (p q : A -> bool) (l : list A) :
  (forall x, p x = true -> q x = false) ->
  (length (List.filter p l) + length (List.filter q l) <= length l)%nat.
Proof.
  intros Hpq. induction l as [| x rest IH]; simpl; [done |].
  destruct (p x) eqn:Hp.
  - rewrite (Hpq x Hp). simpl. lia.
  - destruct (q x); simpl; lia.
Qed.

Lemma strict_eq_one_text (v : option json) (a b : string) :
  a <> b ->
  JS.strict_eq v (Some (JStr a)) = true -> JS.strict_eq v (Some (JStr b)) = false.
Proof.
  intros Hne. destruct v as [[| x | q | s | l | f] |]; simpl; try done.
  intros Ha. apply String.eqb_eq in Ha. subst s. by apply String.eqb_neq.
Qed.

(** X9.  [getUserStats()] writes nothing and, on a collection without null
    entries whose [registeredDate] is absent, a text, a whole number, a
    boolean or null, never throws.  [total] is the size of the
    collection; no user is counted both as active and as inactive, nor
    both as administrator and as regular user, so each pair of counts
    stays within [total], as does [recentRegistrations]. *)
Theorem getUserStats_counts_stay_within_total (w : world) (items : list json) :
  user_collection w = Some items ->
  Forall (fun u => u <> JNull) items ->
  Forall (fun u => date_argument (JS.prop u "registeredDate") = true) items ->
  exists active inactive admins regularUsers recent : nat,
    UserStorage.getUserStats w
    = (w, Return (JObj [("total", JInt (Z.of_nat (length items)));
                        ("active", JInt (Z.of_nat active));
                        ("inactive", JInt (Z.of_nat inactive));
                        ("admins", JInt (Z.of_nat admins));
                        ("regularUsers", JInt (Z.of_nat regularUsers));
                        ("recentRegistrations", JInt (Z.of_nat recent))]))
    /\ (active + inactive <= length items)%nat
    /\ (admins + regularUsers <= length items)%nat
    /\ (recent <= length items)%nat.
Proof.
  intros Husers Hnonnull _. apply user_collection_Some in Husers.
  set (has f text := fun u => JS.strict_eq (JS.prop u f) (Some (JStr text))).
  set (recently := fun u =>
         match Date.of_value (host w) (JS.prop u "registeredDate"),
               Date.setMonth (host w) (clock w) (Date.getMonth (host w) (clock w) - 1) with
         | Some regDate, Some monthAgo => monthAgo <? regDate
         | _, _ => false
         end).
  exists (length (List.filter (has "status" "active") items)),
         (length (List.filter (has "status" "inactive") items)),
         (length (List.filter (has "role" "admin") items)),
         (length (List.filter (has "role" "user") items)),
         (length (List.filter recently items)).
  split; [| split; [| split]].
  - unfold UserStorage.getUserStats, UserStorage.getUsers. step. rewrite Husers.
    cbn [as_array obind].
    rewrite (count_run _ (has "status" "active")),
      (count_run _ (has "status" "inactive")),
      (count_run _ (has "role" "admin")),
      (count_run _ (has "role" "user")),
      (count_run _ recently);
      try (eapply Forall_impl; [exact Hnonnull |]; intros u Hu; cbn beta;
           by apply field_is_run).
    + reflexivity.
    + eapply Forall_impl; [exact Hnonnull |]. intros u Hu. cbn beta.
      unfold UserStorage.registered_recently. by destruct u.
  - apply filter_disjoint_length. intros u. by apply strict_eq_one_text.
  - apply filter_disjoint_length. intros u. by apply strict_eq_one_text.
  - apply filter_length_le.
Qed.

Example getUserStats_counts_stay_within_total_witness :
  exists active inactive admins regularUsers recent : nat,
    UserStorage.getUserStats (loaded_page noon_2024_03_15)
    = (loaded_page noon_2024_03_15,
       Return (JObj [("total", JInt (Z.of_nat (length sample_records)));
                     ("active", JInt (Z.of_nat active));
                     ("inactive", JInt (Z.of_nat inactive));
                     ("admins", JInt (Z.of_nat admins));
                     ("regularUsers", JInt (Z.of_nat regularUsers));
                     ("recentRegistrations", JInt (Z.of_nat recent))]))
    /\ (active + inactive <= length sample_records)%nat
    /\ (admins + regularUsers <= length sample_records)%nat
    /\ (recent <= length sample_records)%nat.
Proof.
  apply (getUserStats_counts_stay_within_total (loaded_page noon_2024_03_15) sample_records).
  - vm_compute. reflexivity.
  - repeat constructor; discriminate.
  - repeat constructor.
Defined.

(** ** Sessions *)

(** What [setCurrentUser] leaves under the two session keys, whatever
    becomes of the update of [lastLogin] that follows. *)
Lemma setCurrentUser_records (user : json) (w : world) :
  exists sessionId : string,
    stored (state_of (SessionStorage.setCurrentUser user w)) STORAGE_KEYS.CURRENT_USER
    = Some (JObj [("user", user);
                  ("loginTime", JStr (Date.toISOString (clock w)));
                  ("lastActivity", JStr (Date.toISOString (clock w)));
                  ("sessionId", JStr sessionId)])
    /\ stored (state_of (SessionStorage.setCurrentUser user w)) STORAGE_KEYS.SESSION_DATA
       = Some (JObj [("isLoggedIn", JBool true);
                     ("sessionStart", JStr (Date.toISOString (clock w)));
                     ("sessionId", JStr sessionId)]).
Proof.
  unfold SessionStorage.setCurrentUser, SessionStorage.generateSessionId.
  step. eexists.
  match goal with
  | |- stored (state_of (?c ?w0)) _ = _ /\ _ =>
      assert (Hframe : forall key, key <> STORAGE_KEYS.USER_DATA ->
                                   key <> STORAGE_KEYS.SYSTEM_SETTINGS ->
                                   key <> STORAGE_KEYS.LOGS_DATA -> preserves key c)
  end.
  { intros key Hu Hs Hl.
    apply preserves_bind; [by apply constructor_temporary_preserves | intros ?].
    apply preserves_bind; [auto with frame | intros ?].
    apply preserves_bind; [by apply updateUser_preserves | auto with frame]. }
  split.
  - rewrite Hframe by done. rewrite stored_with_storage_insert_ne by discriminate.
    apply stored_with_storage_insert_eq.
  - rewrite Hframe by done. apply stored_with_storage_insert_eq.
Qed.

Lemma session_after_setCurrentUser (user : json) (w : world) :
  SessionStorage.getCurrentUser (state_of (SessionStorage.setCurrentUser user w))
  = (state_of (SessionStorage.setCurrentUser user w), Return (Some user))
  /\ SessionStorage.isLoggedIn (state_of (SessionStorage.setCurrentUser user w))
     = (state_of (SessionStorage.setCurrentUser user w), Return (Some (JBool true))).
Proof.
  destruct (setCurrentUser_records user w) as [sessionId [Hcurrent Hsession]]. split.
  - unfold SessionStorage.getCurrentUser. step. by rewrite Hcurrent.
  - unfold SessionStorage.isLoggedIn. step. by rewrite Hsession.
Qed.

(** X10.  Once [setCurrentUser(user)] has run, [getCurrentUser()] answers the
    user and [isLoggedIn()] answers true, even when the update of the
    user's [lastLogin] threw. *)
Theorem setCurrentUser_opens_the_session (user : json) (w : world) :
  exists w' : world,
    w' = state_of (SessionStorage.setCurrentUser user w)
    /\ SessionStorage.getCurrentUser w' = (w', Return (Some user))
    /\ SessionStorage.isLoggedIn w' = (w', Return (Some (JBool true)))
    /\ logged_in w'
    /\ ~ logged_out w'.
Proof.
  destruct (session_after_setCurrentUser user w) as [Hcurrent Hin].
  eexists. split; [reflexivity |]. split; [exact Hcurrent |]. split; [exact Hin |].
  split.
  - exists (Some (JBool true)). unfold value_of. by rewrite Hin.
  - intros [v [Hv Hfalse]]. unfold value_of in Hv. rewrite Hin in Hv.
    cbn [snd] in Hv. by simplify_eq.
Qed.

(** X11.  [API.logout()] always succeeds.  It removes the two session keys and
    nothing else, so that afterwards nobody is logged in, there is no
    current user, and the session counts as expired for every timeout. *)
Theorem logout_ends_the_session (w : world) (timeoutMinutes : Q) :
  exists w' : world,
    API.logout w = (w', Return (API.success (Some MESSAGES.LOGOUT) None))
    /\ logged_out w'
    /\ SessionStorage.getCurrentUser w' = (w', Return (Some JNull))
    /\ SessionStorage.isSessionExpired timeoutMinutes w' = (w', Return true)
    /\ (forall key, key <> STORAGE_KEYS.CURRENT_USER -> key <> STORAGE_KEYS.SESSION_DATA ->
                    stored w' key = stored w key).
Proof.
  unfold API.logout, SessionStorage.logout. rewrite bind_bind.
  do 2 (rewrite bind_remove; proj). step. eexists. split; [reflexivity |].
  set (w' := World _ _ _ _ _ _).
  assert (Hcurrent : stored w' STORAGE_KEYS.CURRENT_USER = None).
  { unfold w'. rewrite stored_delete, lookup_delete_key. by repeat case_bool_decide. }
  assert (Hsession : stored w' STORAGE_KEYS.SESSION_DATA = None).
  { unfold w'. rewrite stored_delete. by case_bool_decide. }
  split; [| split; [| split; [| ]]].
  - exists (Some JNull). unfold value_of, SessionStorage.isLoggedIn. step.
    by rewrite Hsession.
  - unfold SessionStorage.getCurrentUser. step. by rewrite Hcurrent.
  - unfold SessionStorage.isSessionExpired. step. by rewrite Hcurrent.
  - intros key Hc Hs. unfold w'. rewrite stored_delete, lookup_delete_key.
    by rewrite !bool_decide_eq_false_2.
Qed.

(** X12.  With a session record stored, [updateActivity()] stamps it with the
    instant of the call and keeps its user: examined at a later instant,
    the session is expired exactly when the minutes elapsed since that
    call exceed [timeoutMinutes], which for a timeout of a whole number of
    minutes is when more than that many minutes' milliseconds have
    passed. *)
Theorem updateActivity_restarts_the_timeout
    (w : world) (fields : list (string * json)) (later : Z) (timeoutMinutes : Q) :
  stored w STORAGE_KEYS.CURRENT_USER = Some (JObj fields) ->
  four_digit_year (clock w) ->
  exists w' : world,
    SessionStorage.updateActivity w = (w', Return tt)
    /\ value_of (SessionStorage.getCurrentUser w') = value_of (SessionStorage.getCurrentUser w)
    /\ (forall key, key <> STORAGE_KEYS.CURRENT_USER -> stored w' key = stored w key)
    /\ value_of (SessionStorage.isSessionExpired timeoutMinutes (at_time later w'))
       = Return (SessionStorage.Qgt_bool (minutes_elapsed (clock w) later) timeoutMinutes)
    /\ (forall timeout : Z,
          (timeoutMinutes == inject_Z timeout)%Q ->
          Z.abs timeout <= 2 ^ 31 ->
          value_of (SessionStorage.isSessionExpired timeoutMinutes (at_time later w'))
          = Return (60000 * timeout <? later - clock w)).
Proof.
  intros Hstored [Hyear Hclip].
  unfold SessionStorage.updateActivity. step. rewrite Hstored.
  cbn [default from_option id JS.truthy]. step. eexists. split; [reflexivity |].
  split; [| split].
  - unfold SessionStorage.getCurrentUser, value_of. step.
    rewrite stored_with_storage_insert_eq, Hstored.
    cbn [default from_option id JS.truthy bind ret snd JS.prop].
    by rewrite lookup_set_field_ne.
  - intros key Hne. by rewrite stored_with_storage_insert_ne.
  - match goal with
    | |- context [SessionStorage.isSessionExpired _ ?w1] =>
        assert (Hrun : SessionStorage.isSessionExpired timeoutMinutes w1
                       = (w1, Return (SessionStorage.Qgt_bool
                                        (minutes_elapsed (clock w) later) timeoutMinutes)))
    end.
    { erewrite (isSessionExpired_run _ timeoutMinutes _ (clock w)).
      + done.
      + unfold stored, at_time. proj. apply lookup_insert_eq.
      + done.
      + cbn [JS.prop]. rewrite lookup_set_field_eq. cbn [Date.of_value].
        by apply parse_toISOString. }
    rewrite Hrun. split; [done |]. intros timeout Hwhole Hbound.
    unfold value_of. cbn [snd].
    by rewrite (whole_timeout_exceeded _ _ timeout _ Hwhole Hbound).
Qed.

(** Without a session record [updateActivity()] does nothing: it does not
    open a session. *)
Lemma updateActivity_without_session (w : world) :
  stored w STORAGE_KEYS.CURRENT_USER = None ->
  SessionStorage.updateActivity w = (w, Return tt).
Proof.
  intros Hnone. unfold SessionStorage.updateActivity. step. by rewrite Hnone.
Qed.

Example updateActivity_restarts_the_timeout_witness :
  exists w' : world,
    SessionStorage.updateActivity ten_minutes_in = (w', Return tt)
    /\ value_of (SessionStorage.getCurrentUser w')
       = value_of (SessionStorage.getCurrentUser ten_minutes_in)
    /\ value_of (SessionStorage.isSessionExpired 30
                   (at_time (noon_2024_03_15 + 2400000) w'))
       = Return (60000 * 30 <? noon_2024_03_15 + 2400000 - clock ten_minutes_in).
Proof.
  edestruct (updateActivity_restarts_the_timeout ten_minutes_in)
    with (later := noon_2024_03_15 + 2400000) (timeoutMinutes := 30%Q)
    as [w' [Hrun [Huser [_ [_ Hwhole]]]]].
  - vm_compute. reflexivity.
  - split; vm_compute; [split |]; discriminate.
  - exists w'. split; [exact Hrun |]. split; [exact Huser |].
    apply (Hwhole 30); [reflexivity | vm_compute; discriminate].
Defined.

Example session_expires_after_timeout_witness :
  value_of (SessionStorage.isSessionExpired 30
              (at_time (noon_2024_03_15 + 1800001)
                 (state_of (SessionStorage.setCurrentUser eva_stored
                              (loaded_page noon_2024_03_15)))))
  = Return (60000 * 30 <? noon_2024_03_15 + 1800001 - clock (loaded_page noon_2024_03_15)).
Proof.
  apply (proj2 (session_expires_after_timeout eva_stored (loaded_page noon_2024_03_15)
                  (noon_2024_03_15 + 1800001) 30
                  ltac:(split; vm_compute; [split |]; discriminate)) 30).
  - reflexivity.
  - vm_compute. discriminate.
Defined.

(** ** The session found when the page loads *)

(** X14.  [checkExistingSession()] on a page whose session was opened by
    [setCurrentUser] at an earlier instant: when more than thirty minutes
    have passed it removes the two session keys and recognises nobody;
    otherwise it changes nothing and recognises the user of the session,
    if that is truthy. *)
Theorem checkExistingSession_keeps_a_live_session_only
    (user : json) (w : world) (later : Z) :
  four_digit_year (clock w) ->
  exists w' : world,
    AuthManager.checkExistingSession
      (at_time later (state_of (SessionStorage.setCurrentUser user w)))
    = (w', Return (if (later - clock w <=? 30 * 60000) && JS.truthy user
                   then Some user else None))
    /\ (later - clock w <= 30 * 60000 ->
        w' = at_time later (state_of (SessionStorage.setCurrentUser user w)))
    /\ (30 * 60000 < later - clock w ->
        stored w' STORAGE_KEYS.CURRENT_USER = None
        /\ stored w' STORAGE_KEYS.SESSION_DATA = None
        /\ logged_out w').
Proof.
  intros Hclock.
  destruct (setCurrentUser_records user w) as [sessionId [Hcurrent Hsession]].
  set (w1 := at_time later (state_of (SessionStorage.setCurrentUser user w))) in *.
  assert (Hrun : SessionStorage.isSessionExpired 30 w1
                 = (w1, Return (SessionStorage.Qgt_bool
                                  (minutes_elapsed (clock w) later) 30))).
  { destruct (setCurrentUser_session user w (host w1) Hclock)
      as [session [Hs [Htruthy Hdate]]].
    by rewrite (isSessionExpired_run w1 30 session (clock w)). }
  assert (Hcmp : SessionStorage.Qgt_bool (minutes_elapsed (clock w) later) 30
                 = negb (later - clock w <=? 30 * 60000)).
  { rewrite (whole_timeout_exceeded _ _ 30 30); [| reflexivity | vm_compute; discriminate].
    rewrite Z.leb_antisym. by rewrite negb_involutive. }
  unfold AuthManager.checkExistingSession.
  unfold SessionStorage.isLoggedIn at 1. step.
  change (stored w1 STORAGE_KEYS.SESSION_DATA)
    with (stored (state_of (SessionStorage.setCurrentUser user w)) STORAGE_KEYS.SESSION_DATA).
  rewrite Hsession. cbn [default from_option id JS.truthy JS.prop JS.lookup_field
                           String.eqb Ascii.eqb Bool.eqb JS.truthy_opt].
  step. unfold SessionStorage.isSessionExpired_default.
  cbn [JS.truthy_opt JS.truthy]. rewrite bind_bind. unfold bind at 1. rewrite Hrun, Hcmp. step.
  rewrite negb_involutive.
  destruct (later - clock w <=? 30 * 60000) eqn:E.
  - unfold SessionStorage.getCurrentUser. step.
    change (stored w1 STORAGE_KEYS.CURRENT_USER)
      with (stored (state_of (SessionStorage.setCurrentUser user w))
              STORAGE_KEYS.CURRENT_USER).
    rewrite Hcurrent. cbn [default from_option id JS.truthy JS.prop JS.lookup_field
                             String.eqb Ascii.eqb Bool.eqb JS.truthy_opt andb].
    step. exists w1. split; [done |]. split; [done |].
    apply Z.leb_le in E. lia.
  - unfold SessionStorage.logout. rewrite bind_bind.
    do 2 (rewrite bind_remove; proj). step. eexists. split; [reflexivity |].
    split; [apply Z.leb_gt in E; lia |]. intros _.
    set (w' := World _ _ _ _ _ _).
    assert (Hs : stored w' STORAGE_KEYS.SESSION_DATA = None).
    { unfold w'. rewrite stored_delete. by case_bool_decide. }
    split; [| split; [exact Hs |]].
    + unfold w'. rewrite stored_delete, lookup_delete_key. by repeat case_bool_decide.
    + exists (Some JNull). unfold value_of, SessionStorage.isLoggedIn. step.
      by rewrite Hs.
Qed.

Example checkExistingSession_witness :
  exists w' : world,
    AuthManager.checkExistingSession
      (at_time (noon_2024_03_15 + 1800001)
         (state_of (SessionStorage.setCurrentUser eva_stored (loaded_page noon_2024_03_15))))
    = (w', Return (if (noon_2024_03_15 + 1800001 - clock (loaded_page noon_2024_03_15)
                       <=? 30 * 60000) && JS.truthy eva_stored
                   then Some eva_stored else None))
    /\ (noon_2024_03_15 + 1800001 - clock (loaded_page noon_2024_03_15) <= 30 * 60000 ->
        w' = at_time (noon_2024_03_15 + 1800001)
               (state_of (SessionStorage.setCurrentUser eva_stored
                            (loaded_page noon_2024_03_15))))
    /\ (30 * 60000 < noon_2024_03_15 + 1800001 - clock (loaded_page noon_2024_03_15) ->
        stored w' STORAGE_KEYS.CURRENT_USER = None
        /\ stored w' STORAGE_KEYS.SESSION_DATA = None
        /\ logged_out w').
Proof.
  apply (checkExistingSession_keeps_a_live_session_only eva_stored
           (loaded_page noon_2024_03_15) (noon_2024_03_15 + 1800001)).
  split; vm_compute; [split |]; discriminate.
Defined.

(** ** Logging in *)

Lemma strict_eq_text (v : option json) (s : string) :
  JS.strict_eq v (Some (JStr s)) = true <-> v = Some (JStr s).
Proof.
  destruct v as [[| b | q | x | l | f] |]; simpl; try (split; [done | intros [=]]).
  rewrite String.eqb_eq. split; [by intros -> | by intros [= ->]].
Qed.

(** X15.  For an address other than that of the demo administrator, [login]
    never looks at the password: two requests with the same address have
    the same outcome and the same effect, whatever their passwords. *)
Theorem login_ignores_the_password (first second : json) (w : world) :
  first <> JNull -> second <> JNull ->
  JS.prop first "email" = JS.prop second "email" ->
  JS.prop first "email" <> Some (JStr "admin@demo.com") ->
  API.login first w = API.login second w.
Proof.
  intros Hfirst Hsecond Hsame Hother.
  assert (Hget : forall c, c <> JNull -> forall k, get_prop c k = Return (JS.prop c k))
    by (intros c Hc k; by destruct c).
  unfold API.login, API.destructure.
  rewrite !(Hget first Hfirst), !(Hget second Hsecond). step.
  rewrite <- Hsame.
  assert (Hdemo : JS.strict_eq (JS.prop first "email") (Some (JStr "admin@demo.com")) = false).
  { apply not_true_is_false. by rewrite strict_eq_text. }
  by rewrite Hdemo.
Qed.

Example login_ignores_the_password_witness :
  API.login (JObj [("email", JStr "maria@demo.com"); ("password", JStr "secret")])
    (loaded_page noon_2024_03_15)
  = API.login (JObj [("email", JStr "maria@demo.com"); ("password", JStr "")])
      (loaded_page noon_2024_03_15).
Proof.
  apply (login_ignores_the_password
           (JObj [("email", JStr "maria@demo.com"); ("password", JStr "secret")])
           (JObj [("email", JStr "maria@demo.com"); ("password", JStr "")])
           (loaded_page noon_2024_03_15)); [done | done | reflexivity |].
  vm_compute. discriminate.
Defined.

(** X16.  Over ASCII addresses, a login for an address other than the demo
    administrator's fails with the 401 error and changes nothing when no
    stored user has the address, or when the first stored user that has
    it is not active. *)
Theorem login_rejects_unknown_and_inactive_users
    (w : world) (credentials : json) (items : list json) (found : option nat) :
  is_record credentials ->
  JS.prop credentials "email" <> Some (JStr "admin@demo.com") ->
  ascii_value (JS.prop credentials "email") ->
  Forall (fun u => ascii_value (JS.prop u "email")) items ->
  user_collection w = Some items ->
  findIndex (UserStorage.has_email (JS.prop credentials "email")) items = Return found ->
  (forall i user, found = Some i -> items !! i = Some user ->
                  JS.prop user "status" <> Some (JStr "active")) ->
  API.login credentials w = (w, Throw (APIError MESSAGES.LOGIN_FAILED 401)).
Proof.
  intros [cfields [-> _]] Hother _ _ Husers Hfind Hinactive.
  set (credentials := JObj cfields) in *.
  assert (Hget : forall k, get_prop credentials k = Return (JS.prop credentials k))
    by done.
  unfold API.login, API.destructure. rewrite !Hget. step.
  assert (Hdemo : JS.strict_eq (JS.prop credentials "email")
                    (Some (JStr "admin@demo.com")) = false).
  { apply not_true_is_false. by rewrite strict_eq_text. }
  rewrite Hdemo. cbn [andb]. unfold bind at 1.
  rewrite (getUserByEmail_run _ w items Husers), Hfind.
  destruct found as [i |]; [| done].
  apply findIndex_Some in Hfind as [[user [Huser _]] _].
  rewrite Huser. cbn [default from_option id].
  assert (Hstatus : JS.strict_eq (JS.prop user "status") (Some (JStr "active")) = false).
  { apply not_true_is_false. rewrite strict_eq_text. by apply (Hinactive i user). }
  destruct (JS.truthy user) eqn:Htruthy; [| done].
  by rewrite Hstatus, andb_false_r.
Qed.

Example login_rejects_unknown_and_inactive_users_witness :
  API.login (JObj [("email", JStr "Carlos@Demo.com"); ("password", JStr "demo123")])
    (loaded_page noon_2024_03_15)
  = (loaded_page noon_2024_03_15, Throw (APIError MESSAGES.LOGIN_FAILED 401)).
Proof.
  apply (login_rejects_unknown_and_inactive_users (loaded_page noon_2024_03_15)
           (JObj [("email", JStr "Carlos@Demo.com"); ("password", JStr "demo123")])
           sample_records (Some 2%nat)).
  - eexists. split; [reflexivity |]. apply (bool_decide_unpack _). vm_compute. reflexivity.
  - vm_compute. discriminate.
  - reflexivity.
  - repeat constructor.
  - vm_compute. reflexivity.
  - vm_compute. reflexivity.
  - intros i user [= <-] [= <-]. vm_compute. discriminate.
Defined.

(** ** Creating users through the API *)

(** X17.  A registration that names no address, on a collection whose first
    user has one, throws a [TypeError], not an [APIError], and stores
    nothing. *)
Theorem register_without_an_address
    (w : world) (fields : list (string * json)) (first : json) (rest : list json)
    (address : string) :
  JS.lookup_field "email" fields = None ->
  user_collection w = Some (first :: rest) ->
  JS.prop first "email" = Some (JStr address) ->
  API.register (JObj fields) w = (w, Throw TypeError).
Proof.
  intros Hemail Husers Haddress.
  assert (Hfirst : UserStorage.has_email None first = Throw TypeError).
  { unfold UserStorage.has_email.
    destruct first; cbn [get_prop obind]; try discriminate;
      by rewrite Haddress. }
  unfold API.register, API.destructure. cbn [get_prop JS.prop]. rewrite Hemail. step.
  unfold bind at 1. rewrite (getUserByEmail_run None w (first :: rest) Husers).
  cbn [findIndex]. by rewrite Hfirst.
Qed.

Example register_without_an_address_witness :
  API.register (JObj [("name", JStr "Eva")]) (loaded_page noon_2024_03_15)
  = (loaded_page noon_2024_03_15, Throw TypeError).
Proof.
  eapply (register_without_an_address (loaded_page noon_2024_03_15)
            [("name", JStr "Eva")]).
  - reflexivity.
  - vm_compute. reflexivity.
  - vm_compute. reflexivity.
Defined.

(** A registration that names no address and can be cloned succeeds on
    an empty collection: the address is looked up in no record, and an
    active user without address is stored. *)
Theorem register_without_an_address_on_an_empty_collection
    (w : world) (fields : list (string * json)) (entries : list json) :
  JS.lookup_field "email" fields = None ->
  NoDup (map fst fields) ->
  clonable (JObj fields) = true ->
  user_collection w = Some [] ->
  audit_log w = Some entries ->
  exists (user : json) (w' : world),
    API.register (JObj fields) w
    = (w', Return (API.success (Some MESSAGES.USER_CREATED)
                     (Some (JObj [("user", user)]))))
    /\ user_collection w' = Some [user]
    /\ JS.prop user "email" = None
    /\ JS.prop user "status" = Some (JStr "active").
Proof.
  intros Hemail Hnd Hclone Husers Hlog.
  assert (Hgiven : clonable_opt
                     (Some (JObj (UserStorage.set_fields (JS.spread [] (Some (JObj fields)))
                                    [("status", JStr "active")]))) = true).
  { apply (clonable_set_fields _ [("status", JStr "active")]); [by repeat constructor |].
    by apply clonable_spread. }
  unfold API.register, API.destructure. cbn [get_prop JS.prop]. rewrite Hemail. step.
  unfold bind at 1. rewrite (getUserByEmail_run None w [] Husers).
  cbn [findIndex JS.truthy]. unfold bind at 1.
  rewrite (createUser_run _ w [] entries Husers Hlog) by (by apply clonable_newUser).
  step.
  eexists; eexists. split; [reflexivity |].
  split; [apply user_collection_after |].
  cbn [JS.prop]. split.
  - lookup_literal. rewrite lookup_spread_other; [done |].
    cbn [from_option JS.own_props]. apply lookup_field_None.
    rewrite lookup_set_field_ne by done. by rewrite spread_record.
  - lookup_literal. apply lookup_spread_named.
    + apply (set_field_NoDup "status"). apply spread_NoDup. constructor.
    + apply lookup_field_Some.
      * apply (set_field_NoDup "status"). apply spread_NoDup. constructor.
      * cbn [JS.own_props]. apply lookup_set_field_eq.
Qed.

Example register_without_an_address_on_an_empty_collection_witness :
  exists (user : json) (w' : world),
    API.register (JObj [("name", JStr "Eva")]) empty_collection_page
    = (w', Return (API.success (Some MESSAGES.USER_CREATED)
                     (Some (JObj [("user", user)]))))
    /\ user_collection w' = Some [user]
    /\ JS.prop user "email" = None
    /\ JS.prop user "status" = Some (JStr "active").
Proof.
  apply (register_without_an_address_on_an_empty_collection empty_collection_page
           [("name", JStr "Eva")] []).
  - reflexivity.
  - apply (bool_decide_unpack _). vm_compute. reflexivity.
  - reflexivity.
  - vm_compute. reflexivity.
  - vm_compute. reflexivity.
Defined.

(** X19.  [POST /api/users] with data that can be cloned, over ASCII
    addresses: when a stored user has the address of the new user, in any
    letter case, [createUser] fails with the 409 error and changes
    nothing; otherwise it appends the record that the repository builds
    from the data as given, without setting a status. *)
Theorem API_createUser_rejects_a_known_address
    (w : world) (userData : json) (items entries : list json) (found : option nat) :
  is_record userData ->
  clonable userData = true ->
  ascii_value (JS.prop userData "email") ->
  Forall (fun u => ascii_value (JS.prop u "email")) items ->
  user_collection w = Some items ->
  audit_log w = Some entries ->
  findIndex (UserStorage.has_email (JS.prop userData "email")) items = Return found ->
  match found with
  | Some _ => API.createUser userData w = (w, Throw (APIError MESSAGES.USER_EXISTS 409))
  | None =>
      exists w' : world,
        API.createUser userData w
        = (w', Return (API.success (Some MESSAGES.USER_CREATED)
                         (Some (JObj [("user",
                            JObj (UserStorage.newUser (nextId w) (Some userData)
                                    (clock w)))]))))
        /\ user_collection w'
           = Some (items ++ [JObj (UserStorage.newUser (nextId w) (Some userData)
                                     (clock w))])
  end.
Proof.
  intros Hrecord Hclone _ _ Husers Hlog Hfind.
  assert (Hget : get_prop userData "email" = Return (JS.prop userData "email")).
  { by destruct Hrecord as [fields [-> _]]. }
  destruct found as [i |];
    unfold API.createUser, API.destructure; rewrite Hget; step; unfold bind at 1;
    rewrite (getUserByEmail_run _ w items Husers), Hfind.
  - apply findIndex_Some in Hfind as [[x [Hx Hpx]] _].
    rewrite Hx. cbn [default from_option id].
    rewrite (has_email_true _ x Hpx). by rewrite (has_email_true _ x Hpx).
  - cbn [JS.truthy]. unfold bind at 1.
    rewrite (createUser_run _ w items entries Husers Hlog)
      by (by apply clonable_newUser).
    step.
    eexists. split; [reflexivity |]. apply user_collection_after.
Qed.

Example API_createUser_rejects_a_known_address_witness :
  API.createUser juan_again (loaded_page noon_2024_03_15)
  = (loaded_page noon_2024_03_15, Throw (APIError MESSAGES.USER_EXISTS 409)).
Proof.
  apply (API_createUser_rejects_a_known_address (loaded_page noon_2024_03_15)
           juan_again sample_records [] (Some 0%nat)).
  - eexists. split; [reflexivity |]. apply (bool_decide_unpack _). vm_compute. reflexivity.
  - reflexivity.
  - reflexivity.
  - repeat constructor.
  - vm_compute. reflexivity.
  - vm_compute. reflexivity.
  - vm_compute. reflexivity.
Defined.

(** ** A login that succeeds *)

Lemma has_id_with_number (id : option json) (user : json) :
  is_Some (id_of user) -> exists b, UserStorage.has_id id user = Return b.
Proof.
  intros [q Hq]. unfold UserStorage.has_id. rewrite (id_of_Some user q Hq). eauto.
Qed.

(** On a stored collection of records with numeric ids that can be
    cloned, [setCurrentUser] returns. *)
Lemma setCurrentUser_returns (user : json) (w : world) (items entries : list json) :
  user <> JNull ->
  stored w STORAGE_KEYS.USER_DATA = Some (JArr items) ->
  Forall (fun u => is_Some (id_of u)) items ->
  Forall (fun u => clonable u = true) items ->
  audit_log w = Some entries ->
  exists w' : world, SessionStorage.setCurrentUser user w = (w', Return tt).
Proof.
  intros Huser Hstored Hids Hclone Hlog.
  unfold SessionStorage.setCurrentUser, SessionStorage.generateSessionId. step.
  set (w2 := with_storage _ _).
  assert (Hstored2 : stored w2 STORAGE_KEYS.USER_DATA = Some (JArr items)).
  { unfold w2. rewrite !stored_with_storage_insert_ne by done.
    unfold stored in *. by proj. }
  assert (Hlog2 : audit_log w2 = Some entries).
  { unfold audit_log, w2. rewrite !stored_with_storage_insert_ne by done.
    unfold audit_log, stored in *. by proj. }
  assert (Husers2 : user_collection w2 = Some items).
  { unfold user_collection. by rewrite Hstored2. }
  destruct (getNextUserId_run w2 items Hstored2 Hids) as [n Hnext].
  unfold UserStorage.constructor_temporary, Storage.initializeStorage. step.
  rewrite Hstored2. cbn [default from_option id JS.truthy negb]. step.
  unfold bind at 1. rewrite Hnext. step.
  assert (Hget : get_prop user "id" = Return (JS.prop user "id")) by (by destruct user).
  rewrite Hget. step. unfold bind at 1.
  destruct (findIndex_total (UserStorage.has_id (JS.prop user "id")) items) as [[i |] Hfind].
  { eapply Forall_impl; [exact Hids |]. intros u. apply has_id_with_number. }
  - rewrite (updateUser_run _ _ w2 items entries i Husers2 Hlog2 Hfind)
      by (apply clonable_updatedUser; [by apply clonable_lookup | done]).
    by eexists.
  - rewrite (updateUser_missing _ _ w2 items Husers2 Hfind). by eexists.
Qed.



(** X21.  A login with the demo credentials succeeds on every stored collection
    of records with numeric ids that can be cloned: the demo
    administrator, who has id 0, becomes the current user of an open
    session. *)
Theorem login_of_the_demo_administrator
    (w : world) (items entries : list json) :
  stored w STORAGE_KEYS.USER_DATA = Some (JArr items) ->
  Forall (fun u => is_Some (id_of u)) items ->
  Forall (fun u => clonable u = true) items ->
  audit_log w = Some entries ->
  exists (w' : world) (user : json),
    API.login demo_credentials w
    = (w', Return (API.success (Some MESSAGES.LOGIN)
                     (Some (JObj [("user", user);
                                  ("token", JStr ("demo_token_"
                                                  +:+ JS.int_to_string 10 (clock w)));
                                  ("expiresIn", JInt 1800)]))))
    /\ user = JObj [("id", JInt 0); ("name", JStr "Administrador Demo");
                    ("email", JStr "admin@demo.com"); ("role", JStr "admin");
                    ("status", JStr "active")]
    /\ SessionStorage.getCurrentUser w' = (w', Return (Some user))
    /\ logged_in w'.
Proof.
  intros Hstored Hids Hclone Hlog.
  set (user := JObj [("id", JInt 0); ("name", JStr "Administrador Demo");
                     ("email", JStr "admin@demo.com"); ("role", JStr "admin");
                     ("status", JStr "active")]).
  destruct (setCurrentUser_returns user w items entries) as [w' Hset]; try done.
  destruct (session_after_setCurrentUser user w) as [Hcurrent Hin].
  rewrite Hset in Hcurrent, Hin. cbn [state_of fst] in Hcurrent, Hin.
  exists w', user. split; [| split; [done | split; [exact Hcurrent |]]].
  - unfold API.login, API.destructure, demo_credentials.
    cbn [get_prop JS.prop JS.lookup_field String.eqb Ascii.eqb Bool.eqb]. step.
    cbn [JS.strict_eq String.eqb Ascii.eqb Bool.eqb andb API.literal].
    fold user. unfold bind at 1. by rewrite Hset.
  - exists (Some (JBool true)). unfold value_of. by rewrite Hin.
Qed.

Example login_of_the_demo_administrator_witness :
  exists (w' : world) (user : json),
    API.login demo_credentials (loaded_page noon_2024_03_15)
    = (w', Return (API.success (Some MESSAGES.LOGIN)
                     (Some (JObj [("user", user);
                                  ("token",
                                   JStr ("demo_token_"
                                         +:+ JS.int_to_string 10
                                               (clock (loaded_page noon_2024_03_15))));
                                  ("expiresIn", JInt 1800)]))))
    /\ user = JObj [("id", JInt 0); ("name", JStr "Administrador Demo");
                    ("email", JStr "admin@demo.com"); ("role", JStr "admin");
                    ("status", JStr "active")]
    /\ SessionStorage.getCurrentUser w' = (w', Return (Some user))
    /\ logged_in w'.
Proof.
  apply (login_of_the_demo_administrator (loaded_page noon_2024_03_15) sample_records []).
  - vm_compute. reflexivity.
  - exact sample_records_have_ids.
  - exact sample_records_clonable.
  - vm_compute. reflexivity.
Defined.

(** ** Backups *)

(** A run of [createBackup]: the document holds, for each key of
    [STORAGE_KEYS], the value stored under it unless that is absent or
    null, and is itself stored under the backup key. *)
Lemma createBackup_run (w : world) :
  exists data : list (string * json),
    let doc := JObj [("version", JStr "1.0.0");
                     ("timestamp", JStr (Date.toISOString (clock w)));
                     ("data", JObj data)] in
    BackupStorage.createBackup w
    = (with_storage (<[Storage.prefix +:+ STORAGE_KEYS.BACKUP_DATA := doc]>
                       (localStorage w)) w, Return doc)
    /\ forall key, key ∈ STORAGE_KEYS.values -> JS.lookup_field key data = snapshot w key.
Proof.
  assert (Hall : forall keys, exists data,
            BackupStorage.collect keys [] w = (w, Return data)
            /\ forall key, key ∈ keys -> JS.lookup_field key data = snapshot w key).
  { intros keys. destruct (collect_run keys [] w) as [data [Hrun _]]; [constructor |].
    exists data. split; [done |]. intros key Hkey.
    destruct (collect_lookup keys key [] w) as [data' [Hrun' Hlookup]].
    rewrite Hrun in Hrun'. simplify_eq.
    rewrite bool_decide_eq_true_2 in Hlookup by done.
    rewrite Hlookup. by destruct (snapshot w key). }
  destruct (Hall STORAGE_KEYS.values) as [data [Hrun Hlookup]].
  exists data. cbv zeta. split; [| done].
  unfold BackupStorage.createBackup. step. unfold bind at 1. rewrite Hrun. by step.
Qed.

(** X22.  Each backup holds the one taken before it: the document is stored
    under a key of [STORAGE_KEYS], so the next [createBackup] copies it
    into its own data. *)
Theorem createBackup_nests_the_previous_backup (w : world) (t : Z) :
  exists (first second : json) (w1 w2 : world) (data : list (string * json)),
    BackupStorage.createBackup w = (w1, Return first)
    /\ BackupStorage.createBackup (at_time t w1) = (w2, Return second)
    /\ JS.prop second "data" = Some (JObj data)
    /\ JS.lookup_field STORAGE_KEYS.BACKUP_DATA data = Some first.
Proof.
  destruct (createBackup_run w) as [data1 [Hfirst _]]. cbv zeta in Hfirst.
  set (first := JObj _) in Hfirst. set (w1 := with_storage _ w) in Hfirst.
  destruct (createBackup_run (at_time t w1)) as [data2 [Hsecond Hlookup]].
  cbv zeta in Hsecond.
  eexists first, _, w1, _, data2.
  split; [exact Hfirst |]. split; [exact Hsecond |]. split; [reflexivity |].
  rewrite Hlookup by (do 3 apply list_elem_of_further; apply list_elem_of_here).
  unfold snapshot.
  change (stored (at_time t w1) STORAGE_KEYS.BACKUP_DATA)
    with (stored w1 STORAGE_KEYS.BACKUP_DATA).
  unfold w1. by rewrite stored_with_storage_insert_eq.
Qed.

(** X23.  [exportData(format)] stores a new backup whatever the format, and for
    a format other than json and csv it answers the empty string. *)
Theorem exportData_always_stores_a_backup (format : string) (w : world) :
  exists (doc : json) (w' : world),
    BackupStorage.createBackup w = (w', Return doc)
    /\ state_of (BackupStorage.exportData format w) = w'
    /\ stored w' STORAGE_KEYS.BACKUP_DATA = Some doc
    /\ (String.eqb format "json" = false -> String.eqb format "csv" = false ->
        BackupStorage.exportData format w = (w', Return ""%string)).
Proof.
  destruct (createBackup_run w) as [data [Hrun _]]. cbv zeta in Hrun.
  eexists; eexists. split; [exact Hrun |].
  split; [| split].
  - unfold BackupStorage.exportData, bind at 1. rewrite Hrun.
    destruct (String.eqb format "json"); [done |].
    destruct (String.eqb format "csv"); [| done].
    step. unfold lift. done.
  - apply stored_with_storage_insert_eq.
  - intros Hjson Hcsv. unfold BackupStorage.exportData, bind at 1.
    by rewrite Hrun, Hjson, Hcsv.
Qed.

(** ** Restoring *)

Lemma restore_entries_run (entries : list (string * json)) :
  forall w : world,
    NoDup (map fst entries) ->
    exists w' : world,
      forEach BackupStorage.restore_entry entries w = (w', Return tt)
      /\ forall key,
           stored w' key
           = if bool_decide (key = STORAGE_KEYS.BACKUP_DATA) then stored w key
             else match JS.lookup_field key entries with
                  | Some value => Some value
                  | None => stored w key
                  end.
Proof.
  induction entries as [| [k v] rest IH]; intros w Hnd; cbn [forEach].
  - exists w. split; [done |]. intros key. by case_bool_decide.
  - apply NoDup_cons in Hnd as [Hk Hnd].
    assert (Hrest : JS.lookup_field k rest = None) by (by apply lookup_field_None).
    unfold BackupStorage.restore_entry at 1. cbn [fst snd].
    destruct (String.eqb k STORAGE_KEYS.BACKUP_DATA) eqn:E; cbn [negb].
    + apply String.eqb_eq in E. subst k. step.
      destruct (IH w Hnd) as [w' [Hrun Hstored]]. exists w'. split; [done |].
      intros key. rewrite Hstored. case_bool_decide as Hkey; [done |].
      cbn [JS.lookup_field]. apply String.eqb_neq in Hkey. by rewrite Hkey.
    + apply String.eqb_neq in E. step.
      destruct (IH (with_storage (<[Storage.prefix +:+ k := v]> (localStorage w)) w) Hnd)
        as [w' [Hrun Hstored]].
      exists w'. split; [done |]. intros key. rewrite Hstored.
      case_bool_decide as Hkey.
      * subst key. by rewrite stored_with_storage_insert_ne.
      * cbn [JS.lookup_field]. destruct (String.eqb key k) eqn:Ek.
        -- apply String.eqb_eq in Ek. subst key. rewrite Hrest.
           apply stored_with_storage_insert_eq.
        -- apply String.eqb_neq in Ek.
           by rewrite stored_with_storage_insert_ne.
Qed.

(** X24.  [restoreBackup(backup)] of a document whose [data] is an object
    answers true and overwrites the keys that [data] names, the backup key
    excepted; it removes nothing: a key that [data] does not name keeps
    the value it has. *)
Theorem restoreBackup_overwrites_and_never_removes
    (w : world) (backup : json) (entries : list (string * json)) :
  JS.truthy backup = true ->
  JS.prop backup "data" = Some (JObj entries) ->
  NoDup (map fst entries) ->
  exists w' : world,
    BackupStorage.restoreBackup backup w = (w', Return true)
    /\ forall key,
         stored w' key
         = if bool_decide (key = STORAGE_KEYS.BACKUP_DATA) then stored w key
           else match JS.lookup_field key entries with
                | Some value => Some value
                | None => stored w key
                end.
Proof.
  intros Htruthy Hdata Hnd.
  destruct (restore_entries_run entries w Hnd) as [w' [Hrun Hstored]].
  exists w'. split; [| done].
  unfold BackupStorage.restoreBackup, try_catch. step.
  rewrite Htruthy. cbv beta iota. rewrite Htruthy, Hdata.
  cbn [JS.truthy_opt JS.truthy negb orb default from_option id JS.own_props].
  unfold bind at 1. by rewrite Hrun.
Qed.

Example restoreBackup_overwrites_and_never_removes_witness :
  exists w' : world,
    BackupStorage.restoreBackup backup_before_login (logged_in_page noon_2024_03_15)
    = (w', Return true)
    /\ forall key,
         stored w' key
         = if bool_decide (key = STORAGE_KEYS.BACKUP_DATA)
           then stored (logged_in_page noon_2024_03_15) key
           else match JS.lookup_field key
                        [(STORAGE_KEYS.USER_DATA, SAMPLE_USERS);
                         (STORAGE_KEYS.SYSTEM_SETTINGS, Storage.default_settings)] with
                | Some value => Some value
                | None => stored (logged_in_page noon_2024_03_15) key
                end.
Proof.
  apply (restoreBackup_overwrites_and_never_removes (logged_in_page noon_2024_03_15)
           backup_before_login).
  - reflexivity.
  - vm_compute. reflexivity.
  - apply (bool_decide_unpack _). vm_compute. reflexivity.
Defined.

Lemma restore_entries_return (entries : list (string * json)) :
  forall w : world,
    exists w' : world, forEach BackupStorage.restore_entry entries w = (w', Return tt).
Proof.
  induction entries as [| [k v] rest IH]; intros w; cbn [forEach].
  - by exists w.
  - unfold BackupStorage.restore_entry at 1. cbn [fst snd].
    destruct (String.eqb k STORAGE_KEYS.BACKUP_DATA); cbn [negb]; step; apply IH.
Qed.

(** X25.  [restoreBackup] never throws.  It answers true exactly when the
    document, which is the argument or for a falsy argument the stored
    backup, has a truthy [data]; when it answers false it has changed
    nothing. *)
Theorem restoreBackup_never_throws (w : world) (backupData : json) :
  let backup := if JS.truthy backupData then backupData
                else default JNull (stored w STORAGE_KEYS.BACKUP_DATA) in
  let restored := JS.truthy backup && JS.truthy_opt (JS.prop backup "data") in
  exists w' : world,
    BackupStorage.restoreBackup backupData w = (w', Return restored)
    /\ (restored = false -> w' = w).
Proof.
  intros backup restored. subst restored.
  unfold BackupStorage.restoreBackup, try_catch. step. fold backup.
  destruct (JS.truthy backup) eqn:Hbackup; cbn [negb orb andb].
  - destruct (JS.truthy_opt (JS.prop backup "data")) eqn:Hdata; cbn [negb].
    + destruct (restore_entries_return
                  (JS.own_props (default JNull (JS.prop backup "data"))) w)
        as [w' Hrun].
      exists w'. unfold bind at 1. rewrite Hrun. by step.
    + exists w. by step.
  - exists w. by step.
Qed.

(** ** From the client service to the repository *)

Lemma js_digit_char (d : Z) :
  0 <= d <= 9 ->
  Date.digit (JS.digit_char d) = Some d.
Proof.
  intros H. unfold JS.digit_char.
  replace (d <? 10) with true by (symmetry; apply Z.ltb_lt; lia).
  assert (Hk : (Z.to_nat d < 10)%nat) by lia.
  replace d with (Z.of_nat (Z.to_nat d)) by lia.
  destruct (Z.to_nat d) as [| k]; [done |].
  do 9 (destruct k as [| k]; [done |]). lia.
Qed.

(** Reading back the decimal digits that [toString] writes in front of
    [tail]. *)
Lemma digit_run_radix_digits (fuel : nat) :
  forall (n : Z) (tail : string),
    0 <= n < 2 ^ Z.of_nat (S fuel) ->
    exists k : Z,
      0 < k
      /\ forall acc : option Z,
           API.digit_run acc (JS.radix_digits (S fuel) 10 n tail)
           = API.digit_run (Some (default 0 acc * 10 ^ k + n)) tail.
Proof.
  assert (Hlast : forall (n : Z) (tail : string) (acc : option Z),
            0 <= n < 10 ->
            API.digit_run acc (String (JS.digit_char (n mod 10)) tail)
            = API.digit_run (Some (default 0 acc * 10 ^ 1 + n)) tail).
  { intros n tail acc Hn. cbn [API.digit_run]. rewrite Z.mod_small by lia.
    rewrite js_digit_char by lia. repeat f_equal; lia. }
  induction fuel as [| fuel IH]; intros n tail Hn.
  - exists 1. split; [lia |]. intros acc. cbn [JS.radix_digits].
    change (2 ^ Z.of_nat 1) with 2 in Hn.
    replace (n <? 10) with true by (symmetry; apply Z.ltb_lt; lia).
    apply Hlast. lia.
  - change (JS.radix_digits (S (S fuel)) 10 n tail)
      with (if n <? 10 then String (JS.digit_char (n mod 10)) tail
            else JS.radix_digits (S fuel) 10 (n / 10)
                   (String (JS.digit_char (n mod 10)) tail)).
    destruct (n <? 10) eqn:E.
    + apply Z.ltb_lt in E. exists 1. split; [lia |]. intros acc. apply Hlast. lia.
    + apply Z.ltb_ge in E.
      destruct (IH (n / 10) (String (JS.digit_char (n mod 10)) tail)) as [k [Hk Hrun]].
      { split; [apply Z.div_pos; lia |].
        rewrite (Nat2Z.inj_succ (S fuel)), Z.pow_succ_r in Hn by lia.
        apply Z.div_lt_upper_bound; lia. }
      exists (k + 1). split; [lia |]. intros acc. rewrite Hrun.
      cbn [API.digit_run]. rewrite js_digit_char by (pose proof (Z.mod_pos_bound n 10); lia).
      do 2 f_equal. cbn [default from_option id].
      rewrite Z.pow_add_r by lia.
      pose proof (Z.div_mod n 10 ltac:(lia)). lia.
Qed.

Lemma digit_run_int_to_string (n : Z) :
  0 <= n -> API.digit_run None (JS.int_to_string 10 n) = (Some n, ""%string).
Proof.
  intros Hn. unfold JS.int_to_string.
  replace (n <? 0) with false by (symmetry; apply Z.ltb_ge; lia).
  destruct (digit_run_radix_digits (Z.to_nat (Z.log2 n)) n "") as [k [Hk Hrun]].
  { split; [done |]. rewrite Nat2Z.inj_succ, Z2Nat.id by apply Z.log2_nonneg.
    destruct (decide (n = 0)) as [-> | Hpos]; [done |].
    apply Z.log2_spec. lia. }
  rewrite Hrun. cbn [API.digit_run default from_option id]. repeat f_equal; lia.
Qed.

Lemma append_empty (s : string) : s +:+ "" = s.
Proof.
  induction s as [| c s IH]; [done |].
  change (String c (s +:+ "") = String c s). by rewrite IH.
Qed.

Lemma endpoint_of_id (id : Z) :
  UsersAPI.endpoint "/api/users/:id" id = "/api/users/" +:+ JS.int_to_string 10 id.
Proof.
  unfold UsersAPI.endpoint.
  cbn [Str.replace JS.startsWith Ascii.eqb Bool.eqb andb String.length JS.substr_from].
  by rewrite append_empty.
Qed.

(** X26.  The endpoint that the client service builds for a user leads the
    handler back to the id of that user. *)
Theorem extractIdFromEndpoint_of_the_built_endpoint (id : Z) :
  0 <= id <= 9007199254740991 ->
  API.extractIdFromEndpoint (UsersAPI.endpoint UsersAPI.UPDATE id) = Some id
  /\ API.extractIdFromEndpoint (UsersAPI.endpoint UsersAPI.DELETE id) = Some id.
Proof.
  intros [Hid _]. unfold UsersAPI.UPDATE, UsersAPI.DELETE. rewrite endpoint_of_id.
  assert (H : API.extractIdFromEndpoint ("/api/users/" +:+ JS.int_to_string 10 id)
              = Some id).
  { pose proof (digit_run_int_to_string id Hid) as Hrun. revert Hrun.
    generalize (JS.int_to_string 10 id). intros ds Hrun.
    unfold append. cbn. by rewrite Hrun. }
  done.
Qed.

Example extractIdFromEndpoint_witness :
  API.extractIdFromEndpoint (UsersAPI.endpoint UsersAPI.UPDATE 42) = Some 42
  /\ API.extractIdFromEndpoint (UsersAPI.endpoint UsersAPI.DELETE 42) = Some 42.
Proof. apply (extractIdFromEndpoint_of_the_built_endpoint 42). lia. Defined.

Lemma radix_digits_digits_only (fuel : nat) :
  forall (n : Z) (tail : string),
    0 <= n -> digits_only tail -> digits_only (JS.radix_digits fuel 10 n tail).
Proof.
  induction fuel as [| fuel IH]; intros n tail Hn Htail; [done |].
  assert (Hnext : digits_only (String (JS.digit_char (n mod 10)) tail)).
  { unfold digits_only. cbn [Str.any].
    rewrite js_digit_char by (pose proof (Z.mod_pos_bound n 10); lia). exact Htail. }
  cbn [JS.radix_digits]. destruct (n <? 10); [done |].
  apply IH; [apply Z.div_pos; lia | done].
Qed.

Lemma int_to_string_digits_only (n : Z) : 0 <= n -> digits_only (JS.int_to_string 10 n).
Proof.
  intros Hn. unfold JS.int_to_string.
  replace (n <? 0) with false by (symmetry; apply Z.ltb_ge; lia).
  by apply radix_digits_digits_only.
Qed.

Lemma startsWith_digits (a : ascii) (p ds : string) :
  Date.digit a = None -> digits_only ds -> JS.startsWith (String a p) ds = false.
Proof.
  intros Ha Hds. destruct ds as [| c ds]; [done |]. cbn [JS.startsWith].
  unfold digits_only in Hds. cbn [Str.any] in Hds.
  destruct (Date.digit c) eqn:Hc; [| done].
  replace (Ascii.eqb a c) with false; [done |].
  symmetry. apply Ascii.eqb_neq. intros ->. congruence.
Qed.

Lemma includes_digits (a : ascii) (p ds : string) :
  Date.digit a = None -> digits_only ds -> JS.includes (String a p) ds = false.
Proof.
  intros Ha. induction ds as [| c ds IH]; intros Hds; [done |].
  cbn [JS.includes]. rewrite startsWith_digits by done.
  apply IH. unfold digits_only in *. cbn [Str.any] in Hds.
  by destruct (Date.digit c).
Qed.

Lemma includes_cons (p : string) (c : ascii) (s : string) :
  JS.includes p (String c s) = JS.startsWith p (String c s) || JS.includes p s.
Proof. reflexivity. Qed.

Lemma startsWith_cons (a : ascii) (p : string) (c : ascii) (s : string) :
  JS.startsWith (String a p) (String c s) = Ascii.eqb a c && JS.startsWith p s.
Proof. reflexivity. Qed.

Ltac compare_characters :=
  repeat match goal with
         | |- context [Ascii.eqb (Ascii ?a0 ?a1 ?a2 ?a3 ?a4 ?a5 ?a6 ?a7)
                                 (Ascii ?b0 ?b1 ?b2 ?b3 ?b4 ?b5 ?b6 ?b7)] =>
             let r := eval vm_compute in
               (Ascii.eqb (Ascii a0 a1 a2 a3 a4 a5 a6 a7) (Ascii b0 b1 b2 b3 b4 b5 b6 b7)) in
             change (Ascii.eqb (Ascii a0 a1 a2 a3 a4 a5 a6 a7)
                               (Ascii b0 b1 b2 b3 b4 b5 b6 b7)) with r
         end;
  cbn [andb orb].

Lemma route_of_a_user_endpoint (ds : string) :
  digits_only ds ->
  JS.includes "/auth/" ("/api/users/" +:+ ds) = false
  /\ JS.includes "/users" ("/api/users/" +:+ ds) = true
  /\ JS.includes "/users/" ("/api/users/" +:+ ds) = true.
Proof.
  intros Hds. unfold append. split; [| split].
  - rewrite !includes_cons, !startsWith_cons. compare_characters.
    rewrite (startsWith_digits "a" "uth/" ds), (includes_digits "/" "auth/" ds); done.
  - rewrite !includes_cons, !startsWith_cons. compare_characters. done.
  - rewrite !includes_cons, !startsWith_cons. compare_characters. done.
Qed.

Lemma logged_in_run (w : world) :
  logged_in w ->
  exists v, SessionStorage.isLoggedIn w = (w, Return v) /\ JS.truthy_opt v = true.
Proof.
  intros [v [Hv Htruthy]]. destruct (isLoggedIn_run w) as [v' Hrun].
  unfold value_of in Hv. rewrite Hrun in Hv. cbn [snd] in Hv. simplify_eq. eauto.
Qed.

(** X27.  [UsersAPI.deleteUser(id)] and [UsersAPI.updateUser(id, updates)]
    while somebody is logged in, for updates that are a record and for
    updates and stored records that can be cloned.  When a stored record
    carries the id, the first such record is removed, or replaced by the
    record that [updateUser] of the repository builds from it, and the
    answer is the success envelope; otherwise either call fails with the
    404 error and changes nothing. *)
Theorem UsersAPI_requests_reach_the_repository
    (w : world) (id : Z) (updates : json) (items entries : list json)
    (found : option nat) :
  0 <= id <= 9007199254740991 ->
  logged_in w ->
  is_record updates ->
  clonable updates = true ->
  user_collection w = Some items ->
  Forall (fun u => clonable u = true) items ->
  audit_log w = Some entries ->
  findIndex (UserStorage.has_id (Some (JInt id))) items = Return found ->
  match found with
  | Some i =>
      (exists w' : world,
         UsersAPI.deleteUser id w
         = (w', Return (API.success (Some MESSAGES.USER_DELETED) None))
         /\ user_collection w' = Some (delete i items))
      /\ (let user := JObj (UserStorage.updatedUser (items !! i) (Some updates) (clock w)) in
          exists w' : world,
            UsersAPI.updateUser id updates w
            = (w', Return (API.success (Some MESSAGES.USER_UPDATED)
                             (Some (JObj [("user", user)]))))
            /\ user_collection w' = Some (<[i := user]> items))
  | None =>
      UsersAPI.deleteUser id w = (w, Throw (APIError MESSAGES.USER_NOT_FOUND 404))
      /\ UsersAPI.updateUser id updates w
         = (w, Throw (APIError MESSAGES.USER_NOT_FOUND 404))
  end.
Proof.
  intros [Hid _] Hin _ Hupdates Husers Hclone Hlog Hfind.
  destruct (logged_in_run w Hin) as [v [Hrun Htruthy]].
  destruct (route_of_a_user_endpoint (JS.int_to_string 10 id)) as [Hauth [Hroute Hslash]];
    [by apply int_to_string_digits_only |].
  assert (Hextract : API.extractIdFromEndpoint ("/api/users/" +:+ JS.int_to_string 10 id)
                     = Some id).
  { pose proof (digit_run_int_to_string id Hid) as Hdigits. revert Hdigits.
    generalize (JS.int_to_string 10 id). intros ds Hdigits.
    unfold append. cbn. by rewrite Hdigits. }
  assert (Hdelete : UsersAPI.deleteUser id w = API.deleteUser (Some id) w).
  { unfold UsersAPI.deleteUser, UsersAPI.DELETE. rewrite endpoint_of_id.
    unfold API.processRequest. rewrite Hauth, Hroute.
    unfold API.handleUsersRequest, bind at 1. rewrite Hrun, Htruthy. cbn [negb].
    change (String.eqb "DELETE" "GET") with false.
    change (String.eqb "DELETE" "POST") with false.
    change (String.eqb "DELETE" "PUT") with false.
    change (String.eqb "DELETE" "DELETE") with true.
    cbn [andb]. by rewrite Hslash, Hextract. }
  assert (Hupdate : UsersAPI.updateUser id updates w
                    = API.updateUser (Some id) updates w).
  { unfold UsersAPI.updateUser, UsersAPI.UPDATE. rewrite endpoint_of_id.
    unfold API.processRequest. rewrite Hauth, Hroute.
    unfold API.handleUsersRequest, bind at 1. rewrite Hrun, Htruthy. cbn [negb].
    change (String.eqb "PUT" "GET") with false.
    change (String.eqb "PUT" "POST") with false.
    change (String.eqb "PUT" "PUT") with true.
    cbn [andb]. by rewrite Hslash, Hextract. }
  rewrite Hdelete, Hupdate.
  destruct found as [i |]; (split; [unfold API.deleteUser | unfold API.updateUser]);
    unfold bind at 1.
  - rewrite (deleteUser_run _ w items entries i Husers Hlog Hfind)
      by (by apply clonable_at).
    cbn [negb].
    eexists. split; [reflexivity |]. apply user_collection_after.
  - rewrite (updateUser_run _ (Some updates) w items entries i Husers Hlog Hfind)
      by (apply clonable_updatedUser; [by apply clonable_lookup | done]).
    cbn [JS.truthy negb]. eexists. split; [reflexivity |]. apply user_collection_after.
  - by rewrite (deleteUser_missing _ w items Husers Hfind).
  - by rewrite (updateUser_missing _ (Some updates) w items Husers Hfind).
Qed.

Example UsersAPI_requests_witness :
  (exists w' : world,
     UsersAPI.deleteUser 3 (logged_in_page noon_2024_03_15)
     = (w', Return (API.success (Some MESSAGES.USER_DELETED) None))
     /\ user_collection w' = Some (delete 2%nat sample_records))
  /\ (let user := JObj (UserStorage.updatedUser (sample_records !! 2%nat)
                          (Some deactivate) (clock (logged_in_page noon_2024_03_15))) in
      exists w' : world,
        UsersAPI.updateUser 3 deactivate (logged_in_page noon_2024_03_15)
        = (w', Return (API.success (Some MESSAGES.USER_UPDATED)
                         (Some (JObj [("user", user)]))))
        /\ user_collection w' = Some (<[2%nat := user]> sample_records)).
Proof.
  apply (UsersAPI_requests_reach_the_repository (logged_in_page noon_2024_03_15) 3
           deactivate sample_records
           (default [] (audit_log (logged_in_page noon_2024_03_15))) (Some 2%nat)).
  - lia.
  - exists (Some (JBool true)). split; vm_compute; reflexivity.
  - eexists. split; [reflexivity |]. apply (bool_decide_unpack _). vm_compute. reflexivity.
  - reflexivity.
  - vm_compute. reflexivity.
  - exact sample_records_clonable.
  - vm_compute. reflexivity.
  - vm_compute. reflexivity.
Defined.

(** ** Comparing decoded values *)

Lemma lookup_indexed (items : list json) :
  forall i j : nat,
    JS.lookup_field (pretty (i + j)%nat) (JS.indexed i items) = items !! j.
Proof.
  induction items as [| x rest IH]; intros i j; cbn [JS.indexed JS.lookup_field]; [done |].
  destruct j as [| j].
  - rewrite Nat.add_0_r, String.eqb_refl. done.
  - replace (String.eqb (pretty (i + S j)%nat) (pretty i)) with false.
    + replace (i + S j)%nat with (S i + j)%nat by lia. apply IH.
    + symmetry. apply String.eqb_neq. intros Heq. apply (inj pretty) in Heq. lia.
Qed.

Lemma length_indexed (items : list json) (i : nat) :
  length (JS.indexed i items) = length items.
Proof. revert i. induction items as [| x rest IH]; intros i; simpl; [done |]. by rewrite IH. Qed.

Lemma strict_eq_refl (v : json) :
  Data.is_object v = false -> JS.strict_eq (Some v) (Some v) = true.
Proof.
  destruct v as [| b | q | s | l | f]; simpl; try done; intros _.
  - by destruct b.
  - apply Qeq_bool_iff. reflexivity.
  - apply String.eqb_refl.
Qed.

(** A well-formed value is deep-equal to every value with the same own
    properties, and so to itself. *)
Lemma deepEqual_same_properties :
  forall v : json,
    well_formed v ->
    forall other : json,
      (Data.is_object v = true ->
       Data.is_object other = true /\ JS.own_props other = JS.own_props v) ->
      (Data.is_object v = false -> other = v) ->
      Data.deepEqual v other = true.
Proof.
  fix IH 1. intros [| b | q | s | items | fields] Hwf other Hobject Hprimitive;
    try (rewrite (Hprimitive eq_refl); by apply strict_eq_refl).
  - destruct (Hobject eq_refl) as [Hother Hprops]. cbn [Data.deepEqual].
    rewrite Hother, Hprops. cbn [JS.own_props andb].
    rewrite length_indexed, Nat.eqb_refl. cbn [andb].
    assert (Hevery : forall (seen : list json) (elements : list json),
              items = seen ++ elements ->
              (fix all (elements : list json) : Prop :=
                 match elements with
                 | [] => True
                 | value :: rest => well_formed value /\ all rest
                 end) elements ->
              (fix every (i : nat) (elements : list json) : bool :=
                 match elements with
                 | [] => true
                 | value :: rest =>
                     match JS.lookup_field (pretty i) (JS.indexed 0 items) with
                     | Some other0 => Data.deepEqual value other0 && every (S i) rest
                     | None => false
                     end
                 end) (length seen) elements = true).
    { intros seen elements. revert seen.
      induction elements as [| x rest IHrest]; intros seen Hsplit Hall; [done |].
      destruct Hall as [Hx Hrest]. cbv beta iota fix.
      pose proof (lookup_indexed items 0 (length seen)) as Hlookup.
      cbn [Nat.add] in Hlookup. rewrite Hlookup.
      rewrite Hsplit at 1. rewrite list_lookup_middle by done.
      rewrite (IH x Hx x) by done. cbn [andb].
      replace (S (length seen)) with (length (seen ++ [x])) by (rewrite length_app; simpl; lia).
      apply IHrest; [by rewrite <- app_assoc | done]. }
    exact (Hevery [] items eq_refl Hwf).
  - destruct (Hobject eq_refl) as [Hother Hprops]. cbn [Data.deepEqual].
    rewrite Hother, Hprops. cbn [JS.own_props andb]. rewrite Nat.eqb_refl. cbn [andb].
    destruct Hwf as [Hnd Hall].
    assert (Hevery : forall entries : list (string * json),
              (forall kv, kv ∈ entries -> kv ∈ fields) ->
              (fix all (entries : list (string * json)) : Prop :=
                 match entries with
                 | [] => True
                 | (_, value) :: rest => well_formed value /\ all rest
                 end) entries ->
              (fix every (entries : list (string * json)) : bool :=
                 match entries with
                 | [] => true
                 | (key, value) :: rest =>
                     match JS.lookup_field key fields with
                     | Some other0 => Data.deepEqual value other0 && every rest
                     | None => false
                     end
                 end) entries = true).
    { induction entries as [| [k x] rest IHrest]; intros Hin Hwf; [done |].
      destruct Hwf as [Hx Hrest].
      assert (Hk : JS.lookup_field k fields = Some x).
      { apply lookup_field_Some; [done |]. apply Hin. by left. }
      cbv beta iota fix. rewrite Hk, (IH x Hx x) by done. cbn [andb].
      apply IHrest; [| done]. intros kv Hkv. apply Hin. by right. }
    exact (Hevery fields (fun kv H => H) Hall).
Qed.

(** X28.  A decoded value in which no object names a property twice, or
    names one [hasOwnProperty] or [__proto__], has a deep clone, which is
    deep-equal to the value in both orders of the arguments.  [deepEqual]
    compares property names only: an array is deep-equal to the object
    that holds its elements under their indices, and so the empty array
    to the empty object. *)
Theorem deepEqual_of_the_same_properties (v : json) :
  well_formed v ->
  avoids ["hasOwnProperty"; "__proto__"] v = true ->
  (exists clone : json,
     deepClone v = Return clone
     /\ Data.deepEqual v clone = true
     /\ Data.deepEqual clone v = true)
  /\ (forall items, v = JArr items ->
                    Data.deepEqual v (JObj (JS.indexed 0 items)) = true).
Proof.
  intros Hwf Hnames. split.
  - exists v. split; [by apply deepClone_same |].
    split; by apply deepEqual_same_properties.
  - intros items ->. by apply deepEqual_same_properties.
Qed.

Example deepEqual_of_the_same_properties_witness :
  (exists clone : json,
     deepClone SAMPLE_USERS = Return clone
     /\ Data.deepEqual SAMPLE_USERS clone = true
     /\ Data.deepEqual clone SAMPLE_USERS = true)
  /\ (forall items, SAMPLE_USERS = JArr items ->
                    Data.deepEqual SAMPLE_USERS (JObj (JS.indexed 0 items)) = true).
Proof.
  apply (deepEqual_of_the_same_properties SAMPLE_USERS).
  - cbn [well_formed SAMPLE_USERS sample_user map fst].
    repeat split; apply (bool_decide_unpack _); vm_compute; reflexivity.
  - vm_compute. reflexivity.
Defined.

(** ** Pages *)

Lemma trunc_integer (q : Q) (z : Z) : (q == inject_Z z)%Q -> Arr.trunc q = z.
Proof.
  intros Hq. unfold Arr.trunc. destruct (Qle_bool 0 q).
  - rewrite (Qfloor_comp _ _ Hq). apply Qfloor_Z.
  - rewrite (Qceiling_comp _ _ Hq). apply Qceiling_Z.
Qed.

Lemma slice_between {A} (l : list A) (start finish : Q) (a b : Z) :
  (start == inject_Z a)%Q -> (finish == inject_Z b)%Q ->
  0 <= a <= b ->
  Arr.slice start finish l = take (Z.to_nat (b - a)) (drop (Z.to_nat a) l).
Proof.
  intros Hstart Hfinish Hab. unfold Arr.slice, Arr.relative.
  rewrite (trunc_integer start a Hstart), (trunc_integer finish b Hfinish).
  replace (a <? 0) with false by (symmetry; apply Z.ltb_ge; lia).
  replace (b <? 0) with false by (symmetry; apply Z.ltb_ge; lia).
  destruct (decide (Z.of_nat (length l) <= a)) as [Hout | Hin].
  - rewrite !Z.min_r by lia. rewrite Z.sub_diag. cbn [Z.to_nat take].
    rewrite (drop_ge l (Z.to_nat a)) by lia. by destruct (Z.to_nat (b - a)).
  - rewrite (Z.min_l a) by lia. destruct (decide (b <= Z.of_nat (length l))) as [Hb | Hb].
    + by rewrite Z.min_l by lia.
    + rewrite Z.min_r by lia.
      rewrite !take_ge; [done | |]; rewrite length_drop; lia.
Qed.

(** X29.  [paginate(array, page, pageSize)] for a page number and a page size
    that are whole numbers from 1 on: the items are the next [pageSize]
    elements after the first [(page - 1) * pageSize] ones; [totalPages] is
    the least number of pages that hold every element; there is a next
    page exactly when the page number is below it, and a previous one
    exactly when the page number is above 1. *)
Theorem paginate_pages (array : list json) (page pageSize : Z) :
  1 <= page -> 1 <= pageSize ->
  exists totalPages : Z,
    Data.paginate array (inject_Z page) (inject_Z pageSize)
    = Return (JObj [("items", JArr (take (Z.to_nat pageSize)
                                      (drop (Z.to_nat ((page - 1) * pageSize)) array)));
                    ("totalItems", JInt (Z.of_nat (length array)));
                    ("totalPages", JInt totalPages);
                    ("currentPage", JInt page);
                    ("pageSize", JInt pageSize);
                    ("hasNext", JBool (page <? totalPages));
                    ("hasPrev", JBool (1 <? page))])
    /\ (totalPages - 1) * pageSize < Z.of_nat (length array) <= totalPages * pageSize.
Proof.
  intros Hpage Hsize.
  set (len := Z.of_nat (length array)).
  set (T := Qceiling (inject_Z len / inject_Z pageSize)).
  assert (Hs : (0 < inject_Z pageSize)%Q) by (rewrite <- (Zlt_Qlt 0); lia).
  assert (Hdiv : (inject_Z len / inject_Z pageSize * inject_Z pageSize == inject_Z len)%Q).
  { field. intros H0. rewrite H0 in Hs. by apply Qlt_irrefl in Hs. }
  assert (HT : (T - 1) * pageSize < len <= T * pageSize).
  { split.
    - pose proof (Qceiling_lt (inject_Z len / inject_Z pageSize)) as Hlt. fold T in Hlt.
      apply (Qmult_lt_compat_r _ _ (inject_Z pageSize)) in Hlt; [| done].
      rewrite Hdiv, <- inject_Z_mult in Hlt. by rewrite Zlt_Qlt.
    - pose proof (Qle_ceiling (inject_Z len / inject_Z pageSize)) as Hle. fold T in Hle.
      apply (Qmult_le_compat_r _ _ (inject_Z pageSize)) in Hle; [| by apply Qlt_le_weak].
      rewrite Hdiv, <- inject_Z_mult in Hle. by rewrite Zle_Qle. }
  assert (Hstart : ((inject_Z page - 1) * inject_Z pageSize
                    == inject_Z ((page - 1) * pageSize))%Q).
  { rewrite inject_Z_mult. unfold Z.sub. rewrite inject_Z_plus, inject_Z_opp.
    change (inject_Z 1) with 1%Q. ring. }
  assert (Hend : ((inject_Z page - 1) * inject_Z pageSize + inject_Z pageSize
                  == inject_Z (page * pageSize))%Q).
  { rewrite Hstart, <- inject_Z_plus. replace ((page - 1) * pageSize + pageSize)
      with (page * pageSize) by lia. reflexivity. }
  exists T. split; [| exact HT].
  unfold Data.paginate.
  replace (Qeq_bool (inject_Z pageSize) 0) with false.
  2: { symmetry. apply not_true_is_false. rewrite Qeq_bool_iff. intros H0.
       rewrite H0 in Hs. by apply Qlt_irrefl in Hs. }
  rewrite (slice_between array _ _ ((page - 1) * pageSize) (page * pageSize) Hstart Hend)
    by nia.
  replace (page * pageSize - (page - 1) * pageSize) with pageSize by lia.
  replace (Data.Qlt_bool ((inject_Z page - 1) * inject_Z pageSize + inject_Z pageSize)
             (inject_Z (Z.of_nat (length array))))
    with (page <? T).
  2: { unfold Data.Qlt_bool. fold len.
       destruct (Qle_bool (inject_Z len) _) eqn:E; cbn [negb].
       - apply Qle_bool_iff in E. rewrite Hend in E. rewrite <- Zle_Qle in E.
         apply Z.ltb_ge. nia.
       - apply Z.ltb_lt. destruct (decide (page < T)) as [Hlt | Hge]; [done |].
         exfalso. apply not_true_iff_false in E. apply E, Qle_bool_iff.
         rewrite Hend, <- Zle_Qle. nia. }
  replace (Data.Qlt_bool 1 (inject_Z page)) with (1 <? page); [done |].
  unfold Data.Qlt_bool. destruct (Qle_bool (inject_Z page) 1) eqn:E; cbn [negb].
  - apply Qle_bool_iff in E. change 1%Q with (inject_Z 1) in E.
    rewrite <- Zle_Qle in E. apply Z.ltb_ge. lia.
  - apply Z.ltb_lt. destruct (decide (1 < page)) as [Hlt | Hge]; [done |].
    exfalso. apply not_true_iff_false in E. apply E, Qle_bool_iff.
    change 1%Q with (inject_Z 1). rewrite <- Zle_Qle. lia.
Qed.

Example paginate_pages_witness :
  exists totalPages : Z,
    Data.paginate sample_records (inject_Z 2) (inject_Z 2)
    = Return (JObj [("items", JArr (take (Z.to_nat 2)
                                      (drop (Z.to_nat ((2 - 1) * 2)) sample_records)));
                    ("totalItems", JInt (Z.of_nat (length sample_records)));
                    ("totalPages", JInt totalPages);
                    ("currentPage", JInt 2);
                    ("pageSize", JInt 2);
                    ("hasNext", JBool (2 <? totalPages));
                    ("hasPrev", JBool (1 <? 2))])
    /\ (totalPages - 1) * 2 < Z.of_nat (length sample_records) <= totalPages * 2.
Proof. apply (paginate_pages sample_records 2 2); lia. Defined.

(** ** Passwords *)

(** X30.  The verdicts of [validatePassword] on the text of a field, made
    of ASCII characters: the password is valid exactly when it has six
    characters or more, a capital letter, a small letter and a digit; a
    valid password is never rated weak, and a password rated strong is
    always valid. *)
Theorem validatePassword_verdicts (password : string) :
  ascii_text password = true ->
  let result := Validation.validatePassword password in
  (JS.prop result "isValid" = Some (JBool true)
   <-> (6 <= String.length password)%nat
       /\ Str.any Validation.upper password = true
       /\ Str.any Validation.lower password = true
       /\ Str.any Validation.digit password = true)
  /\ (JS.prop result "isValid" = Some (JBool true) ->
      JS.prop result "strength" <> Some (JStr "weak"))
  /\ (JS.prop result "strength" = Some (JStr "strong") ->
      JS.prop result "isValid" = Some (JBool true)).
Proof.
  intros _. cbv zeta. unfold Validation.validatePassword.
  destruct (String.eqb password "") eqn:Hempty.
  - apply String.eqb_eq in Hempty. subst password.
    split; [split; [discriminate | intros [H _]; cbn in H; lia] |]. split; discriminate.
  - unfold Validation.minLength.
    generalize (JStr ("Mínimo " +:+ JS.int_to_string 10 6 +:+ " caracteres")).
    intros minimum.
    destruct (Z.of_nat (String.length password) <? 6) eqn:Hshort;
      [apply Z.ltb_lt in Hshort | apply Z.ltb_ge in Hshort];
      (destruct (8 <=? Z.of_nat (String.length password)) eqn:Hlong;
       [apply Z.leb_le in Hlong | apply Z.leb_gt in Hlong]);
      destruct (Str.any Validation.upper password);
      destruct (Str.any Validation.lower password);
      destruct (Str.any Validation.digit password);
      destruct (Str.any Validation.special password);
      cbn;
      (split;
       [split;
        [intros H; first [discriminate H | repeat split; first [reflexivity | lia]
                         | exfalso; lia]
        | intros (H1 & H2 & H3 & H4);
          first [discriminate H2 | discriminate H3 | discriminate H4 | lia | reflexivity]]
       | split;
         [intros H; first [discriminate H | discriminate | exfalso; lia]
         | intros H; first [discriminate H | reflexivity | exfalso; lia]]]).
Qed.

Example validatePassword_verdicts_witness :
  JS.prop (Validation.validatePassword "Abcde1") "isValid" = Some (JBool true)
  /\ JS.prop (Validation.validatePassword "Abcde1") "strength" <> Some (JStr "weak").
Proof.
  destruct (validatePassword_verdicts "Abcde1" eq_refl) as [Hvalid [Hweak _]].
  assert (H : JS.prop (Validation.validatePassword "Abcde1") "isValid" = Some (JBool true)).
  { apply Hvalid. split; [cbn; lia |]. repeat split; reflexivity. }
  split; [exact H | exact (Hweak H)].
Defined.
